(** * RealEstate-US: the extraction client, the pipeline orchestrator,
      the valuation section extractor and the average-price metric

    A shallow embedding of
      - [src/utils/helpers.py]         ([extract_property_valuation]),
      - [src/scraper/firecrawl_agent.py] ([find_properties_direct]),
      - [src/agent/analysis.py]        ([run_sequential_analysis]),
      - [src/ui/display.py]            (the average-price metric, the
                                        most common type, the text tabs),
      - [src/main.py], [src/config.py] (the handling of a submitted form),
    together with the properties the specification states about them and
    further properties read off the code.

    A Python [str] is modelled by the [string] of the bytes of its UTF-8
    encoding.  Searching, splitting and replacing on the bytes is what
    Python does on the characters.  Whitespace, digits and letter case are
    classified on ASCII characters only: a byte above 127 is carried
    through unchanged and is neither whitespace, nor a digit, nor a cased
    letter.  The model is therefore Python's
      - for [strip], [lstrip], [rstrip] and [split()] on a text that holds
        none of the whitespace characters beyond ASCII ([no_wide_space]),
      - for [lower], [upper] and [isdigit] on an ASCII text ([ascii_text]),
    and every statement below that depends on one of these carries the
    matching hypothesis on its texts. *)

From Stdlib Require Import String Ascii List ZArith QArith Lia Bool Arith.
From Stdlib Require Import Sorting.Permutation.
From Stdlib Require Import Numbers.DecimalString.
From Stdlib Require Numbers.DecimalZ.
Import ListNotations.

Set Warnings "-register-all".
Close Scope Q_scope.
Local Open Scope list_scope.
Local Open Scope string_scope.

(* ================================================================== *)
(** ** Python string primitives *)
(* ================================================================== *)

Module PyStr.

(** The newline character and the blank-line separator ['\n\n']. *)
Definition nl : string := String (ascii_of_nat 10) "".
Definition nl2 : string := nl ++ nl.

(** [str.isspace] on one ASCII character: TAB, LF, VT, FF, CR, the four
    separators FS..US, and the space.  Python knows nineteen more
    whitespace characters, all beyond ASCII (U+0085, U+00A0, U+1680,
    U+2000 to U+200A, U+2028, U+2029, U+202F, U+205F, U+3000); a text
    holding one of them is outside the domain of [strip] and [split_ws]
    below, see [no_wide_space]. *)
Definition is_space (c : ascii) : bool :=
  let n := nat_of_ascii c in
  (((9 <=? n) && (n <=? 13)) || ((28 <=? n) && (n <=? 32)))%nat.

(** [str.isdigit] on one ASCII character.  Python also accepts digits
    beyond ASCII (superscripts, full-width digits, ...); a text holding a
    byte above 127 is outside the domain of the digit filter, see
    [ascii_text]. *)
Definition is_digit (c : ascii) : bool :=
  let n := nat_of_ascii c in ((48 <=? n) && (n <=? 57))%nat.

(** [str.lower] and [str.upper] on one ASCII character; Python also maps
    the cased letters beyond ASCII, so that a text holding a byte above
    127 is outside the domain of [lower] and [upper], see [ascii_text]. *)
Definition lower_ascii (c : ascii) : ascii :=
  let n := nat_of_ascii c in
  if ((65 <=? n) && (n <=? 90))%nat then ascii_of_nat (n + 32) else c.

Definition upper_ascii (c : ascii) : ascii :=
  let n := nat_of_ascii c in
  if ((97 <=? n) && (n <=? 122))%nat then ascii_of_nat (n - 32) else c.

Fixpoint map_chars (f : ascii -> ascii) (s : string) : string :=
  match s with
  | EmptyString => EmptyString
  | String c s' => String (f c) (map_chars f s')
  end.

(** [s.lower()] and [s.upper()]. *)
Definition lower : string -> string := map_chars lower_ascii.
Definition upper : string -> string := map_chars upper_ascii.

(** [s.startswith(p)]. *)
Fixpoint startswith (p s : string) : bool :=
  match p with
  | EmptyString => true
  | String a p' =>
      match s with
      | EmptyString => false
      | String b s' => Ascii.eqb a b && startswith p' s'
      end
  end.

(** [sub in s]. *)
Fixpoint contains (sub s : string) : bool :=
  startswith sub s ||
  match s with
  | EmptyString => false
  | String _ s' => contains sub s'
  end.

(** [s.lstrip()], [s.rstrip()] and [s.strip()]. *)
Fixpoint lstrip (s : string) : string :=
  match s with
  | EmptyString => EmptyString
  | String c s' => if is_space c then lstrip s' else s
  end.

Fixpoint rstrip (s : string) : string :=
  match s with
  | EmptyString => EmptyString
  | String c s' =>
      let r := rstrip s' in
      if is_space c && String.eqb r EmptyString then EmptyString
      else String c r
  end.

Definition strip (s : string) : string := rstrip (lstrip s).

(** [s.replace(old, new)] for a non-empty [old]: occurrences are found
    from the left and do not overlap.  [skip] counts the characters of an
    occurrence that are still to be passed over. *)
Fixpoint replace_go (old new : string) (skip : nat) (s : string) : string :=
  match s with
  | EmptyString => EmptyString
  | String c s' =>
      match skip with
      | S k => replace_go old new k s'
      | O =>
          if startswith old s
          then new ++ replace_go old new (String.length old - 1) s'
          else String c (replace_go old new 0 s')
      end
  end.

Definition replace (old new s : string) : string := replace_go old new 0 s.

(** [s.split(sep)] for a non-empty [sep]; [cur] is the piece read so far. *)
Fixpoint split_go (sep : string) (skip : nat) (cur : string) (s : string)
  : list string :=
  match s with
  | EmptyString => [cur]
  | String c s' =>
      match skip with
      | S k => split_go sep k cur s'
      | O =>
          if startswith sep s
          then cur :: split_go sep (String.length sep - 1) EmptyString s'
          else split_go sep 0 (cur ++ String c EmptyString) s'
      end
  end.

Definition split (sep s : string) : list string := split_go sep 0 EmptyString s.

(** [s.split()] without argument: the maximal runs of non-whitespace. *)
Fixpoint split_ws_go (cur : string) (s : string) : list string :=
  match s with
  | EmptyString => if String.eqb cur EmptyString then [] else [cur]
  | String c s' =>
      if is_space c
      then (if String.eqb cur EmptyString then split_ws_go EmptyString s'
            else cur :: split_ws_go EmptyString s')
      else split_ws_go (cur ++ String c EmptyString) s'
  end.

Definition split_ws (s : string) : list string := split_ws_go EmptyString s.

(** [''.join(filter(pred, s))]. *)
Fixpoint filter_chars (p : ascii -> bool) (s : string) : string :=
  match s with
  | EmptyString => EmptyString
  | String c s' => if p c then String c (filter_chars p s') else filter_chars p s'
  end.

(** [str(n)] for an [int]. *)
Definition str_of_Z (n : Z) : string := NilEmpty.string_of_int (Z.to_int n).

(** [str(n)] for a non-negative machine-independent count such as [len(l)]. *)
Definition str_of_nat (n : nat) : string := str_of_Z (Z.of_nat n).

(** ["\n".join(lines)]. *)
Fixpoint join_lines (lines : list string) : string :=
  match lines with
  | [] => EmptyString
  | [l] => l
  | l :: rest => l ++ nl ++ join_lines rest
  end.

End PyStr.

Import PyStr.

(* ================================================================== *)
(** ** [src/utils/helpers.py] *)
(* ================================================================== *)

Module Helpers.

Definition marker : string := "**Property".

(** The last [return] of [extract_property_valuation]. *)
Definition placeholder (property_number : Z) : string :=
  "**Property " ++ str_of_Z property_number ++ " Analysis**" ++ nl ++
  "• Analysis: Individual assessment not available" ++ nl ++
  "• Recommendation: Review general market analysis in the Market Analysis tab".

(** The two [replace] calls applied to a section found by its header. *)
Definition clean_section (section : string) : string :=
  replace "***" "**" (replace "**" "**" (strip (marker ++ section))).

(** [section.strip().startswith(f"{property_number}:")]. *)
Definition header_matches (property_number : Z) (section : string) : bool :=
  startswith (str_of_Z property_number ++ ":") (strip section).

(** [f"Property {property_number}" in section or f"#{property_number}" in section]. *)
Definition mentions (property_number : Z) (section : string) : bool :=
  contains ("Property " ++ str_of_Z property_number) section
  || contains ("#" ++ str_of_Z property_number) section.

(** [property_address.lower().split()[:3]] restricted to [len(word) > 2]. *)
Definition address_words (property_address : string) : list string :=
  filter (fun word => (2 <? String.length word)%nat)
         (firstn 3 (split_ws (lower property_address))).

(** [any(word in section.lower() for word in ...)]. *)
Definition address_matches (property_address section : string) : bool :=
  existsb (fun word => contains word (lower section))
          (address_words property_address).

(** [extract_property_valuation]; [None] is Python's [None].  A [None]
    argument for the text behaves as the empty text does. *)
Definition extract_property_valuation
    (property_valuations : string) (property_number : Z)
    (property_address : string) : option string :=
  if String.eqb property_valuations "" then None
  else
    let sections := split marker property_valuations in
    match find (header_matches property_number) sections with
    | Some section => Some (clean_section section)
    | None =>
        let all_sections := split nl2 property_valuations in
        match find (mentions property_number) all_sections with
        | Some section => Some section
        | None =>
            match find (address_matches property_address) all_sections with
            | Some section => Some section
            | None => Some (placeholder property_number)
            end
        end
    end.

End Helpers.


(* ================================================================== *)
(** ** Python values, exceptions and the calls that leave the program *)
(* ================================================================== *)

Module Py.

(** The values that cross the service boundaries: JSON-like data, and
    objects that expose attributes (a response object of the extraction
    client library, a validated record).  Floating-point numbers do not
    occur in the modelled data. *)
Inductive pyval : Type :=
| PNone
| PBool (b : bool)
| PInt (z : Z)
| PStr (s : string)
| PList (items : list pyval)
| PDict (entries : list (string * pyval))
| PObj (attrs : list (string * pyval)).

(** A [dict] with string keys, in insertion order; the first entry of a
    key is the one that counts. *)
Definition pydict : Type := list (string * pyval).

(** Exceptions derived from [Exception]: the built-in ones the modelled
    code can raise itself, and whatever an external collaborator raises. *)
Inductive exn : Type :=
| AttributeError
| TypeError
| KeyError
| IndexError
| Raised (name message : string).

(** A computation that may raise. *)
Definition E (A : Type) : Type := (exn + A)%type.

Definition bindE {A B : Type} (m : E A) (k : A -> E B) : E B :=
  match m with
  | inl e => inl e
  | inr a => k a
  end.

Fixpoint lookup (key : string) (d : pydict) : option pyval :=
  match d with
  | [] => None
  | (k, v) :: rest => if String.eqb k key then Some v else lookup key rest
  end.

(** [key in d]. *)
Definition has_key (key : string) (d : pydict) : bool :=
  match lookup key d with Some _ => true | None => false end.

(** [d.get(key, default)] on a [dict]. *)
Definition dict_get (d : pydict) (key : string) (default : pyval) : pyval :=
  match lookup key d with Some v => v | None => default end.

(** [d[key]]. *)
Definition dict_item (d : pydict) (key : string) : E pyval :=
  match lookup key d with Some v => inr v | None => inl KeyError end.

(** [v.get(key, default)] on an arbitrary value: only a [dict] has the
    method. *)
Definition py_get (v : pyval) (key : string) (default : pyval) : E pyval :=
  match v with
  | PDict d => inr (dict_get d key default)
  | _ => inl AttributeError
  end.

(** [hasattr(v, name)] for the attribute names the program asks for
    ([success], [data] and the fields of a property record): none of the
    built-in types has them. *)
Definition py_hasattr (v : pyval) (name : string) : bool :=
  match v with
  | PObj attrs => has_key name attrs
  | _ => false
  end.

(** [getattr(v, name, default)]. *)
Definition py_getattr (v : pyval) (name : string) (default : pyval) : pyval :=
  match v with
  | PObj attrs => dict_get attrs name default
  | _ => default
  end.

(** [isinstance(v, dict)]. *)
Definition is_dict (v : pyval) : bool :=
  match v with PDict _ => true | _ => false end.

(** [bool(v)]. *)
Definition py_truthy (v : pyval) : bool :=
  match v with
  | PNone => false
  | PBool b => b
  | PInt z => negb (Z.eqb z 0)
  | PStr s => negb (String.eqb s "")
  | PList items => match items with [] => false | _ => true end
  | PDict entries => match entries with [] => false | _ => true end
  | PObj _ => true
  end.

(** The number of distinct keys of an association list. *)
Definition dict_len (d : pydict) : nat :=
  List.length (nodup string_dec (map fst d)).

(** [len(v)]. *)
Definition py_len (v : pyval) : E nat :=
  match v with
  | PList items => inr (List.length items)
  | PStr s => inr (String.length s)
  | PDict entries => inr (dict_len entries)
  | _ => inl TypeError
  end.

(** [v > 0]. *)
Definition py_gt0 (v : pyval) : E bool :=
  match v with
  | PInt z => inr (0 <? z)%Z
  | PBool b => inr b
  | _ => inl TypeError
  end.

(** [v[0]]. *)
Definition py_index0 (v : pyval) : E pyval :=
  match v with
  | PList (x :: _) => inr x
  | PList [] => inl IndexError
  | PStr (String c _) => inr (PStr (String c ""))
  | PStr EmptyString => inl IndexError
  | PDict _ => inl KeyError
  | _ => inl TypeError
  end.

Fixpoint chars (s : string) : list pyval :=
  match s with
  | EmptyString => []
  | String c s' => PStr (String c "") :: chars s'
  end.

(** The items produced by iterating over [v]. *)
Definition py_iter (v : pyval) : E (list pyval) :=
  match v with
  | PList items => inr items
  | PStr s => inr (chars s)
  | PDict entries => inr (map PStr (nodup string_dec (map fst entries)))
  | _ => inl TypeError
  end.

(** Whether [json.dumps] accepts the value: everything but an object. *)
Fixpoint json_serializable (v : pyval) : bool :=
  match v with
  | PObj _ => false
  | PList items => forallb json_serializable items
  | PDict entries => forallb (fun kv => json_serializable (snd kv)) entries
  | _ => true
  end.

(** The prompts sent out, as the template they instantiate together with
    the values that fill its holes. *)
Inductive prompt : Type :=
| ExtractionPrompt
    (budget_range property_type bedrooms bathrooms min_sqft special_features : pyval)
| RawExtractionPrompt
| MarketPrompt (property_count : nat) (city state : string) (budget_range : pyval)
| ValuationPrompt (budget_range : pyval) (properties_for_valuation : list pydict)
    (property_count : nat).

(** The calls that leave the program.  The progress of a report is the
    literal of the source ([0.2], [0.95], ...), kept as the decimal
    fraction it denotes; the program never computes with it. *)
Inductive call : Type :=
| Extract (urls : list string) (p : prompt) (with_schema : bool)
| MarketRun (p : prompt)
| ValuationRun (p : prompt)
| UpdateCallback (progress : Q) (status activity : string).

Definition trace : Type := list call.

Definition is_extract (c : call) : bool :=
  match c with Extract _ _ _ => true | _ => false end.


Definition is_generator_run (c : call) : bool :=
  match c with MarketRun _ | ValuationRun _ => true | _ => false end.

Definition is_callback (c : call) : bool :=
  match c with UpdateCallback _ _ _ => true | _ => false end.

Definition count (p : call -> bool) (t : trace) : nat :=
  List.length (filter p t).

(** Two worlds that answer alike, except for what the progress callback
    returns when it returns. *)
Definition same_but_for_callback_results (w1 w2 : trace -> call -> E pyval) : Prop :=
  forall t c,
    match w1 t c, w2 t c with
    | inl e1, inl e2 => e1 = e2
    | inr v1, inr v2 => is_callback c = true \/ v1 = v2
    | _, _ => False
    end.

End Py.

Import Py.

(* ================================================================== *)
(** ** Stand-ins for the outside world, used to exercise the model *)
(* ================================================================== *)

Module Stubs.

(** A service response in its mapping shape. *)
Definition response (properties : list pyval) (total_count : Z) : pyval :=
  PDict [ ("success", PBool true);
          ("data", PDict [ ("properties", PList properties);
                           ("total_count", PInt total_count) ]) ].

Definition two_listings : list pyval :=
  [ PDict [ ("address", PStr "123 Main St"); ("price", PStr "$500,000") ];
    PDict [ ("address", PStr "456 Oak Ave"); ("price", PStr "$750,000") ] ].

Definition plain_repr : pyval -> string := fun _ => "<value>".

Definition plain_exn : exn -> string :=
  fun e => match e with Raised _ message => message | _ => "<error>" end.

Definition no_links : pyval -> pyval -> pyval -> list string := fun _ _ _ => [].

(** The service reports success with no listing at all. *)
Definition nothing_found : trace -> call -> E pyval :=
  fun _ _ => inr (response [] 0).

(** The service detects five listings but extracts none with the schema;
    the schema-free retry yields two.  The generators answer, and the
    callback returns [None]. *)
Definition retry_succeeds : trace -> call -> E pyval :=
  fun _ c =>
    match c with
    | Extract _ _ true => inr (response [] 5)
    | Extract _ _ false => inr (response two_listings 2)
    | MarketRun _ => inr (PStr "Balanced market.")
    | ValuationRun _ => inr (PStr "**Property 1: 123 Main St**")
    | UpdateCallback _ _ _ => inr PNone
    end.

(** The same world with a callback that returns a number. *)
Definition retry_succeeds_chatty : trace -> call -> E pyval :=
  fun t c =>
    match c with
    | UpdateCallback _ _ _ => inr (PInt 1)
    | _ => retry_succeeds t c
    end.


(** The retry answers with a payload that is not a mapping. *)
Definition retry_malformed : trace -> call -> E pyval :=
  fun _ c =>
    match c with
    | Extract _ _ true => inr (response [] 5)
    | Extract _ _ false => inr (PDict [ ("success", PBool true); ("data", PNone) ])
    | _ => inr PNone
    end.

(** A text of [n] nines. *)
Fixpoint nines (n : nat) : string :=
  match n with
  | O => EmptyString
  | S k => String "9" (nines k)
  end.


(** Clients put in the place of the extraction client. *)
Definition failing_client : trace -> E pydict * trace :=
  fun t => (inr [ ("error", PStr "service unavailable") ], t).

Definition empty_client : trace -> E pydict * trace :=
  fun t => (inr [ ("success", PBool true); ("properties", PList []) ], t).

End Stubs.

(** Further worlds, clients and records. *)
Module Scenarios.

(** The service answers with an object that reports success and carries
    no data, and the same answer as a mapping. *)
Definition bare_success_object : trace -> call -> E pyval :=
  fun _ _ => inr (PObj [ ("success", PBool true) ]).

Definition bare_success_mapping : trace -> call -> E pyval :=
  fun _ _ => inr (PDict [ ("success", PBool true) ]).

(** The response object of the client library when it carries nothing:
    its data attribute is [None]. *)
Definition empty_data_object : trace -> call -> E pyval :=
  fun _ _ => inr (PObj [ ("success", PBool true); ("data", PNone) ]).

(** The service refuses the request. *)
Definition refused : trace -> call -> E pyval :=
  fun _ _ => inr (PDict [ ("success", PBool false); ("error", PStr "quota") ]).

(** The world of [Stubs.retry_succeeds] with a market generator that is
    out of quota. *)
Definition market_down : trace -> call -> E pyval :=
  fun t c =>
    match c with
    | MarketRun _ => inl (Raised "ResourceExhausted" "quota exceeded")
    | _ => Stubs.retry_succeeds t c
    end.

(** A client that hands over one record as an object. *)
Definition object_client : trace -> E pydict * trace :=
  fun t =>
    (inr [ ("success", PBool true);
           ("properties", PList [ PObj [ ("address", PStr "1 Elm St") ] ]) ],
     t).

(** A record that only carries a type. *)
Definition typed (property_type : string) : pyval :=
  PDict [ ("property_type", PStr property_type) ].

End Scenarios.

(* ================================================================== *)
(** ** The program proper *)
(* ================================================================== *)

Section RealEstate.

(** What Python and the outside world supply:
    - [py_repr v] is [str(v)] for a container or an object;
    - [str_exn e] is [str(e)] for an exception;
    - [find_urls properties market valuations] enumerates
      [set(re.findall(URL_PATTERN, all_text))] for the text assembled from
      the three values;
    - [world t c] is the outcome of the external call [c] made after the
      calls [t]: the hosted extraction service, the two narrative
      generators and the caller's progress callback. *)
Variable py_repr : pyval -> string.
Variable str_exn : exn -> string.
Variable find_urls : pyval -> pyval -> pyval -> list string.
Variable world : trace -> call -> E pyval.

(** [str(v)], as an f-string hole renders it. *)
Definition py_str (v : pyval) : string :=
  match v with
  | PNone => "None"
  | PBool true => "True"
  | PBool false => "False"
  | PInt z => str_of_Z z
  | PStr s => s
  | _ => py_repr v
  end.

(** *** Computations that call out and may raise *)

Definition M (A : Type) : Type := trace -> E A * trace.

Definition ret {A : Type} (a : A) : M A := fun t => (inr a, t).

Definition bind {A B : Type} (m : M A) (k : A -> M B) : M B :=
  fun t =>
    match m t with
    | (inl e, t') => (inl e, t')
    | (inr a, t') => k a t'
    end.

(** A pure step that may raise. *)
Definition lift {A : Type} (m : E A) : M A := fun t => (m, t).

(** One external call: it is recorded, then it returns or raises. *)
Definition invoke (c : call) : M pyval := fun t => (world t c, (t ++ [c])%list).

(** [try: body  except Exception as e: handler(e)]. *)
Definition try_except {A : Type} (body : M A) (handler : exn -> M A) : M A :=
  fun t =>
    match body t with
    | (inl e, t') => handler e t'
    | (inr a, t') => (inr a, t')
    end.

Notation "x <- m ;; k" := (bind m (fun x => k))
  (at level 61, m at next level, right associativity).
Notation "' pat <- m ;; k" := (bind m (fun x => match x with pat => k end))
  (at level 61, pat pattern, m at next level, right associativity).
Notation "m ;;; k" := (bind m (fun _ => k))
  (at level 61, right associativity).

(* ---------------------------------------------------------------- *)
(** *** [src/ui/display.py]: the average-price metric of
    [display_properties_professionally] *)

(** [p.get('price', '') if isinstance(p, dict) else getattr(p, 'price', '')]. *)
Definition price_of (p : pyval) : pyval :=
  match p with
  | PDict d => dict_get d "price" (PStr "")
  | _ => py_getattr p "price" (PStr "")
  end.

(** [price_str != 'Price not available']. *)
Definition differs_from_sentinel (price_str : pyval) : bool :=
  match price_str with
  | PStr s => negb (String.eqb s "Price not available")
  | _ => true
  end.

Definition digit_value (c : ascii) : Z := Z.of_nat (nat_of_ascii c - 48).

(** [int(digits)] for a string of ASCII digits, read from the left with
    the value [acc] of the digits already passed. *)
Fixpoint digits_value (acc : Z) (digits : string) : Z :=
  match digits with
  | EmptyString => acc
  | String c rest => digits_value (10 * acc + digit_value c)%Z rest
  end.

Definition int_of_digits (digits : string) : Z := digits_value 0%Z digits.

(** CPython's limit on the length of a decimal string that [int] converts
    ([sys.int_info.default_max_str_digits]). *)
Definition int_max_str_digits : nat := 4300.

(** [int(digits)] for a non-empty string of ASCII digits: the number, or
    a [ValueError] when the string is longer than the limit. *)
Definition py_int (digits : string) : E Z :=
  if (String.length digits <=? int_max_str_digits)%nat
  then inr (int_of_digits digits)
  else inl (Raised "ValueError"
              "Exceeds the limit (4300 digits) for integer string conversion").

(** The [try] block of the loop: the new value of [prices], or the
    exception raised before the [append]. *)
Definition try_collect (prices : list Z) (price_str : pyval) : E (list Z) :=
  let price_num := filter_chars is_digit (py_str price_str) in
  if negb (String.eqb price_num "") then
    bindE (py_int price_num) (fun price => inr (prices ++ [price])%list)
  else inr prices.

(** The body of the loop over [properties]; [except: pass] leaves
    [prices] as it was. *)
Definition collect_price (prices : list Z) (p : pyval) : list Z :=
  let price_str := price_of p in
  if py_truthy price_str && differs_from_sentinel price_str then
    match try_collect prices price_str with
    | inr collected => collected
    | inl _ => prices
    end
  else prices.

Definition collect_prices (properties : list pyval) : list Z :=
  fold_left collect_price properties [].

(** Commas between groups of three digits, counted from the right. *)
Fixpoint group_thousands (digits : string) : string :=
  match digits with
  | EmptyString => EmptyString
  | String c rest =>
      if ((String.length rest mod 3 =? 0) && (0 <? String.length rest))%nat
      then String c ("," ++ group_thousands rest)
      else String c (group_thousands rest)
  end.

(** [f"{n:,}"]. *)
Definition format_thousands (n : Z) : string :=
  if (n <? 0)%Z then "-" ++ group_thousands (str_of_Z (Z.abs n))
  else group_thousands (str_of_Z n).

Definition sum_Z (l : list Z) : Z := fold_left Z.add l 0%Z.

(** [f"${sum(prices) // len(prices):,}" if prices else "N/A"]. *)
Definition avg_price (properties : list pyval) : string :=
  let prices := collect_prices properties in
  match prices with
  | [] => "N/A"
  | _ => "$" ++ format_thousands (sum_Z prices / Z.of_nat (List.length prices))
  end.

(* ---------------------------------------------------------------- *)
(** *** [src/scraper/firecrawl_agent.py] *)

(** The [search_urls] dictionary, in insertion order.  [state] may be
    [None] or empty in the source, and both give the empty string. *)
Definition search_urls (city state : string) : list (string * string) :=
  let city_formatted := lower (replace " " "-" city) in
  let state_upper := upper state in
  let state_lower := lower state in
  let city_trulia := replace " " "_" city in
  [ ("Zillow",
     "https://www.zillow.com/homes/for_sale/" ++ city_formatted ++ "-" ++ state_upper ++ "/");
    ("Realtor.com",
     "https://www.realtor.com/realestateandhomes-search/" ++ city_formatted ++ "_"
       ++ state_upper ++ "/pg-1");
    ("Trulia",
     "https://www.trulia.com/" ++ state_upper ++ "/" ++ city_trulia ++ "/");
    ("Homes.com",
     "https://www.homes.com/homes-for-sale/" ++ city_formatted ++ "-" ++ state_lower ++ "/") ].

(** [site in selected_websites]. *)
Definition selected (selected_websites : list string) (site : string) : bool :=
  existsb (String.eqb site) selected_websites.

(** [[url for site, url in search_urls.items() if site in selected_websites]]. *)
Definition urls_to_search (city state : string) (selected_websites : list string)
  : list string :=
  map snd (filter (fun su => selected selected_websites (fst su))
                  (search_urls city state)).

Definition extraction_prompt (user_criteria : pydict) : prompt :=
  ExtractionPrompt
    (dict_get user_criteria "budget_range" (PStr "Any"))
    (dict_get user_criteria "property_type" (PStr "Any"))
    (dict_get user_criteria "bedrooms" (PStr "Any"))
    (dict_get user_criteria "bathrooms" (PStr "Any"))
    (dict_get user_criteria "min_sqft" (PStr "Any"))
    (dict_get user_criteria "special_features" (PStr "Any")).

(** The first response brought to [(properties, total_count)]. *)
Definition normalize (raw_response : pyval) : E (pyval * pyval) :=
  if py_hasattr raw_response "success"
     && py_truthy (py_getattr raw_response "success" PNone)
  then
    if py_hasattr raw_response "data" then
      let data := py_getattr raw_response "data" PNone in
      bindE (py_get data "properties" (PList [])) (fun properties =>
      bindE (py_get data "total_count" (PInt 0)) (fun total_count =>
      inr (properties, total_count)))
    else inr (PList [], PInt 0)
  else
    match raw_response with
    | PDict d =>
        if py_truthy (dict_get d "success" PNone) then
          bindE (dict_item d "data") (fun data =>
          bindE (py_get data "properties" (PList [])) (fun properties =>
          bindE (py_get data "total_count" (PInt 0)) (fun total_count =>
          inr (properties, total_count))))
        else inr (PList [], PInt 0)
    | _ => inr (PList [], PInt 0)
    end.

(** The locals [(properties, total_count)] of [find_properties_direct]. *)
Definition locals : Type := (pyval * pyval)%type.

(** The two assignments of the retry, with the exception they end in, if
    any.  The default [len(properties)] of the second one is evaluated
    before the lookup; when it raises, the first assignment has already
    happened. *)
Definition retry_assign (raw_data : pydict) (l : locals) : option exn * locals :=
  let properties := dict_get raw_data "properties" (PList []) in
  match py_len properties with
  | inl e => (Some e, (properties, snd l))
  | inr n => (None, (properties, dict_get raw_data "total_count" (PInt (Z.of_nat n))))
  end.

(** What the inner [try] does with the second response: the exception it
    raises, if any, and the locals it leaves. *)
Definition retry_body (raw_response_2 : pyval) (l : locals) : option exn * locals :=
  if py_hasattr raw_response_2 "success"
     && py_truthy (py_getattr raw_response_2 "success" PNone)
     && py_hasattr raw_response_2 "data"
  then
    match py_getattr raw_response_2 "data" PNone with
    | PDict raw_data => retry_assign raw_data l
    | _ => (None, l)
    end
  else
    match raw_response_2 with
    | PDict d =>
        if py_truthy (dict_get d "success" PNone) then
          match dict_get d "data" (PDict []) with
          | PDict raw_data => retry_assign raw_data l
          | _ => (Some AttributeError, l)
          end
        else (None, l)
    | _ => (None, l)
    end.

(** The inner [try ... except Exception]: one more call, without a
    schema; an exception of the call or of [retry_body] is dropped and
    the locals are kept as they are at that point. *)
Definition retry_without_schema (urls : list string) (l : locals) : M locals :=
  try_except
    (raw_response_2 <- invoke (Extract urls RawExtractionPrompt false) ;;
     ret (snd (retry_body raw_response_2 l)))
    (fun _ => ret l).

Definition no_properties_message (total_count : pyval) (extracted searched : nat)
    (selected_websites : list string) : string :=
  join_lines
    [ "No properties extracted despite finding " ++ py_str total_count ++ " listings.";
      "                ";
      "POSSIBLE CAUSES:";
      "1. Website structure changed - pages may require JavaScript rendering";
      "2. Website blocking automated requests or showing captcha";
      "3. Dynamic content not being captured properly";
      "4. Firecrawl schema validation too strict for page format";
      "";
      "SUGGESTIONS TO TRY:";
      "1. Refresh and try again - temporary website issues";
      "2. Select different websites (Zillow, Realtor.com, Trulia, Homes.com)";
      "3. Use broader search criteria (Any bedrooms, Any type, etc.)";
      "4. Check Internet connection and website availability";
      "";
      "DEBUG INFO:";
      "- Total listings detected: " ++ py_str total_count;
      "- Properties extracted: " ++ str_of_nat extracted;
      "- URLs searched: " ++ str_of_nat searched;
      "- Selected websites: " ++ py_str (PList (map PStr selected_websites));
      "";
      "TECHNICAL: Schema extraction may have failed due to page structure changes." ].

Definition extraction_failed_message (e : exn) : string :=
  "Firecrawl extraction failed: " ++ str_exn e ++ nl2
    ++ "Please check your API keys and try again.".

Definition error_result (message : string) : pydict :=
  [ ("error", PStr message) ].

Definition success_result (properties : pyval) (count : nat)
    (selected_websites : list string) : pydict :=
  [ ("success", PBool true);
    ("properties", properties);
    ("total_count", PInt (Z.of_nat count));
    ("source_websites", PList (map PStr selected_websites)) ].

(** The first part of the outer [try]: the call, the normalisation and
    the optional retry.  Text written to standard output is not modelled;
    the expressions the [print] calls evaluate are, since they may raise. *)
Definition listings (urls : list string) (user_criteria : pydict) : M locals :=
  raw_response <- invoke (Extract urls (extraction_prompt user_criteria) true) ;;
  l <- lift (normalize raw_response) ;;
  extracted <- lift (py_len (fst l)) ;;
  retry <- lift (if (extracted =? 0)%nat then py_gt0 (snd l) else inr false) ;;
  if retry then retry_without_schema urls l else ret l.

(** The second part: the two [return]s inside the [try]. *)
Definition build_result (urls selected_websites : list string) (l : locals)
  : E pydict :=
  let (properties, total_count) := l in
  if py_truthy properties then
    bindE (py_index0 properties) (fun _ =>
    bindE (py_len properties) (fun count =>
    inr (success_result properties count selected_websites)))
  else
    bindE (py_len properties) (fun extracted =>
    inr (error_result
           (no_properties_message total_count extracted (List.length urls)
              selected_websites))).

Definition extract_and_normalize (urls : list string) (user_criteria : pydict)
    (selected_websites : list string) : M pydict :=
  l <- listings urls user_criteria ;;
  lift (build_result urls selected_websites l).

(** [DirectFirecrawlAgent.find_properties_direct]. *)
Definition find_properties_direct (city state : string) (user_criteria : pydict)
    (selected_websites : list string) : M pydict :=
  let urls := urls_to_search city state selected_websites in
  match urls with
  | [] => ret (error_result "No websites selected")
  | _ =>
      try_except
        (extract_and_normalize urls user_criteria selected_websites)
        (fun e => ret (error_result (extraction_failed_message e)))
  end.

(* ---------------------------------------------------------------- *)
(** *** [src/agent/analysis.py] *)

(** [enumerate(items, start)]. *)
Fixpoint enumerate {A : Type} (start : nat) (items : list A) : list (nat * A) :=
  match items with
  | [] => []
  | x :: rest => (start, x) :: enumerate (S start) rest
  end.

(** [prop.get(name, default) if isinstance(prop, dict) else
    getattr(prop, name, default)]. *)
Definition field (prop : pyval) (name default : string) : pyval :=
  match prop with
  | PDict d => dict_get d name (PStr default)
  | _ => py_getattr prop name (PStr default)
  end.

(** The summary [prop_data] of the property numbered [i]. *)
Definition prop_data (i : nat) (prop : pyval) : pydict :=
  [ ("number", PInt (Z.of_nat i));
    ("address", field prop "address" "Address not available");
    ("price", field prop "price" "Price not available");
    ("property_type", field prop "property_type" "Type not available");
    ("bedrooms", field prop "bedrooms" "Not specified");
    ("bathrooms", field prop "bathrooms" "Not specified");
    ("square_feet", field prop "square_feet" "Not specified") ].

(** The list built by the first loop over [enumerate(properties, 1)]. *)
Definition properties_for_valuation (properties : list pyval) : list pydict :=
  map (fun ip => prop_data (fst ip) (snd ip)) (enumerate 1 properties).

(** One Markdown block of [properties_display]. *)
Definition property_block (i : nat) (prop : pyval) : string :=
  join_lines
    [ "";
      "### Property " ++ str_of_nat i ++ ": "
        ++ py_str (field prop "address" "Address not available");
      "";
      "**Price:** " ++ py_str (field prop "price" "Price not available") ++ "  ";
      "**Type:** " ++ py_str (field prop "property_type" "Type not available") ++ "  ";
      "**Bedrooms:** " ++ py_str (field prop "bedrooms" "Not specified")
        ++ " | **Bathrooms:** " ++ py_str (field prop "bathrooms" "Not specified") ++ "  ";
      "**Square Feet:** " ++ py_str (field prop "square_feet" "Not specified") ++ "  ";
      "**Agent Contact:** "
        ++ py_str (field prop "agent_contact" "Contact not available") ++ "  ";
      "";
      "**Description:** "
        ++ py_str (field prop "description" "No description available") ++ "  ";
      "";
      "**Listing URL:** [View Property](" ++ py_str (field prop "listing_url" "#") ++ ")  ";
      "";
      "---";
      "" ].

(** The second loop: the blocks appended in iteration order. *)
Definition properties_display (properties : list pyval) : string :=
  fold_left (fun acc ip => acc ++ property_block (fst ip) (snd ip))
            (enumerate 1 properties) "".

Definition synthesis_body (count : nat) (display : string)
    (market_analysis property_valuations : pyval) : string :=
  join_lines
    [ "";
      "# 🏠 Property Listings Found";
      "";
      "**Total Properties:** " ++ str_of_nat count ++ " properties matching your criteria";
      "";
      display;
      "";
      "---";
      "";
      "# 📊 Market Analysis & Investment Insights";
      "";
      "        " ++ py_str market_analysis;
      "";
      "---";
      "    ";
      "# 💰 Property Valuations & Recommendations";
      "    ";
      "        " ++ py_str property_valuations;
      "";
      "---";
      "";
      "# 🔗 All Property Links";
      "    " ].

(** The numbered list of links appended when [urls] is not empty. *)
Definition links_section (urls : list string) : string :=
  match urls with
  | [] => ""
  | _ =>
      fold_left (fun acc iu => acc ++ str_of_nat (fst iu) ++ ". " ++ snd iu ++ nl)
                (enumerate 1 urls)
                (nl ++ "### Available Property Links:" ++ nl)
  end.

(** [json.dumps(v, indent=2)] is only needed for whether it raises. *)
Definition json_dumps_check (v : pyval) : E unit :=
  if json_serializable v then inr tt else inl TypeError.

(** A progress report; what the callback returns is dropped. *)
Definition update_callback (progress : Q) (status activity : string) : M unit :=
  invoke (UpdateCallback progress status activity) ;;; ret tt.

(** The final dictionary of [run_sequential_analysis]. *)
Definition pipeline_result (properties market_analysis property_valuations : pyval)
    (final_synthesis : string) (count : nat) : pyval :=
  PDict [ ("properties", properties);
          ("market_analysis", market_analysis);
          ("property_valuations", property_valuations);
          ("markdown_synthesis", PStr final_synthesis);
          ("total_properties", PInt (Z.of_nat count)) ].

(** Steps 2 to 4, entered with a truthy [properties].  A narrative
    generator's [run] is taken to give the [content] of its result. *)
Definition analyse (city state : string) (user_criteria : pydict)
    (properties : pyval) : M pyval :=
  let budget_range := dict_get user_criteria "budget_range" (PStr "Any") in
  count <- lift (py_len properties) ;;
  update_callback 0.4%Q "Properties found"
    ("✅ Found " ++ str_of_nat count ++ " properties") ;;;
  update_callback 0.5%Q "Analyzing market..."
    "📊 Market Analysis Agent: Analyzing market trends..." ;;;
  market_analysis <- invoke (MarketRun (MarketPrompt count city state budget_range)) ;;
  update_callback 0.7%Q "Market analysis complete" "✅ Market analysis completed" ;;;
  update_callback 0.8%Q "Evaluating properties..."
    "💰 Property Valuation Agent: Evaluating properties..." ;;;
  items <- lift (py_iter properties) ;;
  let summaries := properties_for_valuation items in
  lift (json_dumps_check (PList (map PDict summaries))) ;;;
  property_valuations <-
    invoke (ValuationRun (ValuationPrompt budget_range summaries count)) ;;
  update_callback 0.9%Q "Valuation complete" "✅ Property valuations completed" ;;;
  update_callback 0.95%Q "Synthesizing results..."
    "🤖 Synthesizing final recommendations..." ;;;
  let display := properties_display items in
  let body := synthesis_body count display market_analysis property_valuations in
  lift (json_dumps_check properties) ;;;
  let urls := find_urls properties market_analysis property_valuations in
  let final_synthesis := body ++ links_section urls in
  update_callback 1.0%Q "Analysis complete" "🎉 Complete analysis ready!" ;;;
  ret (pipeline_result properties market_analysis property_valuations
         final_synthesis count).

Definition no_properties_found : string :=
  "No properties found matching your criteria.".

(** [run_sequential_analysis] with the extraction client as a parameter,
    so that a stubbed client can be put in its place.  Building the
    agents and the model handle makes no call and is not modelled. *)
Definition run_with_client (client : M pydict) (city state : string)
    (user_criteria : pydict) : M pyval :=
  update_callback 0.2%Q "Searching properties..."
    "🔍 Property Search Agent: Finding properties..." ;;;
  properties_data <- client ;;
  if has_key "error" properties_data then
    ret (PStr ("Error in property search: "
               ++ py_str (dict_get properties_data "error" PNone)))
  else
    let properties := dict_get properties_data "properties" (PList []) in
    if negb (py_truthy properties) then ret (PStr no_properties_found)
    else analyse city state user_criteria properties.

(** [run_sequential_analysis]; the two credentials only reach the
    constructors of the external clients. *)
Definition run_sequential_analysis (city state : string) (user_criteria : pydict)
    (selected_websites : list string) (firecrawl_api_key google_api_key : string)
  : M pyval :=
  run_with_client
    (find_properties_direct city state user_criteria selected_websites)
    city state user_criteria.


(* ---------------------------------------------------------------- *)
(** *** [src/ui/display.py]: the most common type and the two text tabs *)

(** Whether a value can be a dictionary key.  Lists and dictionaries
    cannot; neither can a validated record, which compares by value and so
    has no hash. *)
Definition py_hashable (v : pyval) : bool :=
  match v with
  | PNone | PBool _ | PInt _ | PStr _ => true
  | _ => false
  end.

(** Equality of two dictionary keys: [True] and [1], [False] and [0] are
    the same key. *)
Definition py_key_eqb (a b : pyval) : bool :=
  match a, b with
  | PNone, PNone => true
  | PBool x, PBool y => Bool.eqb x y
  | PInt x, PInt y => Z.eqb x y
  | PBool x, PInt y => Z.eqb (if x then 1 else 0) y
  | PInt x, PBool y => Z.eqb x (if y then 1 else 0)
  | PStr x, PStr y => String.eqb x y
  | _, _ => false
  end.

(** [types[t] = types.get(t, 0) + 1] on a dictionary kept in insertion
    order: a key that is present keeps its place. *)
Fixpoint bump (t : pyval) (types : list (pyval * nat)) : list (pyval * nat) :=
  match types with
  | [] => [(t, 1)]
  | (k, n) :: rest =>
      if py_key_eqb k t then (k, S n) :: rest else (k, n) :: bump t rest
  end.

(** The loop that fills [types]. *)
Definition count_type (types : E (list (pyval * nat))) (p : pyval)
  : E (list (pyval * nat)) :=
  bindE types (fun counted =>
    let t := field p "property_type" "Unknown" in
    if py_hashable t then inr (bump t counted) else inl TypeError).

Definition type_counts (properties : list pyval) : E (list (pyval * nat)) :=
  fold_left count_type properties (inr []).

(** [max(items, key=lambda x: x[1])] after the first item [best]: a later
    item takes over only with a strictly greater count. *)
Fixpoint max_by_count (best : pyval * nat) (items : list (pyval * nat))
  : pyval * nat :=
  match items with
  | [] => best
  | x :: rest => max_by_count (if (snd best <? snd x)%nat then x else best) rest
  end.

(** [max(types.items(), key=lambda x: x[1])[0] if types else "N/A"]. *)
Definition most_common_type (properties : list pyval) : E pyval :=
  bindE (type_counts properties) (fun types =>
    match types with
    | [] => inr (PStr "N/A")
    | first :: rest => inr (fst (max_by_count first rest))
    end).

(** What a tab puts on the page. *)
Inductive widget : Type :=
| Subheader (text : string)
| Markdown (text : string)
| Info (text : string).

(** [section.strip()] is truthy. *)
Definition not_blank (section : string) : bool :=
  negb (String.eqb (strip section) "").

(** The body shared by the market tab and the valuations tab: one
    Markdown widget per paragraph that is not blank, or a notice when the
    text is falsy.  A truthy value that is no string has no [split]. *)
Definition analysis_tab (title notice : string) (analysis : pyval)
  : E (list widget) :=
  if py_truthy analysis then
    match analysis with
    | PStr text =>
        inr (Subheader title :: map Markdown (filter not_blank (split nl2 text)))
    | _ => inl AttributeError
    end
  else inr [Subheader title; Info notice].

Definition market_tab : pyval -> E (list widget) :=
  analysis_tab "📊 Market Analysis" "No market analysis available".

Definition valuations_tab : pyval -> E (list widget) :=
  analysis_tab "💰 Investment Analysis" "No valuation data available".

(* ---------------------------------------------------------------- *)
(** *** [src/config.py] and [src/main.py] *)

Definition AVAILABLE_WEBSITES : list string :=
  [ "Zillow"; "Realtor.com"; "Trulia"; "Homes.com" ].

Definition DEFAULT_WEBSITES : list string := [ "Zillow"; "Realtor.com" ].

(** [[site for site in AVAILABLE_WEBSITES if st.checkbox(site, ...)]];
    [checked] tells which boxes are ticked. *)
Definition selected_websites_of (checked : string -> bool) : list string :=
  filter checked AVAILABLE_WEBSITES.

(** The checks made on submission, in their order. *)
Definition missing_items (google_key firecrawl_key city : string)
    (selected_websites : list string) : list string :=
  ((if String.eqb google_key "" then [ "Google AI API Key" ] else [])
   ++ (if String.eqb firecrawl_key "" then [ "Firecrawl API Key" ] else [])
   ++ (if String.eqb city "" then [ "City" ] else [])
   ++ (match selected_websites with
       | [] => [ "At least one website selection" ]
       | _ => []
       end))%list.

(** [', '.join(items)]. *)
Fixpoint join_with (sep : string) (items : list string) : string :=
  match items with
  | [] => ""
  | [ x ] => x
  | x :: rest => x ++ sep ++ join_with sep rest
  end.

(** The [user_criteria] dictionary built from the form. *)
Definition user_criteria_of (min_price max_price : Z)
    (property_type bedrooms bathrooms : string) (min_sqft : Z)
    (special_features : string) : pydict :=
  [ ("budget_range",
     PStr ("$" ++ format_thousands min_price ++ " - $" ++ format_thousands max_price));
    ("property_type", PStr property_type);
    ("bedrooms", PStr bedrooms);
    ("bathrooms", PStr bathrooms);
    ("min_sqft", PInt min_sqft);
    ("special_features",
     PStr (if String.eqb special_features "" then "None specified"
           else special_features)) ].

(** What [update_progress] does to the page. *)
Inductive progress_update : Type :=
| SetProgressBar (progress : Q)
| SetActivityText (activity : string).

(** [update_progress(progress, status, activity=None)]: the status is not
    shown, and nothing happens without an activity. *)
Definition update_progress (progress : Q) (status : string) (activity : option string)
  : list progress_update :=
  match activity with
  | None => []
  | Some text =>
      if String.eqb text "" then []
      else [ SetProgressBar progress; SetActivityText text ]
  end.

(** What a submission ends in: the box asking for the [missing] inputs
    ("Please provide: <missing>"), the call of
    [display_properties_professionally] with its four arguments, the plain
    Markdown rendering of a string result, or the box reporting [error]
    ("An error occurred: <error>"). *)
Inductive page : Type :=
| AsksFor (missing : string)
| Dashboard (properties market_analysis property_valuations total_properties : pyval)
| MarkdownReport (final_result : pyval)
| ErrorBox (error : string).

(** The branch taken on the type of [final_result]. *)
Definition present (final_result : pyval) : E page :=
  match final_result with
  | PDict d =>
      bindE (dict_item d "properties") (fun properties =>
      bindE (dict_item d "market_analysis") (fun market_analysis =>
      bindE (dict_item d "property_valuations") (fun property_valuations =>
      bindE (dict_item d "total_properties") (fun total_properties =>
      inr (Dashboard properties market_analysis property_valuations
             total_properties)))))
  | _ => inr (MarkdownReport final_result)
  end.

(** The first report, made by [main] itself before the pipeline starts. *)
Definition initial_report : call :=
  UpdateCallback 0.1%Q "Initializing..." "Starting sequential property analysis".

(** The part of [main] that handles a submitted form.  The progress
    callback handed to the pipeline is [update_progress]; its calls are the
    [UpdateCallback] calls of the trace.  What
    [display_properties_professionally] does once called is not part of
    this function. *)
Definition submit (google_key firecrawl_key city state : string)
    (selected_websites : list string) (min_price max_price : Z)
    (property_type bedrooms bathrooms : string) (min_sqft : Z)
    (special_features : string) : M page :=
  match missing_items google_key firecrawl_key city selected_websites with
  | (_ :: _) as items => ret (AsksFor (join_with ", " items))
  | [] =>
      let user_criteria :=
        user_criteria_of min_price max_price property_type bedrooms bathrooms
          min_sqft special_features in
      try_except
        (invoke initial_report ;;;
         final_result <- run_sequential_analysis city state user_criteria
                           selected_websites firecrawl_key google_key ;;
         lift (present final_result))
        (fun e => ret (ErrorBox (str_exn e)))
  end.

(* ================================================================ *)
(** ** Notions the statements below are phrased with *)
(* ================================================================ *)

Fixpoint drop (n : nat) (s : string) : string :=
  match n, s with
  | O, _ => s
  | S _, EmptyString => EmptyString
  | S k, String _ s' => drop k s'
  end.

(** Every character of [s] satisfies [p]. *)
Fixpoint all_chars (p : ascii -> bool) (s : string) : bool :=
  match s with
  | EmptyString => true
  | String c s' => p c && all_chars p s'
  end.

(** The texts on which the model is Python's.  [ascii_text s]: every
    character of [s] is an ASCII character.  [no_wide_space s]: [s] holds
    none of the whitespace characters beyond ASCII, each given here by the
    bytes of its UTF-8 encoding (U+0085, U+00A0, U+1680, U+2000 to U+200A,
    U+2028, U+2029, U+202F, U+205F, U+3000). *)
Definition is_ascii (c : ascii) : bool := (nat_of_ascii c <? 128)%nat.

Definition ascii_text (s : string) : bool := all_chars is_ascii s.

Fixpoint string_of_bytes (bytes : list nat) : string :=
  match bytes with
  | [] => EmptyString
  | b :: rest => String (ascii_of_nat b) (string_of_bytes rest)
  end.

Definition wide_spaces : list string :=
  map string_of_bytes
    [ [194; 133]; [194; 160]; [225; 154; 128];
      [226; 128; 128]; [226; 128; 129]; [226; 128; 130]; [226; 128; 131];
      [226; 128; 132]; [226; 128; 133]; [226; 128; 134]; [226; 128; 135];
      [226; 128; 136]; [226; 128; 137]; [226; 128; 138];
      [226; 128; 168]; [226; 128; 169]; [226; 128; 175];
      [226; 129; 159]; [227; 128; 128] ].

Definition no_wide_space (s : string) : bool :=
  forallb (fun space => negb (contains space s)) wide_spaces.

(** [s] is not empty and its last character is not whitespace. *)
Fixpoint ends_nonspace (s : string) : bool :=
  match s with
  | EmptyString => false
  | String c EmptyString => negb (is_space c)
  | String _ s' => ends_nonspace s'
  end.

(** The first tier of the section extractor in the specification's
    words: split on the marker, take the first fragment whose trimmed
    content starts with the number and a colon, put the marker back and
    trim. *)
Definition first_tier_as_stated (text : string) (property_number : Z)
  : option string :=
  match find (Helpers.header_matches property_number)
             (split Helpers.marker text) with
  | Some fragment => Some (strip (Helpers.marker ++ fragment))
  | None => None
  end.

(** The text of the specification's example for the section extractor. *)
Definition sample_valuations : string :=
  "**Property 1: 123 Main St**" ++ nl ++ "• Value: Fair" ++ nl2 ++
  "**Property 2: 456 Oak Ave**" ++ nl ++ "• Value: High".

(** A valuation text whose first header closes with three asterisks. *)
Definition triple_asterisk_valuations : string :=
  "**Property 1: 123 Main St***" ++ nl ++ "• Value: Fair".

(** No tier of the heuristic finds a section. *)
Definition no_tier_matches (text : string) (property_number : Z)
    (property_address : string) : Prop :=
  find (Helpers.header_matches property_number) (split Helpers.marker text) = None
  /\ find (Helpers.mentions property_number) (split nl2 text) = None
  /\ find (Helpers.address_matches property_address) (split nl2 text) = None.

(** The average-price metric in the specification's words: an entry is
    kept when it is not empty, differs from the sentinel and holds a
    digit; its value is the integer its digits spell. *)
Definition has_digit (entry : string) : bool :=
  negb (String.eqb (filter_chars is_digit entry) "").

Definition kept (entry : string) : bool :=
  negb (String.eqb entry "")
  && negb (String.eqb entry "Price not available")
  && has_digit entry.

Definition entry_value (entry : string) : Z :=
  int_of_digits (filter_chars is_digit entry).

Definition kept_values (entries : list string) : list Z :=
  map entry_value (filter kept entries).

(** How many digits a text holds. *)
Definition digits_in (s : string) : nat := String.length (filter_chars is_digit s).

(** A text with no more digits than [int] converts. *)
Definition convertible (entry : string) : bool :=
  (digits_in entry <=? int_max_str_digits)%nat.

(** A price text that is ASCII and whose digits [int] converts. *)
Definition readable_price (entry : string) : bool :=
  ascii_text entry && convertible entry.

(** The values the metric keeps: those of the entries kept in the
    specification's words whose digits [int] converts; the [except]
    branch skips the others. *)
Definition collected_values (entries : list string) : list Z :=
  map entry_value (filter (fun entry => kept entry && convertible entry) entries).

Definition is_comma (c : ascii) : bool := Ascii.eqb c ",".

(** The specification's example for the metric. *)
Definition sample_prices : list string :=
  [ "$500,000"; "$750,000"; "Price not available" ].

(** A property record that only carries a price. *)
Definition priced (price : string) : pyval := PDict [ ("price", PStr price) ].

(** The known site enumeration ([AVAILABLE_WEBSITES] of [src/config.py]). *)
Definition known_sites : list string :=
  [ "Zillow"; "Realtor.com"; "Trulia"; "Homes.com" ].

(** [search_urls[site]], when the site is a key. *)
Fixpoint assoc (key : string) (table : list (string * string)) : option string :=
  match table with
  | [] => None
  | (k, v) :: rest => if String.eqb k key then Some v else assoc key rest
  end.

Definition site_url (city state site : string) : option string :=
  assoc site (search_urls city state).

(** The city of the Trulia address as the specification words it:
    lower-cased, with underscores for the spaces. *)
Definition trulia_city_as_stated (city : string) : string :=
  lower (replace " " "_" city).

(** The two requests the client can send. *)
Definition first_call (urls : list string) (user_criteria : pydict) : call :=
  Extract urls (extraction_prompt user_criteria) true.

Definition fallback_call (urls : list string) : call :=
  Extract urls RawExtractionPrompt false.

(** The outcome of the retry for the locals [l] after the calls [t]. *)
Definition after_retry (urls : list string) (l : locals) (t : trace) : locals :=
  match world t (fallback_call urls) with
  | inl _ => l
  | inr raw_response_2 => snd (retry_body raw_response_2 l)
  end.

(** Whether line 138 of the client decides to retry. *)
Definition retry_decision (l : locals) : E bool :=
  bindE (py_len (fst l)) (fun extracted =>
    if (extracted =? 0)%nat then py_gt0 (snd l) else inr false).

(** The first progress report of the orchestrator. *)
Definition search_report : call :=
  UpdateCallback 0.2%Q "Searching properties..."
    "🔍 Property Search Agent: Finding properties...".

(** The calls of steps 2 to 4 of a run that gets to its end, for [count]
    properties iterated as [items]. *)
Definition analysis_calls (count : nat) (city state : string) (budget_range : pyval)
    (items : list pyval) : list call :=
  [ UpdateCallback 0.4%Q "Properties found"
      ("✅ Found " ++ str_of_nat count ++ " properties");
    UpdateCallback 0.5%Q "Analyzing market..."
      "📊 Market Analysis Agent: Analyzing market trends...";
    MarketRun (MarketPrompt count city state budget_range);
    UpdateCallback 0.7%Q "Market analysis complete" "✅ Market analysis completed";
    UpdateCallback 0.8%Q "Evaluating properties..."
      "💰 Property Valuation Agent: Evaluating properties...";
    ValuationRun (ValuationPrompt budget_range (properties_for_valuation items) count);
    UpdateCallback 0.9%Q "Valuation complete" "✅ Property valuations completed";
    UpdateCallback 0.95%Q "Synthesizing results..."
      "🤖 Synthesizing final recommendations...";
    UpdateCallback 1.0%Q "Analysis complete" "🎉 Complete analysis ready!" ].

(** The Markdown document of a run. *)
Definition final_synthesis (properties : pyval) (items : list pyval) (count : nat)
    (market_analysis property_valuations : pyval) : string :=
  synthesis_body count (properties_display items) market_analysis property_valuations
  ++ links_section (find_urls properties market_analysis property_valuations).

Definition progress_of (c : call) : option Q :=
  match c with UpdateCallback progress _ _ => Some progress | _ => None end.

Definition status_of (c : call) : option string :=
  match c with UpdateCallback _ status _ => Some status | _ => None end.

(** The progress reports of a run that gets to its end, in the order of
    the [update_callback] calls of the source, for [count] properties. *)
Definition reports (count : nat) : list call :=
  [ UpdateCallback 0.2%Q "Searching properties..."
      "🔍 Property Search Agent: Finding properties...";
    UpdateCallback 0.4%Q "Properties found"
      ("✅ Found " ++ str_of_nat count ++ " properties");
    UpdateCallback 0.5%Q "Analyzing market..."
      "📊 Market Analysis Agent: Analyzing market trends...";
    UpdateCallback 0.7%Q "Market analysis complete" "✅ Market analysis completed";
    UpdateCallback 0.8%Q "Evaluating properties..."
      "💰 Property Valuation Agent: Evaluating properties...";
    UpdateCallback 0.9%Q "Valuation complete" "✅ Property valuations completed";
    UpdateCallback 0.95%Q "Synthesizing results..."
      "🤖 Synthesizing final recommendations...";
    UpdateCallback 1.0%Q "Analysis complete" "🎉 Complete analysis ready!" ].

(** The progress values a complete run reports, in order. *)
Definition reported_progress : list Q :=
  [ 0.2%Q; 0.4%Q; 0.5%Q; 0.7%Q; 0.8%Q; 0.9%Q; 0.95%Q; 1.0%Q ].

Definition has_status (c : call) : bool :=
  match status_of c with
  | Some status => negb (String.eqb status "")
  | None => false
  end.

Fixpoint increasing (values : list Q) : Prop :=
  match values with
  | [] => True
  | x :: rest =>
      match rest with
      | [] => True
      | y :: _ => (x < y)%Q /\ increasing rest
      end
  end.

(** The entries of a record, a mapping or an object with attributes;
    anything else offers none. *)
Definition entries_of (record : pyval) : pydict :=
  match record with
  | PDict entries => entries
  | PObj attrs => attrs
  | _ => []
  end.

(** The summary the valuation prompt carries for the record numbered
    [number] with the given entries. *)
Definition summary_of_entries (number : nat) (entries : pydict) : pydict :=
  [ ("number", PInt (Z.of_nat number));
    ("address", dict_get entries "address" (PStr "Address not available"));
    ("price", dict_get entries "price" (PStr "Price not available"));
    ("property_type", dict_get entries "property_type" (PStr "Type not available"));
    ("bedrooms", dict_get entries "bedrooms" (PStr "Not specified"));
    ("bathrooms", dict_get entries "bathrooms" (PStr "Not specified"));
    ("square_feet", dict_get entries "square_feet" (PStr "Not specified")) ].

(** The Markdown block of the record numbered [number] with the given
    entries. *)
Definition block_of_entries (number : nat) (entries : pydict) : string :=
  join_lines
    [ "";
      "### Property " ++ str_of_nat number ++ ": "
        ++ py_str (dict_get entries "address" (PStr "Address not available"));
      "";
      "**Price:** "
        ++ py_str (dict_get entries "price" (PStr "Price not available")) ++ "  ";
      "**Type:** "
        ++ py_str (dict_get entries "property_type" (PStr "Type not available"))
        ++ "  ";
      "**Bedrooms:** "
        ++ py_str (dict_get entries "bedrooms" (PStr "Not specified"))
        ++ " | **Bathrooms:** "
        ++ py_str (dict_get entries "bathrooms" (PStr "Not specified")) ++ "  ";
      "**Square Feet:** "
        ++ py_str (dict_get entries "square_feet" (PStr "Not specified")) ++ "  ";
      "**Agent Contact:** "
        ++ py_str (dict_get entries "agent_contact" (PStr "Contact not available"))
        ++ "  ";
      "";
      "**Description:** "
        ++ py_str (dict_get entries "description" (PStr "No description available"))
        ++ "  ";
      "";
      "**Listing URL:** [View Property]("
        ++ py_str (dict_get entries "listing_url" (PStr "#")) ++ ")  ";
      "";
      "---";
      "" ].

(** [1; 2; ...; n]. *)
Definition numbers_from_one (n : nat) : list nat := seq 1 n.

(** String concatenation of a list of pieces. *)
Fixpoint concat_strings (pieces : list string) : string :=
  match pieces with
  | [] => ""
  | p :: rest => p ++ concat_strings rest
  end.

(** What follows the marker in the section of property [i] when the
    valuation text keeps to the mandated header
    ["**Property <i>: <address>**"]. *)
Definition section_tail (i : nat) (address body : string) : string :=
  " " ++ str_of_nat i ++ ": " ++ address ++ "**" ++ body.

(** A valuation text that conforms: one section per property, numbered
    from [i] on in the order of the list, each headed as mandated. *)
Fixpoint conforming_from (i : nat) (entries : list (string * string)) : string :=
  match entries with
  | [] => ""
  | (address, body) :: rest =>
      Helpers.marker ++ section_tail i address body ++ conforming_from (S i) rest
  end.

Definition conforming_valuations (entries : list (string * string)) : string :=
  conforming_from 1 entries.

(** The marker occurs in none of the sections' own text. *)
Definition marker_free (entries : list (string * string)) : bool :=
  forallb (fun ab => negb (contains Helpers.marker (fst ab ++ "**" ++ snd ab)))
          entries.

Definition not_star (c : ascii) : bool := negb (Ascii.eqb c "*").

(** The tails of the sections of a conforming text, in order. *)
Definition section_tails (i : nat) (entries : list (string * string)) : list string :=
  map (fun ie => section_tail (fst ie) (fst (snd ie)) (snd (snd ie)))
      (enumerate i entries).

(** A response reports success: an object with a truthy [success]
    attribute, or a mapping with a truthy ["success"] entry. *)
Definition reports_success (raw_response : pyval) : bool :=
  (py_hasattr raw_response "success"
   && py_truthy (py_getattr raw_response "success" PNone))
  || match raw_response with
     | PDict d => py_truthy (dict_get d "success" PNone)
     | _ => false
     end.

Definition not_space (c : ascii) : bool := negb (Ascii.eqb c " ").

(** A report the page can show: progress within the bar's range and an
    activity text that is not empty. *)
Definition fits_progress_bar (c : call) : Prop :=
  match c with
  | UpdateCallback progress status activity =>
      (0 <= progress)%Q /\ (progress <= 1)%Q
      /\ update_progress progress status (Some activity)
         = [ SetProgressBar progress; SetActivityText activity ]
  | _ => True
  end.

(** The progress values of the reports among [calls], in order. *)
Fixpoint progress_values (calls : list call) : list Q :=
  match calls with
  | [] => []
  | UpdateCallback progress _ _ :: rest => progress :: progress_values rest
  | _ :: rest => progress_values rest
  end.

Definition is_market_run (c : call) : bool :=
  match c with MarketRun _ => true | _ => false end.

Definition is_valuation_run (c : call) : bool :=
  match c with ValuationRun _ => true | _ => false end.


(** The last report of a complete run. *)
Definition final_report : call :=
  UpdateCallback 1.0%Q "Analysis complete" "🎉 Complete analysis ready!".

(** The progress callback returns whenever it is called. *)
Definition callback_returns : Prop :=
  forall (t : trace) (c : call), is_callback c = true -> exists v, world t c = inr v.

(** Every external call returns. *)
Definition every_call_returns : Prop :=
  forall (t : trace) (c : call), exists v, world t c = inr v.

(** A record whose price enters the average: a truthy price other than
    the sentinel, with a digit in its text and no more digits than [int]
    converts. *)
Definition usable_price (p : pyval) : bool :=
  py_truthy (price_of p) && differs_from_sentinel (price_of p)
  && has_digit (py_str (price_of p))
  && convertible (py_str (price_of p)).

(** The price texts of the records are ASCII. *)
Definition ascii_prices (properties : list pyval) : Prop :=
  Forall (fun p => ascii_text (py_str (price_of p)) = true) properties.

(** The number read from the price of a record. *)
Definition price_value (p : pyval) : Z := entry_value (py_str (price_of p)).

(** The tally of [types] for records whose types are strings: the same
    loop on the bare strings. *)
Fixpoint bump_string (t : string) (types : list (string * nat))
  : list (string * nat) :=
  match types with
  | [] => [(t, 1)]
  | (k, n) :: rest =>
      if String.eqb k t then (k, S n) :: rest else (k, n) :: bump_string t rest
  end.

Definition tally_from (types : list (string * nat)) (seen : list string)
  : list (string * nat) :=
  fold_left (fun counted t => bump_string t counted) seen types.

Definition as_items (types : list (string * nat)) : list (pyval * nat) :=
  map (fun kn => (PStr (fst kn), snd kn)) types.

(** [types.get(k, 0)]. *)
Fixpoint tallied (k : string) (types : list (string * nat)) : nat :=
  match types with
  | [] => 0
  | (k', n) :: rest => if String.eqb k' k then n else tallied k rest
  end.

(** How often [ty] occurs in [tys]. *)
Definition occurrences (tys : list string) (ty : string) : nat :=
  count_occ string_dec tys ty.

(** The pieces are cut at the blank lines, each cut at the first blank
    line there is: no piece but the last holds a blank line even when the
    newline that follows it is counted in, and the last holds none. *)
Fixpoint cut_at_blank_lines (pieces : list string) : Prop :=
  match pieces with
  | [] => False
  | [ piece ] => contains nl2 piece = false
  | piece :: rest =>
      contains nl2 (piece ++ nl) = false /\ cut_at_blank_lines rest
  end.

(** A paragraph with a character that is not whitespace. *)
Definition has_text (paragraph : string) : bool :=
  negb (all_chars is_space paragraph).

Fixpoint ends_with_newline (s : string) : bool :=
  match s with
  | EmptyString => false
  | String c EmptyString => Ascii.eqb c (ascii_of_nat 10)
  | String _ s' => ends_with_newline s'
  end.

(* ================================================================ *)
(** ** Facts about the string primitives *)
(* ================================================================ *)

Lemma append_empty_r (s : string) : s ++ "" = s.
Proof. induction s as [|c s IH]; simpl; [reflexivity | now rewrite IH]. Qed.

Lemma append_assoc (a b c : string) : (a ++ b) ++ c = a ++ (b ++ c).
Proof. induction a as [|x a IH]; simpl; [reflexivity | now rewrite IH]. Qed.

Lemma append_length (a b : string) :
  String.length (a ++ b) = String.length a + String.length b.
Proof. induction a as [|x a IH]; simpl; [reflexivity | now rewrite IH]. Qed.

Lemma startswith_app (p s : string) : startswith p (p ++ s) = true.
Proof.
  induction p as [|c p IH]; simpl; [reflexivity |].
  now rewrite Ascii.eqb_refl, IH.
Qed.

Lemma startswith_empty (p : string) : p <> "" -> startswith p "" = false.
Proof. destruct p; [congruence | reflexivity]. Qed.

Lemma startswith_drop (p s : string) :
  startswith p s = true -> s = p ++ drop (String.length p) s.
Proof.
  revert s; induction p as [|c p IH]; intros s H; simpl in *.
  - reflexivity.
  - destruct s as [|d s]; [discriminate |].
    apply andb_true_iff in H as [Hc Hp].
    apply Ascii.eqb_eq in Hc; subst d.
    now rewrite <- (IH s Hp).
Qed.

Lemma contains_empty (sub : string) : sub <> "" -> contains sub "" = false.
Proof. intros H; simpl; now rewrite (startswith_empty sub H). Qed.

Lemma contains_cons (sub : string) (c : ascii) (s : string) :
  contains sub (String c s) = false ->
  startswith sub (String c s) = false /\ contains sub s = false.
Proof. simpl; intros H; now apply orb_false_iff in H. Qed.

(** A string that contains a non-empty one is not empty. *)
Lemma contains_nonempty (sub s : string) :
  sub <> "" -> contains sub s = true -> s <> "".
Proof.
  intros Hsub H ->. rewrite (contains_empty sub Hsub) in H; discriminate.
Qed.

Lemma map_chars_nonempty (f : ascii -> ascii) (s : string) :
  map_chars f s <> "" -> s <> "".
Proof. destruct s; simpl; congruence. Qed.

(** [rstrip] keeps everything up to a character that is not whitespace. *)
Lemma rstrip_keeps (p r : string) :
  ends_nonspace p = true -> exists r', rstrip (p ++ r) = p ++ r'.
Proof.
  induction p as [|c p IH]; [discriminate |].
  destruct p as [|d p].
  - simpl; intros H. exists (rstrip r).
    apply negb_true_iff in H; now rewrite H.
  - intros H. destruct (IH H) as [r' Hr'].
    exists r'. change (String c (String d p) ++ r) with (String c (String d p ++ r)).
    cbn [rstrip]. rewrite Hr'. cbn [append String.eqb].
    now rewrite andb_false_r.
Qed.

Lemma ends_nonspace_app (a b : string) :
  ends_nonspace b = true -> ends_nonspace (a ++ b) = true.
Proof.
  intros Hb; induction a as [|c a IH]; [exact Hb |].
  simpl. destruct (a ++ b) eqn:E; [| exact IH].
  destruct a; destruct b; simpl in *; discriminate.
Qed.

(** Replacing a string by itself changes nothing. *)
Lemma replace_go_same (old s : string) (skip : nat) :
  old <> "" -> replace_go old old skip s = drop skip s.
Proof.
  intros Hold; revert skip; induction s as [|c s IH]; intros skip.
  - now destruct skip.
  - destruct skip as [|k]; cbn [replace_go drop]; [| apply IH].
    destruct (startswith old (String c s)) eqn:E.
    + rewrite IH. apply startswith_drop in E.
      destruct old as [|o old]; [congruence |].
      replace (String.length (String o old) - 1) with (String.length old)
        by (cbn [String.length]; lia).
      cbn [String.length drop] in E. now rewrite <- E.
    + now rewrite IH.
Qed.

Lemma replace_same (old s : string) : old <> "" -> replace old old s = s.
Proof. intros H; unfold replace; now rewrite replace_go_same. Qed.

(** Replacing a string that does not occur changes nothing. *)
Lemma replace_absent (old new s : string) :
  contains old s = false -> replace old new s = s.
Proof.
  unfold replace; induction s as [|c s IH]; intros H; [reflexivity |].
  apply contains_cons in H as [H1 H2].
  cbn [replace_go]. rewrite H1. now rewrite IH.
Qed.


(* ================================================================ *)
(** ** The valuation section extractor *)
(* ================================================================ *)

Lemma find_first {A : Type} (p : A -> bool) (pre post : list A) (x : A) :
  forallb (fun y => negb (p y)) pre = true -> p x = true ->
  find p (pre ++ x :: post)%list = Some x.
Proof.
  intros Hpre Hx; induction pre as [|y pre IH]; simpl in *.
  - now rewrite Hx.
  - apply andb_true_iff in Hpre as [Hy Hpre].
    apply negb_true_iff in Hy. rewrite Hy. now apply IH.
Qed.

Lemma find_some_true {A : Type} (p : A -> bool) (l : list A) (x : A) :
  find p l = Some x -> p x = true.
Proof. intros H; now apply find_some in H. Qed.

(** A section found by its header comes back headed by the marker. *)
Lemma clean_section_shape (section : string) :
  exists rest,
    strip (Helpers.marker ++ section) = Helpers.marker ++ rest
    /\ Helpers.clean_section section
       = Helpers.marker ++ replace "***" "**" rest.
Proof.
  destruct (rstrip_keeps Helpers.marker section eq_refl) as [rest Hrest].
  exists rest. unfold Helpers.clean_section.
  assert (Hs : strip (Helpers.marker ++ section) = Helpers.marker ++ rest)
    by (unfold strip; exact Hrest).
  split; [exact Hs |].
  rewrite Hs, replace_same by discriminate.
  reflexivity.
Qed.

Lemma clean_section_nonempty (section : string) :
  Helpers.clean_section section <> "".
Proof.
  destruct (clean_section_shape section) as [rest [_ ->]]. discriminate.
Qed.

Lemma header_matches_empty (n : Z) : Helpers.header_matches n "" = false.
Proof.
  unfold Helpers.header_matches. cbn [strip lstrip rstrip].
  apply startswith_empty. destruct (str_of_Z n); discriminate.
Qed.

Lemma mentions_nonempty (n : Z) (section : string) :
  Helpers.mentions n section = true -> section <> "".
Proof.
  unfold Helpers.mentions; intros H.
  apply orb_true_iff in H as [H | H];
    eapply contains_nonempty; try exact H; discriminate.
Qed.

Lemma address_matches_nonempty (address section : string) :
  Helpers.address_matches address section = true -> section <> "".
Proof.
  unfold Helpers.address_matches, Helpers.address_words; intros H.
  apply existsb_exists in H as [word [Hin Hc]].
  apply filter_In in Hin as [_ Hlen].
  apply (map_chars_nonempty lower_ascii).
  eapply contains_nonempty; [| exact Hc].
  intros ->; discriminate.
Qed.

Lemma split_empty (sep : string) : split sep "" = [""].
Proof. reflexivity. Qed.

(** The first tier, once a fragment matches. *)
Lemma first_tier_result (text : string) (n : Z) (address fragment : string) :
  find (Helpers.header_matches n) (split Helpers.marker text) = Some fragment ->
  Helpers.extract_property_valuation text n address
  = Some (Helpers.clean_section fragment).
Proof.
  intros Hfind. unfold Helpers.extract_property_valuation.
  destruct (String.eqb_spec text "") as [-> | _].
  - rewrite split_empty in Hfind. cbn [find] in Hfind.
    rewrite header_matches_empty in Hfind. discriminate.
  - cbv zeta. now rewrite Hfind.
Qed.

(** C4 (as amended).  On a text that holds no whitespace character
    beyond ASCII, the first tier of [extract_property_valuation]
    splits the text on the marker ["**Property"], takes the first fragment
    whose trimmed content starts with the property number followed by a
    colon, puts the marker back, trims, and then rewrites every ["***"]
    of the result to ["**"]; when the trimmed fragment holds no ["***"]
    it is returned as it is.  On the specification's example text the
    call for property 1 returns the fragment that starts with
    ["**Property 1:"], and the call for property 3 with the address
    "999 Unknown Rd", which no tier matches, returns the placeholder that
    says "Individual assessment not available". *)
Theorem first_tier_returns_cleaned_fragment :
  (forall (text : string) (n : Z) (address : string)
          (pre : list string) (fragment : string) (post : list string),
      no_wide_space text = true ->
      split Helpers.marker text = (pre ++ fragment :: post)%list ->
      forallb (fun f => negb (Helpers.header_matches n f)) pre = true ->
      Helpers.header_matches n fragment = true ->
      Helpers.extract_property_valuation text n address
      = Some (replace "***" "**" (strip (Helpers.marker ++ fragment)))
      /\ (contains "***" (strip (Helpers.marker ++ fragment)) = false ->
          Helpers.extract_property_valuation text n address
          = Some (strip (Helpers.marker ++ fragment))))
  /\ Helpers.extract_property_valuation sample_valuations 1 "123 Main St"
     = Some ("**Property 1: 123 Main St**" ++ nl ++ "• Value: Fair")
  /\ no_tier_matches sample_valuations 3 "999 Unknown Rd"
  /\ Helpers.extract_property_valuation sample_valuations 3 "999 Unknown Rd"
     = Some (Helpers.placeholder 3)
  /\ contains "Individual assessment not available" (Helpers.placeholder 3) = true.
Proof.
  split; [| repeat split; reflexivity].
  intros text n address pre fragment post _ Hsplit Hpre Hfrag.
  assert (Hfind : find (Helpers.header_matches n) (split Helpers.marker text)
                  = Some fragment)
    by (rewrite Hsplit; now apply find_first).
  rewrite (first_tier_result text n address fragment Hfind).
  unfold Helpers.clean_section.
  rewrite replace_same by discriminate.
  split; [reflexivity |].
  intros Habsent. now rewrite replace_absent.
Qed.

(** C8 (as amended).  For every valuation text, property number and
    address the extractor returns (it is a total function, nothing is
    raised on strings and an integer): [None] exactly when the text is
    empty, and otherwise a string that is not empty; when the text and
    the address are ASCII and no tier of the heuristic matches, that
    string is the fixed placeholder paragraph. *)
Theorem extractor_result_nonempty (text : string) (n : Z) (address : string) :
  match Helpers.extract_property_valuation text n address with
  | None => text = ""
  | Some s =>
      text <> "" /\ s <> ""
      /\ (ascii_text text = true -> ascii_text address = true ->
          no_tier_matches text n address -> s = Helpers.placeholder n)
  end.
Proof.
  unfold Helpers.extract_property_valuation, no_tier_matches.
  destruct (String.eqb_spec text "") as [-> | Hne]; [reflexivity |].
  cbv zeta.
  destruct (find (Helpers.header_matches n) (split Helpers.marker text))
    as [s1 |] eqn:E1.
  { split; [| split]; [exact Hne | apply clean_section_nonempty |].
    intros _ _ [H _]; discriminate. }
  destruct (find (Helpers.mentions n) (split nl2 text)) as [s2 |] eqn:E2.
  { split; [| split]; [exact Hne | |].
    - apply find_some_true in E2. eapply mentions_nonempty; exact E2.
    - intros _ _ [_ [H _]]; discriminate. }
  destruct (find (Helpers.address_matches address) (split nl2 text))
    as [s3 |] eqn:E3.
  { split; [| split]; [exact Hne | |].
    - apply find_some_true in E3. eapply address_matches_nonempty; exact E3.
    - intros _ _ [_ [_ H]]; discriminate. }
  split; [| split]; [exact Hne | | reflexivity].
  unfold Helpers.placeholder; discriminate.
Qed.

(* ================================================================ *)
(** ** The average-price metric *)
(* ================================================================ *)

(** The [try] block: it raises exactly when the text has more digits
    than [int] converts. *)
Lemma try_collect_cases (prices : list Z) (price_str : pyval) :
  match try_collect prices price_str with
  | inr collected =>
      collected
      = (prices
           ++ (if has_digit (py_str price_str)
               then [entry_value (py_str price_str)] else []))%list
      /\ (has_digit (py_str price_str) = true ->
          convertible (py_str price_str) = true)
  | inl _ =>
      has_digit (py_str price_str) = true
      /\ convertible (py_str price_str) = false
  end.
Proof.
  unfold try_collect, py_int, has_digit, entry_value, convertible, digits_in.
  cbv zeta.
  destruct (negb (String.eqb (filter_chars is_digit (py_str price_str)) ""));
    [| split; [now rewrite List.app_nil_r | discriminate]].
  destruct (String.length _ <=? int_max_str_digits)%nat; cbn [bindE]; auto.
Qed.

Lemma collect_price_kept (prices : list Z) (p : pyval) (entry : string) :
  price_of p = PStr entry ->
  collect_price prices p
  = (prices
       ++ (if kept entry && convertible entry then [entry_value entry] else []))%list.
Proof.
  intros Hp. unfold collect_price, kept.
  rewrite Hp. cbn [py_truthy differs_from_sentinel].
  pose proof (try_collect_cases prices (PStr entry)) as Ht. cbn [py_str] in Ht.
  destruct (negb (String.eqb entry "")); cbn [andb];
    [| now rewrite List.app_nil_r].
  destruct (negb (String.eqb entry "Price not available")); cbn [andb];
    [| now rewrite List.app_nil_r].
  destruct (try_collect prices (PStr entry)) as [e | collected].
  - destruct Ht as [-> ->]. now rewrite List.app_nil_r.
  - destruct Ht as [-> Hc]. destruct (has_digit entry); cbn [andb];
      [now rewrite Hc | reflexivity].
Qed.

Lemma collect_prices_from (properties : list pyval) (entries : list string)
    (prices : list Z) :
  Forall2 (fun p entry => price_of p = PStr entry) properties entries ->
  fold_left collect_price properties prices
  = (prices ++ collected_values entries)%list.
Proof.
  intros H; revert prices; induction H as [|p entry ps es Hp _ IH];
    intros prices.
  - cbn. now rewrite List.app_nil_r.
  - cbn [fold_left]. rewrite IH, (collect_price_kept prices p entry Hp).
    unfold collected_values. cbn [filter].
    destruct (kept entry && convertible entry); cbn [map];
      rewrite <- List.app_assoc; reflexivity.
Qed.

Lemma collected_all_convertible (entries : list string) :
  Forall (fun entry => convertible entry = true) entries ->
  collected_values entries = kept_values entries.
Proof.
  unfold collected_values, kept_values. intros H. f_equal.
  induction H as [|entry es Hc _ IH]; [reflexivity |].
  cbn [filter]. rewrite Hc, andb_true_r, IH. reflexivity.
Qed.

Lemma sum_Z_from (l : list Z) (acc : Z) :
  fold_left Z.add l acc = (acc + fold_left Z.add l 0)%Z.
Proof.
  revert acc; induction l as [|x l IH]; intros acc; cbn [fold_left].
  - lia.
  - rewrite (IH (acc + x)%Z), (IH (0 + x)%Z). lia.
Qed.

(** Taking the commas out of a grouped string gives the digits back. *)
Lemma group_thousands_digits (digits : string) :
  all_chars is_digit digits = true ->
  filter_chars (fun c => negb (is_comma c)) (group_thousands digits) = digits.
Proof.
  induction digits as [|c rest IH]; [reflexivity |].
  cbn [all_chars]; intros H. apply andb_true_iff in H as [Hc Hrest].
  assert (Hnc : is_comma c = false).
  { unfold is_comma. destruct (Ascii.eqb_spec c ","); [subst c; discriminate | reflexivity]. }
  cbn [group_thousands].
  destruct ((String.length rest mod 3 =? 0)%nat && (0 <? String.length rest)%nat);
    cbn [filter_chars append]; rewrite Hnc; cbn [negb];
    [ change (is_comma ",") with true; cbn [negb] | ];
    now rewrite (IH Hrest).
Qed.

Lemma string_of_uint_digits (d : Decimal.uint) :
  all_chars is_digit (NilEmpty.string_of_uint d) = true.
Proof. induction d; cbn [NilEmpty.string_of_uint all_chars]; auto. Qed.

Lemma str_of_Z_digits (n : Z) :
  (0 <= n)%Z -> all_chars is_digit (str_of_Z n) = true.
Proof.
  intros Hn. unfold str_of_Z. destruct n as [|p|p]; [| | lia];
    cbn [Z.to_int NilEmpty.string_of_int]; apply string_of_uint_digits.
Qed.

Lemma digits_value_positive (d : Decimal.uint) (acc : positive) :
  digits_value (Z.pos acc) (NilEmpty.string_of_uint d)
  = Z.pos (Pos.of_uint_acc d acc).
Proof.
  revert acc; induction d; intros acc;
    cbn [NilEmpty.string_of_uint digits_value Pos.of_uint_acc];
    [reflexivity | rewrite <- IHd; f_equal ..];
    match goal with
    | |- context [digit_value ?c] =>
        let v := eval vm_compute in (digit_value c) in
        change (digit_value c) with v
    end; lia.
Qed.

(** Reading a decimal numeral gives the number back. *)
Lemma digits_value_uint (d : Decimal.uint) :
  digits_value 0 (NilEmpty.string_of_uint d) = Z.of_N (Pos.of_uint d).
Proof.
  induction d; cbn [NilEmpty.string_of_uint digits_value Pos.of_uint];
    [reflexivity | exact IHd | ..];
    match goal with
    | |- context [Pos.of_uint_acc d ?k] => exact (digits_value_positive d k)
    end.
Qed.

Lemma int_of_digits_str_of_Z (n : Z) :
  (0 <= n)%Z -> int_of_digits (str_of_Z n) = n.
Proof.
  intros Hn. unfold int_of_digits, str_of_Z.
  pose proof (DecimalZ.of_to n) as Hz.
  destruct n as [|p|p]; [reflexivity | | lia].
  cbn [Z.to_int NilEmpty.string_of_int] in *.
  rewrite digits_value_uint. exact Hz.
Qed.

(** C9.  For records whose prices are ASCII texts, the average-price
    metric keeps only entries that are not empty, differ from
    "Price not available" and hold at least one digit: exactly those of
    them whose digits [int] converts, the others being skipped by the
    [except] branch, so that it keeps exactly the entries named when no
    text has more digits than [int] converts.  It reads each kept entry
    as the integer its digits spell, and shows "N/A" when nothing is kept
    and otherwise a dollar sign followed by the floor of the mean of the
    kept values, written with a comma between groups of three digits
    (taking the commas out gives the decimal numeral back, and reading
    the digits of a decimal numeral gives its number).  For the prices
    "$500,000", "$750,000" and "Price not available" it shows
    "$625,000". *)
Theorem avg_price_spec :
  (forall (properties : list pyval) (entries : list string),
      Forall2 (fun p entry => price_of p = PStr entry) properties entries ->
      Forall (fun entry => ascii_text entry = true) entries ->
      let values := collect_prices properties in
      let mean := (sum_Z values / Z.of_nat (List.length values))%Z in
      values = collected_values entries
      /\ (Forall (fun entry => convertible entry = true) entries ->
          values = kept_values entries)
      /\ match values with
         | [] => avg_price properties = "N/A"
         | _ :: _ =>
             avg_price properties = "$" ++ format_thousands mean
             /\ (Z.of_nat (List.length values) * mean <= sum_Z values
                 < Z.of_nat (List.length values) * (mean + 1))%Z
             /\ (0 <= mean ->
                 filter_chars (fun c => negb (is_comma c)) (format_thousands mean)
                 = str_of_Z mean)%Z
         end)
  /\ (forall n, (0 <= n)%Z -> int_of_digits (str_of_Z n) = n)
  /\ kept_values sample_prices = [500000; 750000]%Z
  /\ avg_price (map priced sample_prices) = "$625,000".
Proof.
  split; [| split; [exact int_of_digits_str_of_Z | split; reflexivity]].
  intros properties entries H _ values mean.
  assert (Hc : values = collected_values entries).
  { unfold values, collect_prices. now rewrite (collect_prices_from _ _ [] H). }
  split; [exact Hc |].
  split; [intros Hall; rewrite Hc; now apply collected_all_convertible |].
  unfold avg_price. fold values.
  destruct values as [|v vs] eqn:Ev; [reflexivity |].
  split; [reflexivity |]. split.
  - assert (Hpos : (0 < Z.of_nat (List.length (v :: vs)))%Z) by (cbn [List.length]; lia).
    pose proof (Z.mul_div_le (sum_Z (v :: vs)) _ Hpos).
    pose proof (Z.mul_succ_div_gt (sum_Z (v :: vs)) _ Hpos).
    fold mean in H0, H1. unfold Z.succ in H1. lia.
  - intros Hmean. unfold format_thousands.
    destruct (Z.ltb_spec mean 0); [lia |].
    apply group_thousands_digits, str_of_Z_digits, Hmean.
Qed.

(* ================================================================ *)
(** ** The candidate addresses of the extraction client *)
(* ================================================================ *)

(** The four addresses differ whatever the city and the state are: the
    host names already do. *)
Lemma search_urls_distinct (city state : string) :
  NoDup (map snd (search_urls city state)).
Proof.
  unfold search_urls. cbv zeta. cbn [map snd].
  repeat constructor; cbn [In]; intros H;
    repeat (destruct H as [H | H]; [cbn in H; discriminate H |]); exact H.
Qed.

(** Filtering keeps the images of a list distinct. *)
Lemma filter_keeps_distinct_images (A B : Type) (keep : A -> bool) (image : A -> B) :
  forall xs, NoDup (map image xs) -> NoDup (map image (filter keep xs)).
Proof.
  intros xs; induction xs as [|x xs IH]; cbn [map filter]; intros Hnd;
    [constructor |].
  apply NoDup_cons_iff in Hnd as [Hx Hxs].
  destruct (keep x); cbn [map]; [| now apply IH].
  apply NoDup_cons_iff. split; [| now apply IH].
  intros Hin; apply Hx.
  apply in_map_iff in Hin as [y [Hy Hin]].
  apply filter_In in Hin as [Hin _].
  apply in_map_iff; now exists y.
Qed.

Lemma urls_NoDup (city state : string) (selected_websites : list string) :
  NoDup (urls_to_search city state selected_websites).
Proof. apply filter_keeps_distinct_images, search_urls_distinct. Qed.

Lemma selected_In (selected_websites : list string) (site : string) :
  selected selected_websites site = true <-> In site selected_websites.
Proof.
  unfold selected. rewrite existsb_exists. split.
  - intros [x [Hin Hx]]. apply String.eqb_eq in Hx. now subst.
  - intros Hin. exists site. split; [exact Hin | apply String.eqb_refl].
Qed.

(** An address is searched exactly when its site is a selected key. *)
Lemma urls_In (city state : string) (selected_websites : list string) (url : string) :
  In url (urls_to_search city state selected_websites) <->
  exists site, In site selected_websites /\ In (site, url) (search_urls city state).
Proof.
  unfold urls_to_search. rewrite in_map_iff. split.
  - intros [[site u] [Hu Hin]]. cbn in Hu; subst u.
    apply filter_In in Hin as [Hin Hsel]. cbn [fst] in Hsel.
    exists site. split; [now apply selected_In | exact Hin].
  - intros [site [Hsel Hin]]. exists (site, url). split; [reflexivity |].
    apply filter_In. split; [exact Hin | now apply selected_In].
Qed.

Lemma site_url_In (city state site url : string) :
  site_url city state site = Some url <-> In (site, url) (search_urls city state).
Proof.
  unfold site_url, search_urls. cbv zeta. cbn [assoc In]. split.
  - repeat match goal with
           | |- context [String.eqb ?k site] =>
               destruct (String.eqb_spec k site);
               [subst site; intros [= <-]; tauto |]
           end.
    discriminate.
  - intros H.
    repeat (destruct H as [H | H]; [injection H as <- <-; reflexivity |]).
    contradiction.
Qed.

Lemma urls_length (city state : string) (selected_websites : list string) :
  incl selected_websites known_sites ->
  List.length (urls_to_search city state selected_websites)
  = List.length (nodup string_dec selected_websites).
Proof.
  intros Hincl. unfold urls_to_search. rewrite length_map.
  assert (Hkeys : map fst (search_urls city state) = known_sites) by reflexivity.
  rewrite <- (length_map fst).
  set (picked := map fst (filter _ (search_urls city state))).
  assert (Hnd : NoDup picked).
  { apply filter_keeps_distinct_images. rewrite Hkeys.
    repeat constructor; cbn [In]; intros H;
      repeat (destruct H as [H | H]; [discriminate H |]); exact H. }
  assert (Hin : forall site, In site picked <-> In site selected_websites).
  { intros site. unfold picked. rewrite in_map_iff. split.
    - intros [[k u] [Hk Hf]]. cbn in Hk; subst k.
      apply filter_In in Hf as [_ Hsel]. now apply selected_In.
    - intros Hsel. pose proof (Hincl site Hsel) as Hknown.
      rewrite <- Hkeys in Hknown. apply in_map_iff in Hknown as [[k u] [Hk Hin]].
      cbn in Hk; subst k. exists (site, u). split; [reflexivity |].
      apply filter_In. split; [exact Hin | now apply selected_In]. }
  apply Nat.le_antisymm; apply NoDup_incl_length.
  - exact Hnd.
  - intros site Hs. apply nodup_In. now apply Hin.
  - apply NoDup_nodup.
  - intros site Hs. apply nodup_In in Hs. now apply Hin.
Qed.

(** C6 (as amended).  For every non-empty selection taken from the
    known sites Zillow, Realtor.com, Trulia and Homes.com the client
    searches exactly one address per selected site: as many addresses as
    there are distinct selected sites, none of them twice, each selected
    site's address once, and no address of a site that is not selected.
    For an ASCII city and state, the addresses are templated from the
    city lower-cased with hyphens for spaces (Zillow, Realtor.com,
    Homes.com) or, for Trulia, from the city in its own letter case with
    underscores for spaces, and from the state upper-cased (Zillow,
    Realtor.com, Trulia) or lower-cased (Homes.com). *)
Theorem one_url_per_selected_site
    (city state : string) (selected_websites : list string) :
  selected_websites <> [] ->
  incl selected_websites known_sites ->
  let urls := urls_to_search city state selected_websites in
  urls <> []
  /\ NoDup urls
  /\ List.length urls = List.length (nodup string_dec selected_websites)
  /\ (forall site, In site selected_websites ->
        exists url, site_url city state site = Some url
                    /\ count_occ string_dec urls url = 1)
  /\ (forall site url, site_url city state site = Some url ->
        ~ In site selected_websites -> ~ In url urls)
  /\ (ascii_text city = true -> ascii_text state = true ->
      site_url city state "Zillow"
      = Some ("https://www.zillow.com/homes/for_sale/"
              ++ lower (replace " " "-" city) ++ "-" ++ upper state ++ "/")
      /\ site_url city state "Realtor.com"
         = Some ("https://www.realtor.com/realestateandhomes-search/"
                 ++ lower (replace " " "-" city) ++ "_" ++ upper state ++ "/pg-1")
      /\ site_url city state "Trulia"
         = Some ("https://www.trulia.com/" ++ upper state ++ "/"
                 ++ replace " " "_" city ++ "/")
      /\ site_url city state "Homes.com"
         = Some ("https://www.homes.com/homes-for-sale/"
                 ++ lower (replace " " "-" city) ++ "-" ++ lower state ++ "/")).
Proof.
  intros Hne Hincl urls.
  assert (Hlen : List.length urls = List.length (nodup string_dec selected_websites))
    by (apply urls_length, Hincl).
  assert (Hone : forall site, In site selected_websites ->
            exists url, site_url city state site = Some url
                        /\ count_occ string_dec urls url = 1).
  { intros site Hsel.
    assert (Hurl : exists url, site_url city state site = Some url).
    { pose proof (Hincl site Hsel) as Hk. cbn [known_sites In] in Hk.
      repeat (destruct Hk as [<- | Hk]; [eexists; reflexivity |]).
      contradiction. }
    destruct Hurl as [url Hurl]. exists url. split; [exact Hurl |].
    apply NoDup_count_occ'; [apply urls_NoDup |].
    apply urls_In. exists site. split; [exact Hsel | now apply site_url_In]. }
  split.
  { destruct selected_websites as [|s rest]; [congruence |].
    intros Hnil. rewrite Hnil in Hlen. cbn [List.length] in Hlen.
    assert (Hs : In s (nodup string_dec (s :: rest))) by (apply nodup_In; now left).
    destruct (nodup string_dec (s :: rest)); [exact Hs | discriminate Hlen]. }
  split; [apply urls_NoDup |].
  split; [exact Hlen |].
  split; [exact Hone |].
  split; [| intros _ _; repeat split; reflexivity].
  intros site url Hurl Hnot Hin.
  apply urls_In in Hin as [site' [Hsel' Hin']].
  apply site_url_In in Hurl.
  assert (site' = site); [| congruence].
  pose proof (search_urls_distinct city state) as Hnd.
  revert Hurl Hin' Hnd. generalize (search_urls city state).
  intros table; induction table as [|[k v] table IH]; cbn [In map snd];
    [contradiction |].
  intros [H1 | H1] [H2 | H2] Hnd; inversion Hnd as [| ? ? Hv Htl]; subst.
  - congruence.
  - injection H1 as -> ->. exfalso; apply Hv.
    apply in_map_iff. now exists (site', url).
  - injection H2 as -> ->. exfalso; apply Hv.
    apply in_map_iff. now exists (site, url).
  - now apply IH.
Qed.

(* ================================================================ *)
(** ** The extraction client *)
(* ================================================================ *)

(** [listings] case by case. *)
Lemma listings_cases (urls : list string) (user_criteria : pydict) (t : trace) :
  let t1 := (t ++ [first_call urls user_criteria])%list in
  listings urls user_criteria t =
  match world t (first_call urls user_criteria) with
  | inl e => (inl e, t1)
  | inr raw_response =>
      match normalize raw_response with
      | inl e => (inl e, t1)
      | inr l =>
          match retry_decision l with
          | inl e => (inl e, t1)
          | inr false => (inr l, t1)
          | inr true =>
              (inr (after_retry urls l t1), (t1 ++ [fallback_call urls])%list)
          end
      end
  end.
Proof.
  unfold listings, retry_decision, after_retry, retry_without_schema,
    first_call, fallback_call, bind, lift, ret, invoke, try_except, bindE.
  cbv zeta.
  destruct (world t _) as [e | raw]; [reflexivity |].
  destruct (normalize raw) as [e | l]; [reflexivity |].
  destruct (py_len (fst l)) as [e | n]; [reflexivity |].
  destruct (if (n =? 0)%nat then py_gt0 (snd l) else inr false) as [e | []];
    [reflexivity | | reflexivity].
  destruct (world _ _); reflexivity.
Qed.

(** [find_properties_direct] once an address is searched. *)
Lemma find_properties_cases (city state : string) (user_criteria : pydict)
    (selected_websites : list string) (t : trace) :
  let urls := urls_to_search city state selected_websites in
  urls <> [] ->
  find_properties_direct city state user_criteria selected_websites t =
  match listings urls user_criteria t with
  | (inl e, t') => (inr (error_result (extraction_failed_message e)), t')
  | (inr l, t') =>
      match build_result urls selected_websites l with
      | inl e => (inr (error_result (extraction_failed_message e)), t')
      | inr d => (inr d, t')
      end
  end.
Proof.
  intros urls Hne. unfold find_properties_direct. fold urls.
  destruct urls as [|u us] eqn:Eu; [congruence |].
  unfold try_except, extract_and_normalize, bind, lift, ret.
  destruct (listings (u :: us) user_criteria t) as [[e | l] t']; [reflexivity |].
  destruct (build_result (u :: us) selected_websites l); reflexivity.
Qed.

Lemma find_properties_no_urls (city state : string) (user_criteria : pydict)
    (selected_websites : list string) (t : trace) :
  urls_to_search city state selected_websites = [] ->
  find_properties_direct city state user_criteria selected_websites t
  = (inr (error_result "No websites selected"), t).
Proof. intros H. unfold find_properties_direct. now rewrite H. Qed.

(** What [build_result] can return. *)
Lemma build_result_cases (urls selected_websites : list string) (l : locals)
    (d : pydict) :
  build_result urls selected_websites l = inr d ->
  (py_truthy (fst l) = true
   /\ exists count, py_len (fst l) = inr count
                    /\ d = success_result (fst l) count selected_websites)
  \/ (py_truthy (fst l) = false
      /\ exists extracted, py_len (fst l) = inr extracted
           /\ d = error_result (no_properties_message (snd l) extracted
                                  (List.length urls) selected_websites)).
Proof.
  destruct l as [properties total_count]. unfold build_result, bindE. cbn [fst snd].
  destruct (py_truthy properties).
  - destruct (py_index0 properties); [discriminate |].
    destruct (py_len properties) as [|count]; [discriminate |].
    intros [= <-]. left. split; [reflexivity |]. now exists count.
  - destruct (py_len properties) as [|extracted]; [discriminate |].
    intros [= <-]. right. split; [reflexivity |]. now exists extracted.
Qed.

(** The calls of the client: none, one, or the first and the retry. *)
Lemma listings_trace (urls : list string) (user_criteria : pydict) (t : trace) :
  snd (listings urls user_criteria t) = (t ++ [first_call urls user_criteria])%list
  \/ snd (listings urls user_criteria t)
     = (t ++ [first_call urls user_criteria; fallback_call urls])%list.
Proof.
  rewrite listings_cases. cbv zeta.
  destruct (world t _); [now left |].
  destruct (normalize _); [now left |].
  destruct (retry_decision _) as [| []]; [now left | | now left].
  right. cbn [snd]. now rewrite <- List.app_assoc.
Qed.

Lemma find_properties_trace (city state : string) (user_criteria : pydict)
    (selected_websites : list string) (t : trace) :
  let urls := urls_to_search city state selected_websites in
  exists calls,
    snd (find_properties_direct city state user_criteria selected_websites t)
    = (t ++ calls)%list
    /\ (calls = []
        \/ calls = [first_call urls user_criteria]
        \/ calls = [first_call urls user_criteria; fallback_call urls]).
Proof.
  intros urls. destruct urls as [|u us] eqn:Eu.
  - exists []. rewrite find_properties_no_urls by exact Eu.
    cbn [snd]. rewrite List.app_nil_r. auto.
  - assert (Hne : urls_to_search city state selected_websites <> [])
      by (fold urls; rewrite Eu; discriminate).
    rewrite (find_properties_cases _ _ _ _ _ Hne). fold urls. rewrite Eu.
    pose proof (listings_trace (u :: us) user_criteria t) as Ht.
    destruct (listings (u :: us) user_criteria t) as [[e | l] t'];
      cbn [snd] in *.
    + destruct Ht as [-> | ->]; eexists; split; eauto.
    + destruct (build_result (u :: us) selected_websites l); cbn [snd];
        destruct Ht as [-> | ->]; eexists; split; eauto.
Qed.

(** The client never lets an exception out. *)
Lemma find_properties_returns (city state : string) (user_criteria : pydict)
    (selected_websites : list string) (t : trace) :
  exists d, fst (find_properties_direct city state user_criteria
                   selected_websites t) = inr d.
Proof.
  destruct (urls_to_search city state selected_websites) as [|u us] eqn:Eu.
  - rewrite find_properties_no_urls by exact Eu. eexists; reflexivity.
  - rewrite find_properties_cases by (rewrite Eu; discriminate).
    destruct (listings _ _ _) as [[e | l] t']; [eexists; reflexivity |].
    destruct (build_result _ _ _); eexists; reflexivity.
Qed.

Lemma extract_and_normalize_cases (urls : list string) (user_criteria : pydict)
    (selected_websites : list string) (t : trace) :
  extract_and_normalize urls user_criteria selected_websites t =
  match listings urls user_criteria t with
  | (inl e, t') => (inl e, t')
  | (inr l, t') => (build_result urls selected_websites l, t')
  end.
Proof.
  unfold extract_and_normalize, bind, lift.
  destruct (listings urls user_criteria t) as [[e | l] t']; reflexivity.
Qed.

Lemma no_selection_no_urls (city state : string) :
  urls_to_search city state [] = [].
Proof. reflexivity. Qed.

(** C1 (as amended).  [find_properties_direct] always returns a
    dictionary, never an exception.  The dictionary is
    [{"error": message}] exactly when no address is left after the
    filter, or the extraction call or the handling of its response
    raised, or the list of properties left after the optional retry is
    empty; in every other case it is [{"success": True, "properties": p,
    "total_count": len(p), "source_websites": selected_websites}].  With
    an empty selection the error is returned and no external call is
    made. *)
Theorem find_properties_result (city state : string) (user_criteria : pydict)
    (selected_websites : list string) (t : trace) :
  let urls := urls_to_search city state selected_websites in
  exists (d : pydict) (t' : trace),
    find_properties_direct city state user_criteria selected_websites t
    = (inr d, t')
    /\ ((exists message, d = error_result message)
        \/ (exists properties count,
              d = success_result properties count selected_websites
              /\ py_len properties = inr count))
    /\ (has_key "error" d = true <->
          urls = []
          \/ (exists e, fst (extract_and_normalize urls user_criteria
                               selected_websites t) = inl e)
          \/ (exists l, fst (listings urls user_criteria t) = inr l
                        /\ py_truthy (fst l) = false))
    /\ (selected_websites = [] ->
          t' = t /\ d = error_result "No websites selected").
Proof.
  intros urls.
  destruct urls as [|u us] eqn:Eu.
  { exists (error_result "No websites selected"), t.
    split; [apply find_properties_no_urls; exact Eu |].
    split; [left; eexists; reflexivity |].
    split; [split; [now left | reflexivity] | now split]. }
  assert (Hne : urls_to_search city state selected_websites <> [])
    by (fold urls; rewrite Eu; discriminate).
  assert (Hsel : selected_websites <> []).
  { intros ->. apply Hne, no_selection_no_urls. }
  rewrite (find_properties_cases _ _ _ _ _ Hne). fold urls. rewrite Eu.
  rewrite extract_and_normalize_cases.
  destruct (listings (u :: us) user_criteria t) as [[e | l] t'] eqn:El;
    cbn [fst].
  { eexists _, t'. split; [reflexivity |].
    split; [left; eexists; reflexivity |].
    split; [| congruence].
    split; [intros _; right; left; now exists e | reflexivity]. }
  destruct (build_result (u :: us) selected_websites l) as [e | d] eqn:Eb.
  { eexists _, t'. split; [reflexivity |].
    split; [left; eexists; reflexivity |].
    split; [| congruence].
    split; [intros _; right; left; now exists e | reflexivity]. }
  exists d, t'. split; [reflexivity |].
  destruct (build_result_cases _ _ _ _ Eb)
    as [[Htrue [count [Hlen ->]]] | [Hfalse [extracted [Hlen ->]]]].
  - split; [right; now exists (fst l), count |].
    split; [| congruence].
    split; [discriminate |].
    intros [H | [[e H] | [l' [[= <-] H]]]]; congruence.
  - split; [left; eexists; reflexivity |].
    split; [| congruence].
    split; [intros _; right; right; now exists l | reflexivity].
Qed.

Lemma retry_decision_typed (properties : list pyval) (total_count : Z) :
  retry_decision (PList properties, PInt total_count)
  = inr (match properties with [] => (0 <? total_count)%Z | _ => false end).
Proof. destruct properties; reflexivity. Qed.





(* ================================================================ *)
(** ** The pipeline orchestrator *)
(* ================================================================ *)

Lemma update_callback_cases (progress : Q) (status activity : string) (t : trace) :
  update_callback progress status activity t =
  match world t (UpdateCallback progress status activity) with
  | inl e => (inl e, (t ++ [UpdateCallback progress status activity])%list)
  | inr _ => (inr tt, (t ++ [UpdateCallback progress status activity])%list)
  end.
Proof.
  unfold update_callback, bind, invoke, ret.
  destruct (world t _); reflexivity.
Qed.

Ltac next_call H :=
  match type of H with
  | context [world ?t ?c] =>
      let E := fresh "Hw" in
      destruct (world t c) eqn:E; cbv beta iota zeta in H; try discriminate H
  end.

(** A run of steps 2 to 4 that returns made exactly the calls of
    [analysis_calls] and returns the final dictionary. *)
Lemma analyse_complete (city state : string) (user_criteria : pydict)
    (properties : pyval) (t t' : trace) (v : pyval) :
  analyse city state user_criteria properties t = (inr v, t') ->
  exists count items market_analysis property_valuations,
    py_len properties = inr count
    /\ py_iter properties = inr items
    /\ t' = (t ++ analysis_calls count city state
                    (dict_get user_criteria "budget_range" (PStr "Any")) items)%list
    /\ v = pipeline_result properties market_analysis property_valuations
             (final_synthesis properties items count market_analysis
                property_valuations) count.
Proof.
  unfold analyse, update_callback, bind, lift, ret, invoke. cbv zeta.
  intros H.
  destruct (py_len properties) as [e | count] eqn:Elen;
    cbv beta iota zeta in H; [discriminate H |].
  do 2 next_call H.
  next_call H.
  do 2 next_call H.
  destruct (py_iter properties) as [e | items] eqn:Eit;
    cbv beta iota zeta in H; [discriminate H |].
  destruct (json_dumps_check (PList _)); cbv beta iota zeta in H;
    [discriminate H |].
  next_call H.
  do 2 next_call H.
  destruct (json_dumps_check properties); cbv beta iota zeta in H;
    [discriminate H |].
  next_call H.
  injection H as <- <-.
  eexists count, items, _, _.
  split; [reflexivity |]. split; [reflexivity |].
  split; [| reflexivity].
  unfold analysis_calls. repeat rewrite <- List.app_assoc. reflexivity.
Qed.

(** Steps 2 to 4 return a dictionary or raise. *)
Lemma analyse_returns_dict (city state : string) (user_criteria : pydict)
    (properties : pyval) (t t' : trace) (v : pyval) :
  analyse city state user_criteria properties t = (inr v, t') ->
  exists d, v = PDict d.
Proof.
  intros H. apply analyse_complete in H
    as [count [items [m [p [_ [_ [_ ->]]]]]]].
  eexists; reflexivity.
Qed.

(** [run_with_client] case by case. *)
Lemma run_with_client_cases (client : M pydict) (city state : string)
    (user_criteria : pydict) (t : trace) :
  let t1 := (t ++ [search_report])%list in
  run_with_client client city state user_criteria t =
  match world t search_report with
  | inl e => (inl e, t1)
  | inr _ =>
      match client t1 with
      | (inl e, t2) => (inl e, t2)
      | (inr properties_data, t2) =>
          if has_key "error" properties_data then
            (inr (PStr ("Error in property search: "
                        ++ py_str (dict_get properties_data "error" PNone))), t2)
          else if negb (py_truthy (dict_get properties_data "properties" (PList [])))
          then (inr (PStr no_properties_found), t2)
          else analyse city state user_criteria
                 (dict_get properties_data "properties" (PList [])) t2
      end
  end.
Proof.
  unfold run_with_client, search_report, update_callback, bind, invoke, ret.
  cbv zeta. destruct (world t _); [reflexivity |].
  destruct (client _) as [[e | d] t2]; [reflexivity |].
  destruct (has_key "error" d); [reflexivity |].
  destruct (negb _); reflexivity.
Qed.

Lemma count_app (p : call -> bool) (a b : trace) :
  Py.count p (a ++ b)%list = Py.count p a + Py.count p b.
Proof. unfold Py.count. now rewrite filter_app, length_app. Qed.

(** C3.  When the extraction client's result holds an error, the
    orchestrator returns a string (the error behind the prefix "Error in
    property search: ") and makes no call after the client has returned:
    neither narrative generator is invoked.  When the result holds no
    error and no properties, it returns exactly "No properties found
    matching your criteria." and likewise makes no further call.  This
    holds for any client put in the client's place, and with
    [find_properties_direct] the count of generator runs stays what it
    was before the run. *)
Theorem orchestrator_short_circuits :
  (forall (client : M pydict) city state user_criteria t v properties_data t2,
      world t search_report = inr v ->
      client (t ++ [search_report])%list = (inr properties_data, t2) ->
      (has_key "error" properties_data = true ->
         run_with_client client city state user_criteria t
         = (inr (PStr ("Error in property search: "
                       ++ py_str (dict_get properties_data "error" PNone))), t2))
      /\ (has_key "error" properties_data = false ->
          py_truthy (dict_get properties_data "properties" (PList [])) = false ->
          run_with_client client city state user_criteria t
          = (inr (PStr no_properties_found), t2)))
  /\ no_properties_found = "No properties found matching your criteria."
  /\ (forall city state user_criteria selected_websites firecrawl_api_key
             google_api_key t v properties_data t2,
        world t search_report = inr v ->
        find_properties_direct city state user_criteria selected_websites
          (t ++ [search_report])%list = (inr properties_data, t2) ->
        has_key "error" properties_data = true ->
        exists s,
          run_sequential_analysis city state user_criteria selected_websites
            firecrawl_api_key google_api_key t = (inr (PStr s), t2)
          /\ Py.count is_generator_run t2 = Py.count is_generator_run t).
Proof.
  split; [| split; [reflexivity |]].
  - intros client city state user_criteria t v d t2 Hw Hc.
    rewrite run_with_client_cases. cbv zeta. rewrite Hw, Hc.
    split; [intros -> ; reflexivity |].
    intros -> ->. reflexivity.
  - intros city state user_criteria selected_websites k1 k2 t v d t2 Hw Hc He.
    unfold run_sequential_analysis.
    rewrite run_with_client_cases. cbv zeta. rewrite Hw, Hc, He.
    eexists; split; [reflexivity |].
    destruct (find_properties_trace city state user_criteria selected_websites
                (t ++ [search_report])%list) as [calls [Ht Hcalls]].
    rewrite Hc in Ht. cbn [snd] in Ht. subst t2.
    rewrite !count_app.
    destruct Hcalls as [-> | [-> | ->]]; cbn; lia.
Qed.

Lemma nodup_nonempty (l : list string) : l <> [] -> nodup string_dec l <> [].
Proof.
  destruct l as [|x l]; [congruence |]. intros _ H.
  assert (Hin : In x (nodup string_dec (x :: l))) by (apply nodup_In; now left).
  rewrite H in Hin. exact Hin.
Qed.

(** A truthy value with a length has a positive length. *)
Lemma truthy_len_positive (v : pyval) (n : nat) :
  py_truthy v = true -> py_len v = inr n -> exists m, n = S m.
Proof.
  destruct v as [| | | s | items | entries |]; cbn; try discriminate.
  - destruct s; [discriminate |]. intros _ [= <-]. eexists; reflexivity.
  - destruct items; [discriminate |]. intros _ [= <-]. eexists; reflexivity.
  - destruct entries as [|kv entries]; [discriminate |]. intros _ [= <-].
    unfold dict_len.
    destruct (nodup string_dec (map fst (kv :: entries))) eqn:E.
    + exfalso. revert E. apply nodup_nonempty. discriminate.
    + eexists; reflexivity.
Qed.

(** A dictionary of the client without an error holds properties. *)
Lemma success_properties (city state : string) (user_criteria : pydict)
    (selected_websites : list string) (t t' : trace) (d : pydict) :
  find_properties_direct city state user_criteria selected_websites t = (inr d, t') ->
  has_key "error" d = false ->
  exists n,
    py_truthy (dict_get d "properties" (PList [])) = true
    /\ py_len (dict_get d "properties" (PList [])) = inr (S n)
    /\ dict_get d "total_count" PNone = PInt (Z.of_nat (S n)).
Proof.
  intros Hf Hd.
  destruct (urls_to_search city state selected_websites) as [|u us] eqn:Eu.
  { rewrite find_properties_no_urls in Hf by exact Eu.
    injection Hf as <- <-. discriminate Hd. }
  rewrite find_properties_cases in Hf by (rewrite Eu; discriminate).
  destruct (listings _ _ _) as [[e | l] t1].
  { injection Hf as <- <-. discriminate Hd. }
  destruct (build_result _ _ l) as [e | d'] eqn:Eb.
  { injection Hf as <- <-. discriminate Hd. }
  injection Hf as <- <-.
  destruct (build_result_cases _ _ _ _ Eb)
    as [[Htrue [count [Hlen ->]]] | [_ [extracted [_ ->]]]];
    [| discriminate Hd].
  destruct (truthy_len_positive _ _ Htrue Hlen) as [m ->].
  exists m. cbn. auto.
Qed.

(** C10.  A dictionary returned by [find_properties_direct] without
    the key "error" holds a "properties" value that is not empty, of
    positive length, which "total_count" repeats; an empty list after the
    optional retry gives an error dictionary instead.  So a run of
    [run_sequential_analysis], which is driven by that client, returns an
    "Error in property search: ..." string or the final dictionary or
    raises, and never the string "No properties found matching your
    criteria.": the branch of the orchestrator that returns it is not
    reached. *)
Theorem success_dictionary_has_properties :
  (forall city state user_criteria selected_websites t d t',
      find_properties_direct city state user_criteria selected_websites t
      = (inr d, t') ->
      has_key "error" d = false ->
      exists n,
        py_truthy (dict_get d "properties" (PList [])) = true
        /\ py_len (dict_get d "properties" (PList [])) = inr (S n)
        /\ dict_get d "total_count" PNone = PInt (Z.of_nat (S n)))
  /\ (forall city state user_criteria selected_websites firecrawl_api_key
             google_api_key t v,
        fst (run_sequential_analysis city state user_criteria selected_websites
               firecrawl_api_key google_api_key t) = inr v ->
        ((exists message, v = PStr ("Error in property search: " ++ message))
         \/ (exists result, v = PDict result))
        /\ v <> PStr no_properties_found).
Proof.
  split; [intros ? ? ? ? ? ? ?; apply success_properties |].
  intros city state user_criteria selected_websites k1 k2 t v.
  unfold run_sequential_analysis. rewrite run_with_client_cases. cbv zeta.
  destruct (world t search_report); [discriminate |].
  destruct (find_properties_direct _ _ _ _ _) as [[e | d] t2] eqn:Ef;
    [discriminate |].
  destruct (has_key "error" d) eqn:Ed.
  - cbn [fst]. intros [= <-]. split; [left; eexists; reflexivity |].
    unfold no_properties_found. discriminate.
  - destruct (success_properties _ _ _ _ _ _ _ Ef Ed) as [n [Ht _]].
    rewrite Ht. cbn [negb].
    destruct (analyse _ _ _ _ _) as [[e | v'] t3] eqn:Ea; cbn [fst];
      [discriminate |].
    intros [= <-]. destruct (analyse_returns_dict _ _ _ _ _ _ _ Ea) as [r ->].
    split; [right; now exists r | discriminate].
Qed.

(* ================================================================ *)
(** ** Sections of a conforming valuation text *)
(* ================================================================ *)

(** The marker does not overlap itself: an occurrence that begins in
    [x] and runs into a following marker already lies within [x]. *)
Lemma marker_no_straddle (x rest : string) :
  x <> "" ->
  startswith Helpers.marker (x ++ Helpers.marker ++ rest) = true ->
  startswith Helpers.marker x = true.
Proof.
  unfold Helpers.marker.
  do 10 (destruct x as [|? x];
         [ intros Hx H; try congruence; cbn in H;
           repeat rewrite ?andb_false_r, ?andb_false_l in H; discriminate H | ]).
  intros _ H. cbn in H |- *. exact H.
Qed.

Lemma marker_absent_prefix (c : ascii) (f rest : string) :
  contains Helpers.marker (String c f) = false ->
  startswith Helpers.marker (String c f ++ Helpers.marker ++ rest) = false.
Proof.
  intros H. apply contains_cons in H as [H _].
  destruct (startswith Helpers.marker (String c f ++ Helpers.marker ++ rest)) eqn:E;
    [| reflexivity].
  apply marker_no_straddle in E; [congruence | discriminate].
Qed.

(** A piece without the marker, followed by the marker. *)
Lemma split_piece (f cur rest : string) :
  contains Helpers.marker f = false ->
  split_go Helpers.marker 0 cur (f ++ Helpers.marker ++ rest)
  = (cur ++ f) :: split_go Helpers.marker 0 "" rest.
Proof.
  revert cur; induction f as [|c f IH]; intros cur H.
  - rewrite append_empty_r. reflexivity.
  - pose proof (marker_absent_prefix c f rest H) as Hs.
    apply contains_cons in H as [_ H].
    change (String c f ++ Helpers.marker ++ rest)
      with (String c (f ++ Helpers.marker ++ rest)) in *.
    cbn [split_go]. rewrite Hs, (IH _ H), append_assoc. reflexivity.
Qed.

(** A last piece without the marker. *)
Lemma split_last (f cur : string) :
  contains Helpers.marker f = false ->
  split_go Helpers.marker 0 cur f = [cur ++ f].
Proof.
  revert cur; induction f as [|c f IH]; intros cur H.
  - now rewrite append_empty_r.
  - apply contains_cons in H as [Hs H].
    cbn [split_go]. rewrite Hs, (IH _ H), append_assoc. reflexivity.
Qed.

Lemma all_chars_app (p : ascii -> bool) (a b : string) :
  all_chars p (a ++ b) = all_chars p a && all_chars p b.
Proof.
  induction a as [|c a IH]; cbn [append all_chars]; [reflexivity |].
  now rewrite IH, andb_assoc.
Qed.

Lemma all_chars_impl (p q : ascii -> bool) (s : string) :
  (forall c, p c = true -> q c = true) ->
  all_chars p s = true -> all_chars q s = true.
Proof.
  intros Hpq; induction s as [|c s IH]; cbn [all_chars]; [reflexivity |].
  intros H. apply andb_true_iff in H as [Hc Hs].
  now rewrite (Hpq c Hc), (IH Hs).
Qed.

Lemma digit_not_star (c : ascii) : is_digit c = true -> not_star c = true.
Proof.
  unfold not_star. destruct (Ascii.eqb_spec c "*"); [subst c; discriminate | reflexivity].
Qed.

Lemma digit_not_space (c : ascii) : is_digit c = true -> is_space c = false.
Proof.
  unfold is_digit, is_space. intros H.
  apply andb_true_iff in H as [H1 H2].
  apply Nat.leb_le in H1, H2.
  destruct (Nat.leb_spec 9 (nat_of_ascii c)), (Nat.leb_spec (nat_of_ascii c) 13),
    (Nat.leb_spec 28 (nat_of_ascii c)), (Nat.leb_spec (nat_of_ascii c) 32);
    cbn; try reflexivity; lia.
Qed.

Lemma digit_not_colon (c : ascii) : is_digit c = true -> Ascii.eqb c ":" = false.
Proof.
  destruct (Ascii.eqb_spec c ":"); [subst c; discriminate | reflexivity].
Qed.

Lemma str_of_nat_digits (n : nat) : all_chars is_digit (str_of_nat n) = true.
Proof. apply str_of_Z_digits. lia. Qed.

Lemma str_of_Z_inj (m n : Z) : str_of_Z m = str_of_Z n -> m = n.
Proof.
  unfold str_of_Z. intros H.
  apply DecimalZ.to_int_inj.
  pose proof (NilEmpty.isi (Z.to_int m)) as Hm.
  pose proof (NilEmpty.isi (Z.to_int n)) as Hn.
  rewrite H in Hm. congruence.
Qed.

Lemma str_of_nat_inj (m n : nat) : str_of_nat m = str_of_nat n -> m = n.
Proof. unfold str_of_nat. intros H. apply str_of_Z_inj in H. lia. Qed.

Lemma str_of_Z_nonempty (n : Z) : str_of_Z n <> "".
Proof.
  unfold str_of_Z. intros H.
  pose proof (NilEmpty.isi (Z.to_int n)) as Hn. rewrite H in Hn.
  cbn in Hn. injection Hn as Hn.
  pose proof (DecimalZ.of_to n) as Hz. rewrite <- Hn in Hz. cbn in Hz.
  subst n. discriminate Hn.
Qed.

Lemma startswith_marker_not_star (c : ascii) (s : string) :
  not_star c = true -> startswith Helpers.marker (String c s) = false.
Proof.
  unfold not_star. intros H. apply negb_true_iff in H.
  unfold Helpers.marker. cbn [startswith].
  rewrite (Ascii.eqb_sym "*" c), H. reflexivity.
Qed.

(** The marker cannot begin in a stretch without asterisks. *)
Lemma contains_skip_prefix (p s : string) :
  all_chars not_star p = true ->
  contains Helpers.marker (p ++ s) = contains Helpers.marker s.
Proof.
  induction p as [|c p IH]; [reflexivity |].
  cbn [all_chars]. intros H. apply andb_true_iff in H as [Hc Hp].
  change (String c p ++ s) with (String c (p ++ s)).
  cbn [contains]. rewrite (startswith_marker_not_star c _ Hc). cbn [orb].
  now apply IH.
Qed.

Lemma section_tail_marker_free (i : nat) (address body : string) :
  contains Helpers.marker (address ++ "**" ++ body) = false ->
  contains Helpers.marker (section_tail i address body) = false.
Proof.
  intros H. unfold section_tail.
  change (" " ++ str_of_nat i ++ ": " ++ address ++ "**" ++ body)
    with (" " ++ (str_of_nat i ++ (": " ++ (address ++ "**" ++ body)))).
  rewrite (contains_skip_prefix " ") by reflexivity.
  rewrite (contains_skip_prefix (str_of_nat i))
    by (apply (all_chars_impl is_digit), str_of_nat_digits; apply digit_not_star).
  rewrite (contains_skip_prefix ": ") by reflexivity.
  exact H.
Qed.

(** Splitting a conforming text on the marker gives back the tails of
    its sections, after what precedes the first marker. *)
Lemma split_conforming (entries : list (string * string)) (i : nat)
    (f cur : string) :
  contains Helpers.marker f = false ->
  marker_free entries = true ->
  split_go Helpers.marker 0 cur (f ++ conforming_from i entries)
  = (cur ++ f) :: section_tails i entries.
Proof.
  revert i f cur; induction entries as [|[address body] rest IH];
    intros i f cur Hf Hfree.
  - cbn [conforming_from]. rewrite append_empty_r. now apply split_last.
  - cbn [marker_free forallb fst snd] in Hfree.
    apply andb_true_iff in Hfree as [Hab Hrest].
    apply negb_true_iff in Hab.
    cbn [conforming_from]. rewrite (split_piece f cur _ Hf).
    rewrite (IH (S i) (section_tail i address body) ""
               (section_tail_marker_free i _ _ Hab) Hrest).
    reflexivity.
Qed.

Lemma startswith_numbered (a b rest : string) :
  all_chars is_digit a = true -> all_chars is_digit b = true ->
  startswith (a ++ ":") ((b ++ ":") ++ rest) = true <-> a = b.
Proof.
  revert b; induction a as [|c a IH]; intros [|d b] Ha Hb;
    cbn [append startswith all_chars] in *.
  - rewrite Ascii.eqb_refl. tauto.
  - apply andb_true_iff in Hb as [Hd _].
    rewrite (Ascii.eqb_sym ":" d), (digit_not_colon d Hd). cbn [andb].
    split; discriminate.
  - apply andb_true_iff in Ha as [Hc _].
    rewrite (digit_not_colon c Hc). cbn [andb]. split; discriminate.
  - apply andb_true_iff in Ha as [_ Ha]. apply andb_true_iff in Hb as [_ Hb].
    rewrite andb_true_iff, (IH b Ha Hb), Ascii.eqb_eq.
    split; [intros [-> ->]; reflexivity | intros [= -> ->]; now split].
Qed.

Lemma lstrip_digits (s rest : string) :
  s <> "" -> all_chars is_digit s = true -> lstrip (s ++ rest) = s ++ rest.
Proof.
  destruct s as [|c s]; [congruence |]. intros _ H.
  cbn [all_chars] in H. apply andb_true_iff in H as [Hc _].
  cbn [append lstrip]. now rewrite (digit_not_space c Hc).
Qed.

(** The trimmed tail of section [j] starts with [<j>:]. *)
Lemma strip_section_tail (j : nat) (address body : string) :
  exists rest,
    strip (section_tail j address body) = (str_of_nat j ++ ":") ++ rest.
Proof.
  unfold strip, section_tail.
  change (lstrip (" " ++ str_of_nat j ++ ": " ++ address ++ "**" ++ body))
    with (lstrip (str_of_nat j ++ ": " ++ address ++ "**" ++ body)).
  rewrite lstrip_digits by (apply str_of_Z_nonempty || apply str_of_nat_digits).
  change (str_of_nat j ++ ": " ++ address ++ "**" ++ body)
    with (str_of_nat j ++ ":" ++ (" " ++ address ++ "**" ++ body)).
  rewrite <- append_assoc.
  apply rstrip_keeps, ends_nonspace_app. reflexivity.
Qed.

Lemma header_matches_tail (k j : nat) (address body : string) :
  Helpers.header_matches (Z.of_nat k) (section_tail j address body) = (j =? k)%nat.
Proof.
  unfold Helpers.header_matches.
  destruct (strip_section_tail j address body) as [rest ->].
  fold (str_of_nat k).
  destruct (Nat.eqb_spec j k) as [-> | Hne].
  - apply startswith_numbered; auto using str_of_nat_digits.
  - destruct (startswith _ _) eqn:E; [| reflexivity].
    apply startswith_numbered in E; auto using str_of_nat_digits.
    apply str_of_nat_inj in E. congruence.
Qed.

Lemma find_section_tail (entries : list (string * string)) (i k : nat)
    (address body : string) :
  nth_error entries k = Some (address, body) ->
  find (Helpers.header_matches (Z.of_nat (i + k))) (section_tails i entries)
  = Some (section_tail (i + k) address body).
Proof.
  revert i k; induction entries as [|[a b] rest IH]; intros i k H.
  - destruct k; discriminate H.
  - unfold section_tails. cbn [enumerate map fst snd find].
    rewrite header_matches_tail.
    destruct k as [|k].
    + injection H as -> ->. rewrite Nat.add_0_r, Nat.eqb_refl. reflexivity.
    + cbn [nth_error] in H.
      destruct (Nat.eqb_spec i (i + S k)); [lia |].
      replace (i + S k) with (S i + k) by lia.
      apply (IH (S i) k H).
Qed.

Lemma replace_skip_prefix (new p s : string) :
  all_chars not_star p = true ->
  replace_go "***" new 0 (p ++ s) = p ++ replace_go "***" new 0 s.
Proof.
  induction p as [|c p IH]; [reflexivity |].
  cbn [all_chars]. intros H. apply andb_true_iff in H as [Hc Hp].
  change (String c p ++ s) with (String c (p ++ s)).
  cbn [replace_go].
  assert (Hs : startswith "***" (String c (p ++ s)) = false).
  { unfold not_star in Hc. apply negb_true_iff in Hc.
    cbn [startswith]. now rewrite (Ascii.eqb_sym "*" c), Hc. }
  rewrite Hs, (IH Hp). reflexivity.
Qed.

(** The section found for number [k] comes back headed
    ["**Property <k>:"]. *)
Lemma clean_section_header (k : nat) (address body : string) :
  startswith ("**Property " ++ str_of_nat k ++ ":")
             (Helpers.clean_section (section_tail k address body)) = true.
Proof.
  unfold Helpers.clean_section, strip, section_tail.
  set (d := str_of_nat k). set (r := " " ++ address ++ "**" ++ body).
  change (lstrip (Helpers.marker ++ " " ++ d ++ ": " ++ address ++ "**" ++ body))
    with ("**Property " ++ (d ++ (":" ++ r))).
  assert (Hd : all_chars not_star d = true)
    by (apply (all_chars_impl is_digit), str_of_nat_digits; apply digit_not_star).
  assert (Hassoc : forall x, "**Property " ++ (d ++ (":" ++ x))
                             = ("**Property " ++ d ++ ":") ++ x).
  { intros x. now rewrite !append_assoc. }
  rewrite Hassoc.
  assert (Hend : ends_nonspace ("**Property " ++ d ++ ":") = true).
  { apply (ends_nonspace_app "**Property "), ends_nonspace_app. reflexivity. }
  destruct (rstrip_keeps _ r Hend) as [rest ->].
  rewrite replace_same by discriminate.
  unfold replace. rewrite <- Hassoc.
  change (replace_go "***" "**" 0 ("**Property " ++ (d ++ (":" ++ rest))))
    with ("**Property " ++ replace_go "***" "**" 0 (d ++ (":" ++ rest))).
  rewrite (replace_skip_prefix "**" d _ Hd).
  change (replace_go "***" "**" 0 (":" ++ rest))
    with (":" ++ replace_go "***" "**" 0 rest).
  rewrite Hassoc. apply startswith_app.
Qed.

(** Section [k + 1] of a conforming text is found by its header. *)
Lemma extract_conforming (entries : list (string * string)) (k : nat)
    (address body lookup_address : string) :
  marker_free entries = true ->
  nth_error entries k = Some (address, body) ->
  Helpers.extract_property_valuation (conforming_valuations entries)
    (Z.of_nat (S k)) lookup_address
  = Some (Helpers.clean_section (section_tail (S k) address body)).
Proof.
  intros Hfree Hk. apply first_tier_result.
  unfold split, conforming_valuations.
  change (conforming_from 1 entries) with ("" ++ conforming_from 1 entries).
  rewrite (split_conforming entries 1 "" "" eq_refl Hfree).
  cbn [find append]. rewrite header_matches_empty.
  apply (find_section_tail entries 1 k address body Hk).
Qed.

(* ================================================================ *)
(** ** Complete runs *)
(* ================================================================ *)

Lemma chars_length (s : string) : List.length (chars s) = String.length s.
Proof. induction s as [|c s IH]; cbn; [reflexivity | now rewrite IH]. Qed.

Lemma iter_length (v : pyval) (count : nat) (items : list pyval) :
  py_len v = inr count -> py_iter v = inr items -> List.length items = count.
Proof.
  destruct v; cbn; try discriminate; intros [= <-] [= <-].
  - apply chars_length.
  - reflexivity.
  - unfold dict_len. now rewrite length_map.
Qed.

(** A run that returns the final dictionary: what it called and what
    it returns. *)
Lemma run_complete (city state : string) (user_criteria : pydict)
    (selected_websites : list string) (firecrawl_api_key google_api_key : string)
    (t t' : trace) (result : pydict) :
  run_sequential_analysis city state user_criteria selected_websites
    firecrawl_api_key google_api_key t = (inr (PDict result), t') ->
  let urls := urls_to_search city state selected_websites in
  let budget_range := dict_get user_criteria "budget_range" (PStr "Any") in
  exists properties items count market_analysis property_valuations extract_calls,
    py_truthy properties = true
    /\ py_len properties = inr count
    /\ py_iter properties = inr items
    /\ (extract_calls = [first_call urls user_criteria]
        \/ extract_calls = [first_call urls user_criteria; fallback_call urls])
    /\ t' = (t ++ search_report :: extract_calls
               ++ analysis_calls count city state budget_range items)%list
    /\ PDict result
       = pipeline_result properties market_analysis property_valuations
           (final_synthesis properties items count market_analysis
              property_valuations) count.
Proof.
  intros H urls budget_range.
  unfold run_sequential_analysis in H. rewrite run_with_client_cases in H.
  cbv zeta in H.
  destruct (world t search_report); [discriminate H |].
  destruct (find_properties_direct _ _ _ _ _) as [[e | d] t2] eqn:Ef;
    [discriminate H |].
  destruct (has_key "error" d) eqn:Ed; [discriminate H |].
  destruct (success_properties _ _ _ _ _ _ _ Ef Ed) as [n [Ht _]].
  rewrite Ht in H. cbn [negb] in H.
  apply analyse_complete in H
    as [count [items [m [pv [Hlen [Hit [Htr Hv]]]]]]].
  assert (Hcalls : exists extract_calls,
             t2 = ((t ++ [search_report]) ++ extract_calls)%list
             /\ (extract_calls = [first_call urls user_criteria]
                 \/ extract_calls
                    = [first_call urls user_criteria; fallback_call urls])).
  { destruct urls as [|u us] eqn:Eu.
    - rewrite find_properties_no_urls in Ef by exact Eu.
      injection Ef as <- <-. discriminate Ed.
    - rewrite find_properties_cases in Ef by (fold urls; rewrite Eu; discriminate).
      fold urls in Ef. rewrite Eu in Ef.
      pose proof (listings_trace (u :: us) user_criteria (t ++ [search_report])%list)
        as Hl.
      destruct (listings _ _ _) as [[e | l] t3]; cbn [snd] in Hl.
      + injection Ef as <- <-. discriminate Ed.
      + assert (t2 = t3) as ->
          by (destruct (build_result _ _ l); now injection Ef).
        destruct Hl as [-> | ->]; eexists; split; eauto. }
  destruct Hcalls as [extract_calls [-> Hex]].
  exists (dict_get d "properties" (PList [])), items, count, m, pv, extract_calls.
  repeat (split; [assumption |]).
  split; [| exact Hv].
  rewrite Htr. rewrite <- !List.app_assoc. reflexivity.
Qed.

(* ================================================================ *)
(** ** Runs that get to their end *)
(* ================================================================ *)

Lemma lookup_serializable (key : string) (entries : pydict) (v : pyval) :
  forallb (fun kv => json_serializable (snd kv)) entries = true ->
  lookup key entries = Some v -> json_serializable v = true.
Proof.
  induction entries as [|[k w] rest IH]; cbn [lookup forallb snd];
    [discriminate |].
  intros H. apply andb_true_iff in H as [Hw Hrest].
  destruct (String.eqb k key); [intros [= <-]; exact Hw | now apply IH].
Qed.

Lemma field_serializable (prop : pyval) (name default : string) :
  json_serializable prop = true ->
  json_serializable (field prop name default) = true.
Proof.
  destruct prop as [| | | | |entries|]; try reflexivity; [| discriminate].
  cbn [json_serializable field]. intros H. unfold dict_get.
  destruct (lookup name entries) as [v |] eqn:E; [| reflexivity].
  exact (lookup_serializable _ _ _ H E).
Qed.

Lemma summaries_serializable (items : list pyval) :
  forallb json_serializable items = true ->
  json_serializable (PList (map PDict (properties_for_valuation items))) = true.
Proof.
  unfold properties_for_valuation. cbn [json_serializable].
  generalize 1. induction items as [|x items IH]; intros i H;
    [reflexivity |].
  cbn [forallb] in H. apply andb_true_iff in H as [Hx Hitems].
  cbn [enumerate map forallb fst snd]. rewrite (IH _ Hitems), andb_true_r.
  unfold prop_data. cbn [json_serializable forallb snd].
  now rewrite !field_serializable by exact Hx.
Qed.

Lemma iter_serializable (v : pyval) (items : list pyval) :
  json_serializable v = true -> py_iter v = inr items ->
  forallb json_serializable items = true.
Proof.
  destruct v as [| | |s|l|entries|]; cbn [py_iter]; try discriminate;
    intros H [= <-].
  - clear H. induction s as [|c s IH]; [reflexivity | exact IH].
  - exact H.
  - clear H. induction (nodup string_dec (map fst entries)) as [|k ks IH];
      [reflexivity | exact IH].
Qed.

Lemma len_iter (v : pyval) (count : nat) :
  py_len v = inr count -> exists items, py_iter v = inr items.
Proof. destruct v; cbn; try discriminate; intros _; eexists; reflexivity. Qed.

Ltac call_returns Hret :=
  match goal with
  | |- context [world ?t ?c] =>
      let v := fresh "v" in
      let Hv := fresh "Hv" in
      destruct (Hret t c) as [v Hv]; rewrite Hv; cbv beta iota zeta
  end.

(** Steps 2 to 4 get to their end when every external call returns and
    the properties can be dumped. *)
Lemma analyse_total (city state : string) (user_criteria : pydict)
    (properties : pyval) (count : nat) (t : trace) :
  every_call_returns ->
  py_len properties = inr count ->
  json_serializable properties = true ->
  exists items market_analysis property_valuations,
    py_iter properties = inr items
    /\ analyse city state user_criteria properties t
       = (inr (pipeline_result properties market_analysis property_valuations
                 (final_synthesis properties items count market_analysis
                    property_valuations) count),
          (t ++ analysis_calls count city state
                  (dict_get user_criteria "budget_range" (PStr "Any")) items)%list).
Proof.
  intros Hret Hlen Hjson.
  destruct (len_iter _ _ Hlen) as [items Hit].
  pose proof (summaries_serializable items (iter_serializable _ _ Hjson Hit))
    as Hsum.
  unfold analyse, update_callback, bind, lift, ret, invoke. cbv zeta.
  rewrite Hlen. cbv beta iota zeta.
  do 2 call_returns Hret.
  call_returns Hret.
  do 2 call_returns Hret.
  rewrite Hit. cbv beta iota zeta.
  unfold json_dumps_check. rewrite Hsum. cbv beta iota zeta.
  call_returns Hret.
  do 2 call_returns Hret.
  rewrite Hjson. cbv beta iota zeta.
  call_returns Hret.
  eexists items, _, _. split; [reflexivity |].
  unfold analysis_calls, final_synthesis. rewrite <- !List.app_assoc.
  reflexivity.
Qed.

(** A run that completes has dumped its properties. *)
Lemma analyse_serializable (city state : string) (user_criteria : pydict)
    (properties : pyval) (t t' : trace) (v : pyval) :
  analyse city state user_criteria properties t = (inr v, t') ->
  json_serializable properties = true.
Proof.
  unfold analyse, update_callback, bind, lift, ret, invoke. cbv zeta.
  intros H.
  destruct (py_len properties) as [e | count];
    cbv beta iota zeta in H; [discriminate H |].
  do 5 next_call H.
  destruct (py_iter properties) as [e | items];
    cbv beta iota zeta in H; [discriminate H |].
  destruct (json_dumps_check (PList _)); cbv beta iota zeta in H;
    [discriminate H |].
  do 3 next_call H.
  unfold json_dumps_check in H.
  destruct (json_serializable properties); [reflexivity | discriminate H].
Qed.

(** The dictionary of a successful search. *)
Lemma success_shape (city state : string) (user_criteria : pydict)
    (selected_websites : list string) (t t' : trace) (d : pydict) :
  find_properties_direct city state user_criteria selected_websites t = (inr d, t') ->
  has_key "error" d = false ->
  exists properties count,
    d = success_result properties count selected_websites
    /\ py_truthy properties = true
    /\ py_len properties = inr count.
Proof.
  intros Hf Hd.
  destruct (urls_to_search city state selected_websites) as [|u us] eqn:Eu.
  { rewrite find_properties_no_urls in Hf by exact Eu.
    injection Hf as <- <-. discriminate Hd. }
  rewrite find_properties_cases in Hf by (rewrite Eu; discriminate).
  destruct (listings _ _ _) as [[e | l] t1].
  { injection Hf as <- <-. discriminate Hd. }
  destruct (build_result _ selected_websites l) as [e | d'] eqn:Eb.
  { injection Hf as <- <-. discriminate Hd. }
  injection Hf as <- <-.
  destruct (build_result_cases _ _ _ _ Eb)
    as [[Ht [count [Hlen ->]]] | [_ [extracted [_ ->]]]];
    [| discriminate Hd].
  exists (fst l), count. auto.
Qed.

(** A run gets to its end, with the client's properties, when every
    external call returns, the search succeeds and its properties can be
    dumped. *)
Lemma run_total (city state : string) (user_criteria : pydict)
    (selected_websites : list string) (firecrawl_api_key google_api_key : string)
    (t t2 : trace) (properties : pyval) (count : nat) :
  every_call_returns ->
  find_properties_direct city state user_criteria selected_websites
    (t ++ [search_report])%list
  = (inr (success_result properties count selected_websites), t2) ->
  json_serializable properties = true ->
  exists items market_analysis property_valuations,
    py_iter properties = inr items
    /\ List.length items = count
    /\ run_sequential_analysis city state user_criteria selected_websites
         firecrawl_api_key google_api_key t
       = (inr (pipeline_result properties market_analysis property_valuations
                 (final_synthesis properties items count market_analysis
                    property_valuations) count),
          (t2 ++ analysis_calls count city state
                   (dict_get user_criteria "budget_range" (PStr "Any")) items)%list).
Proof.
  intros Hret Hf Hjson.
  destruct (success_shape _ _ _ _ _ _ _ Hf eq_refl)
    as [properties' [count' [Hd [Htruthy Hlen]]]].
  injection Hd as <- Hcount. apply Nat2Z.inj in Hcount. subst count'.
  destruct (analyse_total city state user_criteria properties count t2
              Hret Hlen Hjson) as [items [m [pv [Hit Ha]]]].
  exists items, m, pv. split; [exact Hit |].
  split; [exact (iter_length _ _ _ Hlen Hit) |].
  unfold run_sequential_analysis. rewrite run_with_client_cases. cbv zeta.
  destruct (Hret t search_report) as [v ->].
  rewrite Hf. cbn [has_key lookup success_result String.eqb Ascii.eqb Bool.eqb].
  change (dict_get (success_result properties count selected_websites)
            "properties" (PList [])) with properties.
  rewrite Htruthy. cbn [negb]. exact Ha.
Qed.

(** A run that returned the final dictionary worked on the properties
    of the client's dictionary. *)
Lemma run_complete_properties (city state : string) (user_criteria : pydict)
    (selected_websites : list string) (firecrawl_api_key google_api_key : string)
    (t t' : trace) (result : pydict) :
  run_sequential_analysis city state user_criteria selected_websites
    firecrawl_api_key google_api_key t = (inr (PDict result), t') ->
  exists properties items market_analysis property_valuations t2,
    find_properties_direct city state user_criteria selected_websites
      (t ++ [search_report])%list
    = (inr (success_result properties (List.length items) selected_websites), t2)
    /\ py_iter properties = inr items
    /\ items <> []
    /\ json_serializable properties = true
    /\ t' = (t2 ++ analysis_calls (List.length items) city state
                     (dict_get user_criteria "budget_range" (PStr "Any"))
                     items)%list
    /\ PDict result
       = pipeline_result properties market_analysis property_valuations
           (final_synthesis properties items (List.length items) market_analysis
              property_valuations) (List.length items).
Proof.
  intros H.
  unfold run_sequential_analysis in H. rewrite run_with_client_cases in H.
  cbv zeta in H.
  destruct (world t search_report); [discriminate H |].
  destruct (find_properties_direct _ _ _ _ _) as [[e | d] t2] eqn:Ef;
    [discriminate H |].
  destruct (has_key "error" d) eqn:Ed; [discriminate H |].
  destruct (success_shape _ _ _ _ _ _ _ Ef Ed)
    as [properties [count [-> [Htruthy Hlen]]]].
  change (dict_get (success_result properties count selected_websites)
            "properties" (PList [])) with properties in H.
  rewrite Htruthy in H. cbn [negb] in H.
  pose proof (analyse_serializable _ _ _ _ _ _ _ H) as Hjson.
  apply analyse_complete in H
    as [count' [items [m [pv [Hlen' [Hit [Htr Hv]]]]]]].
  rewrite Hlen in Hlen'. injection Hlen' as <-.
  pose proof (iter_length _ _ _ Hlen Hit) as Hn. subst count.
  exists properties, items, m, pv, t2.
  split; [reflexivity |]. split; [exact Hit |]. split.
  { destruct (truthy_len_positive _ _ Htruthy Hlen) as [n Hn].
    destruct items; [discriminate Hn | discriminate]. }
  repeat split; assumption.
Qed.

(* ================================================================ *)
(** ** The property list and its numbering *)
(* ================================================================ *)

Lemma enumerate_combine {A : Type} (i : nat) (items : list A) :
  enumerate i items = combine (seq i (List.length items)) items.
Proof.
  revert i; induction items as [|x items IH]; intros i; cbn; [reflexivity |].
  now rewrite IH.
Qed.

Lemma enumerate_nth {A : Type} (i k : nat) (items : list A) :
  nth_error (enumerate i items) k
  = option_map (fun x => (i + k, x)) (nth_error items k).
Proof.
  revert i k; induction items as [|x items IH]; intros i [|k]; cbn;
    try reflexivity.
  - now rewrite Nat.add_0_r.
  - rewrite IH. replace (S i + k) with (i + S k) by lia. reflexivity.
Qed.

(** The summary at position [k] is the one of the item at position [k],
    numbered [k + 1]. *)
Lemma properties_for_valuation_nth (items : list pyval) (k : nat) :
  nth_error (properties_for_valuation items) k
  = option_map (prop_data (S k)) (nth_error items k).
Proof.
  unfold properties_for_valuation.
  rewrite nth_error_map, enumerate_nth.
  destruct (nth_error items k); reflexivity.
Qed.

Lemma properties_for_valuation_numbers (items : list pyval) :
  map (fun summary => dict_get summary "number" PNone)
      (properties_for_valuation items)
  = map (fun i => PInt (Z.of_nat i)) (numbers_from_one (List.length items)).
Proof.
  unfold properties_for_valuation, numbers_from_one.
  generalize 1. induction items as [|x items IH]; intros i; cbn [enumerate map seq List.length];
    [reflexivity |].
  rewrite IH. reflexivity.
Qed.

Lemma fold_left_append {A : Type} (f : A -> string) (l : list A) (init : string) :
  fold_left (fun acc x => acc ++ f x) l init = init ++ concat_strings (map f l).
Proof.
  revert init; induction l as [|x l IH]; intros init; cbn [fold_left map concat_strings].
  - now rewrite append_empty_r.
  - now rewrite IH, append_assoc.
Qed.

(** The blocks of the Markdown document follow the list. *)
Lemma properties_display_blocks (items : list pyval) :
  properties_display items
  = concat_strings
      (map (fun ip => property_block (fst ip) (snd ip))
           (combine (numbers_from_one (List.length items)) items)).
Proof.
  unfold properties_display, numbers_from_one.
  rewrite fold_left_append, enumerate_combine. reflexivity.
Qed.

Lemma prop_data_entries (i : nat) (prop : pyval) :
  prop_data i prop = summary_of_entries i (entries_of prop).
Proof. destruct prop; reflexivity. Qed.

Lemma property_block_entries (i : nat) (prop : pyval) :
  property_block i prop = block_of_entries i (entries_of prop).
Proof. destruct prop; reflexivity. Qed.

(** C7.  On every run that returns the final dictionary, the property
    list of the dictionary the client returned, non-empty, is what every
    later stage works on, in its iteration order: the valuation prompt
    carries one summary per item, the summary at position k built from
    the item at position k and numbered k + 1, so that the prompt's
    numbers are 1, ..., n; the Markdown document carries one block per
    item, numbered the same way and in the same order; and the final
    dictionary returns the very same list under "properties", with its
    length under "total_properties".  Such runs exist: when every external
    call returns and the client's properties can be dumped, the run
    returns that dictionary.  Extracting section k from a valuation text
    that conforms (one section per property, headed
    "**Property <k>: <address>**", the marker occurring nowhere else)
    gives the fragment headed "**Property <k>:". *)
Theorem property_numbering_is_stable :
  (forall city state user_criteria selected_websites firecrawl_api_key
          google_api_key t t' result,
      run_sequential_analysis city state user_criteria selected_websites
        firecrawl_api_key google_api_key t = (inr (PDict result), t') ->
      exists properties items market_analysis property_valuations t2,
        find_properties_direct city state user_criteria selected_websites
          (t ++ [search_report])%list
        = (inr (success_result properties (List.length items) selected_websites),
           t2)
        /\ py_iter properties = inr items
        /\ items <> []
        /\ t' = (t2 ++ analysis_calls (List.length items) city state
                         (dict_get user_criteria "budget_range" (PStr "Any"))
                         items)%list
        /\ In (ValuationRun
                 (ValuationPrompt
                    (dict_get user_criteria "budget_range" (PStr "Any"))
                    (properties_for_valuation items) (List.length items)))
              t'
        /\ result
           = [ ("properties", properties);
               ("market_analysis", market_analysis);
               ("property_valuations", property_valuations);
               ("markdown_synthesis",
                PStr (synthesis_body (List.length items) (properties_display items)
                        market_analysis property_valuations
                      ++ links_section
                           (find_urls properties market_analysis
                              property_valuations)));
               ("total_properties", PInt (Z.of_nat (List.length items))) ])
  /\ (forall city state user_criteria selected_websites firecrawl_api_key
             google_api_key t t2 properties count,
        every_call_returns ->
        find_properties_direct city state user_criteria selected_websites
          (t ++ [search_report])%list
        = (inr (success_result properties count selected_websites), t2) ->
        json_serializable properties = true ->
        exists result t',
          run_sequential_analysis city state user_criteria selected_websites
            firecrawl_api_key google_api_key t = (inr (PDict result), t')
          /\ lookup "properties" result = Some properties
          /\ lookup "total_properties" result = Some (PInt (Z.of_nat count)))
  /\ (forall items,
        List.length (properties_for_valuation items) = List.length items
        /\ map (fun summary => dict_get summary "number" PNone)
               (properties_for_valuation items)
           = map (fun i => PInt (Z.of_nat i))
                 (numbers_from_one (List.length items))
        /\ (forall k item, nth_error items k = Some item ->
              nth_error (properties_for_valuation items) k
              = Some (summary_of_entries (S k) (entries_of item)))
        /\ exists blocks,
             properties_display items = concat_strings blocks
             /\ List.length blocks = List.length items
             /\ forall k item, nth_error items k = Some item ->
                  nth_error blocks k
                  = Some (block_of_entries (S k) (entries_of item)))
  /\ (forall entries k address body lookup_address,
        marker_free entries = true ->
        nth_error entries k = Some (address, body) ->
        exists section,
          Helpers.extract_property_valuation (conforming_valuations entries)
            (Z.of_nat (S k)) lookup_address = Some section
          /\ startswith ("**Property " ++ str_of_nat (S k) ++ ":") section = true).
Proof.
  split; [| split; [| split]].
  - intros city state user_criteria selected_websites k1 k2 t t' result H.
    apply run_complete_properties in H.
    destruct H as [properties [items [m [pv [t2
                    [Hf [Hit [Hne [_ [Ht Hres]]]]]]]]]].
    exists properties, items, m, pv, t2.
    split; [exact Hf |]. split; [exact Hit |]. split; [exact Hne |].
    split; [exact Ht |]. split.
    { rewrite Ht. apply in_or_app. right.
      unfold analysis_calls. cbn [In]. tauto. }
    unfold pipeline_result, final_synthesis in Hres. now injection Hres.
  - intros city state user_criteria selected_websites k1 k2 t t2 properties
      count Hret Hf Hjson.
    destruct (run_total city state user_criteria selected_websites k1 k2 t t2
                properties count Hret Hf Hjson)
      as [items [m [pv [_ [_ Hrun]]]]].
    eexists _, _. split; [exact Hrun |]. split; reflexivity.
  - intros items. split.
    { unfold properties_for_valuation.
      now rewrite length_map, enumerate_combine, length_combine, length_seq,
        Nat.min_id. }
    split; [apply properties_for_valuation_numbers |].
    split.
    { intros k item Hk.
      now rewrite properties_for_valuation_nth, Hk, <- prop_data_entries. }
    exists (map (fun ip => property_block (fst ip) (snd ip)) (enumerate 1 items)).
    split.
    { rewrite properties_display_blocks, enumerate_combine. reflexivity. }
    split.
    { now rewrite length_map, enumerate_combine, length_combine, length_seq,
        Nat.min_id. }
    intros k item Hk.
    rewrite nth_error_map, enumerate_nth, Hk. cbn [option_map fst snd].
    now rewrite property_block_entries.
  - intros entries k address body lookup Hfree Hk.
    eexists. split; [apply (extract_conforming _ _ _ _ _ Hfree Hk) |].
    apply clean_section_header.
Qed.

(* ================================================================ *)
(** ** More on the candidate addresses *)
(* ================================================================ *)

Lemma selected_same_members (s1 s2 : list string) :
  (forall site, In site s1 <-> In site s2) ->
  forall site, selected s1 site = selected s2 site.
Proof.
  intros H site. apply Bool.eq_iff_eq_true.
  rewrite !selected_In. apply H.
Qed.

(** X1.  The addresses searched depend only on which sites are selected:
    two selections with the same members, in whatever order and with
    whatever repetitions, give the same list of addresses, which follows
    the fixed order Zillow, Realtor.com, Trulia, Homes.com. *)
Theorem urls_depend_on_members_only
    (city state : string) (s1 s2 : list string) :
  (forall site, In site s1 <-> In site s2) ->
  urls_to_search city state s1 = urls_to_search city state s2.
Proof.
  intros H. unfold urls_to_search. f_equal.
  apply filter_ext. intros su. apply selected_same_members, H.
Qed.

(** X2.  A selection that names no known site leaves no address: the
    client answers "No websites selected" and makes no external call. *)
Theorem unknown_sites_make_no_call
    (city state : string) (user_criteria : pydict)
    (selected_websites : list string) (t : trace) :
  (forall site, In site selected_websites -> ~ In site known_sites) ->
  find_properties_direct city state user_criteria selected_websites t
  = (inr (error_result "No websites selected"), t).
Proof.
  intros H. apply find_properties_no_urls.
  assert (Hs : forall site, In site known_sites ->
                 selected selected_websites site = false).
  { intros site Hk. destruct (selected selected_websites site) eqn:E;
      [| reflexivity].
    apply selected_In in E. now destruct (H site E). }
  unfold urls_to_search, search_urls. cbv zeta. cbn [filter fst].
  rewrite !Hs by (cbn; tauto). reflexivity.
Qed.

Lemma lower_ascii_space (c : ascii) : not_space (lower_ascii c) = not_space c.
Proof. destruct c as [[] [] [] [] [] [] [] []]; reflexivity. Qed.

Lemma upper_ascii_space (c : ascii) : not_space (upper_ascii c) = not_space c.
Proof. destruct c as [[] [] [] [] [] [] [] []]; reflexivity. Qed.

Lemma map_chars_all (f : ascii -> ascii) (p : ascii -> bool) (s : string) :
  (forall c, p (f c) = p c) -> all_chars p (map_chars f s) = all_chars p s.
Proof.
  intros H; induction s as [|c s IH]; cbn [map_chars all_chars]; [reflexivity |].
  now rewrite H, IH.
Qed.

(** Replacing the space leaves no space. *)
Lemma replace_space_all (new s : string) :
  all_chars not_space new = true ->
  all_chars not_space (replace " " new s) = true.
Proof.
  intros Hnew. unfold replace. induction s as [|c s IH]; [reflexivity |].
  cbn [replace_go startswith String.length Nat.sub].
  destruct (Ascii.eqb_spec " " c) as [<- | Hc]; cbn [andb].
  - now rewrite all_chars_app, Hnew, IH.
  - cbn [all_chars]. rewrite IH, andb_true_r.
    unfold not_space. apply negb_true_iff.
    destruct (Ascii.eqb_spec c " "); [congruence | reflexivity].
Qed.

Lemma contains_space_all (s : string) :
  all_chars not_space s = true -> contains " " s = false.
Proof.
  induction s as [|c s IH]; [reflexivity |].
  cbn [all_chars contains startswith]. intros H.
  apply andb_true_iff in H as [Hc Hs].
  unfold not_space in Hc. apply negb_true_iff in Hc.
  now rewrite (Ascii.eqb_sym " " c), Hc, (IH Hs).
Qed.

(** X3.  Whatever the city is, its spaces do not reach the addresses: when
    the state holds no space, no address of the search holds one. *)
Theorem urls_hold_no_space
    (city state : string) (selected_websites : list string) (url : string) :
  all_chars not_space state = true ->
  In url (urls_to_search city state selected_websites) ->
  contains " " url = false.
Proof.
  intros Hstate Hin. apply contains_space_all.
  assert (Hslug : all_chars not_space (lower (replace " " "-" city)) = true).
  { unfold lower. rewrite (map_chars_all _ _ _ lower_ascii_space).
    now apply replace_space_all. }
  assert (Htrulia : all_chars not_space (replace " " "_" city) = true)
    by now apply replace_space_all.
  assert (Hup : all_chars not_space (upper state) = true)
    by (unfold upper; now rewrite (map_chars_all _ _ _ upper_ascii_space)).
  assert (Hlow : all_chars not_space (lower state) = true)
    by (unfold lower; now rewrite (map_chars_all _ _ _ lower_ascii_space)).
  assert (Hall : Forall (fun su => all_chars not_space (snd su) = true)
                   (search_urls city state)).
  { unfold search_urls. cbv zeta.
    repeat constructor; cbn [snd];
      rewrite !all_chars_app, ?Hslug, ?Htrulia, ?Hup, ?Hlow; reflexivity. }
  apply urls_In in Hin as [site [_ Hin]].
  rewrite Forall_forall in Hall. exact (Hall (site, url) Hin).
Qed.

(* ================================================================ *)
(** ** More on the responses of the extraction service *)
(* ================================================================ *)

(** X4.  A response given as an object with attributes and the same
    response given as a mapping are normalised alike whenever it carries
    data or does not report success: the properties and the count of a data
    mapping (an empty list and 0 where they are missing), the same
    exception for data that is no mapping, nothing for a response without
    success.  The retry reads the two shapes alike under the same
    condition. *)
Theorem response_shapes_agree (entries : pydict) (l : locals) :
  has_key "data" entries = true
  \/ py_truthy (dict_get entries "success" PNone) = false ->
  normalize (PObj entries) = normalize (PDict entries)
  /\ snd (retry_body (PObj entries) l) = snd (retry_body (PDict entries) l)
  /\ (forall payload,
        py_truthy (dict_get entries "success" PNone) = true ->
        lookup "data" entries = Some (PDict payload) ->
        normalize (PDict entries)
        = inr (dict_get payload "properties" (PList []),
               dict_get payload "total_count" (PInt 0%Z))).
Proof.
  intros H.
  unfold normalize, retry_body, py_hasattr, py_getattr, has_key, dict_get,
    dict_item, py_get in *.
  destruct (lookup "success" entries) as [s |] eqn:Es;
    destruct (lookup "data" entries) as [data |] eqn:Ed; cbn [andb py_truthy] in *.
  - destruct (py_truthy s); cbn [andb].
    + split; [| split].
      * destruct data; reflexivity.
      * destruct data; reflexivity.
      * intros payload _ [= ->]. reflexivity.
    + repeat split. intros payload Hs; discriminate Hs.
  - destruct H as [H | H]; [discriminate H |]. rewrite H. cbn [andb].
    repeat split. intros payload Hs; discriminate Hs.
  - repeat split. intros payload Hs; discriminate Hs.
  - repeat split. intros payload Hs; discriminate Hs.
Qed.

(** X5.  A response that reports success but carries no data mapping is
    handled by its shape and by what is missing.  Without any data, the
    object counts as zero listings and gives the no-properties error,
    while the mapping raises [KeyError] and gives the extraction-failed
    error.  With data that are neither a mapping nor an object ([None],
    as in the response object of the client library, a list, a string),
    both shapes raise [AttributeError] and give the extraction-failed
    error.  In every case one request is made. *)
Theorem missing_data_depends_on_shape
    (city state : string) (user_criteria : pydict)
    (selected_websites : list string) (t : trace) (entries : pydict) :
  let urls := urls_to_search city state selected_websites in
  urls <> [] ->
  py_truthy (dict_get entries "success" PNone) = true ->
  (lookup "data" entries = None ->
   world t (first_call urls user_criteria) = inr (PObj entries) ->
   find_properties_direct city state user_criteria selected_websites t
   = (inr (error_result
             (no_properties_message (PInt 0%Z) 0 (List.length urls)
                selected_websites)),
      (t ++ [first_call urls user_criteria])%list))
  /\ (lookup "data" entries = None ->
      world t (first_call urls user_criteria) = inr (PDict entries) ->
      find_properties_direct city state user_criteria selected_websites t
      = (inr (error_result (extraction_failed_message KeyError)),
         (t ++ [first_call urls user_criteria])%list))
  /\ (forall data,
        lookup "data" entries = Some data ->
        (forall payload, data <> PDict payload) ->
        (forall attrs, data <> PObj attrs) ->
        world t (first_call urls user_criteria) = inr (PObj entries)
        \/ world t (first_call urls user_criteria) = inr (PDict entries) ->
        find_properties_direct city state user_criteria selected_websites t
        = (inr (error_result (extraction_failed_message AttributeError)),
           (t ++ [first_call urls user_criteria])%list)).
Proof.
  intros urls Hne Hs.
  split; [| split].
  - intros Hd Hw.
    assert (Hobj : normalize (PObj entries) = inr (PList [], PInt 0%Z)).
    { unfold normalize, py_hasattr, py_getattr, has_key, dict_get in *.
      rewrite Hd. destruct (lookup "success" entries); [| discriminate Hs].
      rewrite Hs. reflexivity. }
    rewrite (find_properties_cases _ _ _ _ _ Hne); fold urls.
    rewrite listings_cases; cbv zeta. rewrite Hw, Hobj. reflexivity.
  - intros Hd Hw.
    assert (Hmap : normalize (PDict entries) = inl KeyError).
    { unfold normalize, py_hasattr, dict_item. cbn [andb].
      rewrite Hs, Hd. reflexivity. }
    rewrite (find_properties_cases _ _ _ _ _ Hne); fold urls.
    rewrite listings_cases; cbv zeta. rewrite Hw, Hmap. reflexivity.
  - intros data Hd Hnm Hno Hw.
    assert (Hget : forall key default, py_get data key default = inl AttributeError).
    { intros key default. destruct data as [| | | | |payload|];
        try reflexivity.
      now destruct (Hnm payload). }
    assert (Hobj : normalize (PObj entries) = inl AttributeError).
    { unfold normalize, py_hasattr, py_getattr, has_key, dict_get in *.
      rewrite Hd. destruct (lookup "success" entries); [| discriminate Hs].
      rewrite Hs. cbn [andb]. rewrite Hget. reflexivity. }
    assert (Hmap : normalize (PDict entries) = inl AttributeError).
    { unfold normalize, py_hasattr, dict_item. cbn [andb].
      rewrite Hs, Hd. cbn [bindE]. rewrite Hget. reflexivity. }
    rewrite (find_properties_cases _ _ _ _ _ Hne); fold urls.
    rewrite listings_cases; cbv zeta.
    destruct Hw as [Hw | Hw]; rewrite Hw; [rewrite Hobj | rewrite Hmap];
      reflexivity.
Qed.

Lemma unsuccessful_normalize (raw_response : pyval) :
  reports_success raw_response = false ->
  normalize raw_response = inr (PList [], PInt 0%Z).
Proof.
  unfold reports_success, normalize. intros H.
  apply orb_false_iff in H as [H1 H2]. rewrite H1.
  destruct raw_response; try reflexivity. now rewrite H2.
Qed.

(** X6.  A response that does not report success, whatever its shape (no
    value at all, a string, a mapping whose success is false), counts as
    zero listings: the client makes no retry and returns the no-properties
    error for 0 listings. *)
Theorem unsuccessful_response_is_empty
    (city state : string) (user_criteria : pydict)
    (selected_websites : list string) (t : trace) (raw_response : pyval) :
  let urls := urls_to_search city state selected_websites in
  urls <> [] ->
  world t (first_call urls user_criteria) = inr raw_response ->
  reports_success raw_response = false ->
  find_properties_direct city state user_criteria selected_websites t
  = (inr (error_result
            (no_properties_message (PInt 0%Z) 0 (List.length urls)
               selected_websites)),
     (t ++ [first_call urls user_criteria])%list).
Proof.
  intros urls Hne Hw Hs.
  rewrite (find_properties_cases _ _ _ _ _ Hne). fold urls.
  rewrite listings_cases. cbv zeta.
  rewrite Hw, (unsuccessful_normalize _ Hs). reflexivity.
Qed.

(** X7.  Once the retry is made and answers with a data mapping whose
    properties are a list, its answer replaces the first one, empty or not:
    a non-empty list is returned as the success, with its own length as
    the count; an empty list gives the no-properties error, which then
    reports the count of the retry (0 when the retry gives none) and not
    the count that caused the retry. *)
Theorem retry_answer_replaces_first
    (city state : string) (user_criteria : pydict)
    (selected_websites : list string) (t : trace)
    (raw_response raw_response_2 : pyval) (total_count : Z)
    (entries payload : pydict) (properties : list pyval) :
  let urls := urls_to_search city state selected_websites in
  let t1 := (t ++ [first_call urls user_criteria])%list in
  urls <> [] ->
  world t (first_call urls user_criteria) = inr raw_response ->
  normalize raw_response = inr (PList [], PInt total_count) ->
  (0 < total_count)%Z ->
  world t1 (fallback_call urls) = inr raw_response_2 ->
  raw_response_2 = PDict entries \/ raw_response_2 = PObj entries ->
  py_truthy (dict_get entries "success" PNone) = true ->
  lookup "data" entries = Some (PDict payload) ->
  lookup "properties" payload = Some (PList properties) ->
  find_properties_direct city state user_criteria selected_websites t
  = (inr (match properties with
          | [] =>
              error_result
                (no_properties_message
                   (dict_get payload "total_count" (PInt 0%Z)) 0
                   (List.length urls) selected_websites)
          | _ :: _ =>
              success_result (PList properties) (List.length properties)
                selected_websites
          end),
     (t1 ++ [fallback_call urls])%list).
Proof.
  intros urls t1 Hne Hw Hn Hpos Hw2 Hshape Hs Hd Hp.
  rewrite (find_properties_cases _ _ _ _ _ Hne). fold urls.
  rewrite listings_cases. cbv zeta. rewrite Hw, Hn, retry_decision_typed.
  destruct (Z.ltb_spec 0 total_count); [| lia].
  unfold after_retry. fold t1. rewrite Hw2.
  assert (Hbody : snd (retry_body raw_response_2 (PList [], PInt total_count))
                  = (PList properties,
                     dict_get payload "total_count"
                       (PInt (Z.of_nat (List.length properties))))).
  { destruct Hshape as [-> | ->];
      unfold retry_body, retry_assign, py_hasattr, py_getattr, has_key, dict_get in *;
      rewrite Hd; cbn [andb];
      (destruct (lookup "success" entries); [| discriminate Hs]);
      rewrite ?Hs; cbn [andb]; rewrite Hp; reflexivity. }
  rewrite Hbody.
  destruct properties as [|p ps]; reflexivity.
Qed.

(* ================================================================ *)
(** ** The calls of any run *)
(* ================================================================ *)

Ltac next_call_goal :=
  match goal with
  | |- context [world ?t ?c] => destruct (world t c); cbv beta iota zeta
  end.

Ltac stops_after count items k :=
  exists count, items, k; cbn [snd]; unfold analysis_calls; cbn [firstn];
  rewrite <- ?List.app_assoc; rewrite ?List.app_nil_r; reflexivity.

(** Steps 2 to 4 make an initial stretch of the calls of a complete run,
    whatever happens. *)
Lemma analyse_calls (city state : string) (user_criteria : pydict)
    (properties : pyval) (t : trace) :
  exists count items k,
    snd (analyse city state user_criteria properties t)
    = (t ++ firstn k (analysis_calls count city state
                        (dict_get user_criteria "budget_range" (PStr "Any"))
                        items))%list.
Proof.
  unfold analyse, update_callback, bind, lift, ret, invoke. cbv zeta.
  destruct (py_len properties) as [e | count]; cbv beta iota zeta;
    [stops_after 0 (@nil pyval) 0 |].
  next_call_goal; [stops_after count (@nil pyval) 1 |].
  next_call_goal; [stops_after count (@nil pyval) 2 |].
  next_call_goal; [stops_after count (@nil pyval) 3 |].
  next_call_goal; [stops_after count (@nil pyval) 4 |].
  next_call_goal; [stops_after count (@nil pyval) 5 |].
  destruct (py_iter properties) as [e | items]; cbv beta iota zeta;
    [stops_after count (@nil pyval) 5 |].
  destruct (json_dumps_check (PList _)); cbv beta iota zeta;
    [stops_after count items 5 |].
  next_call_goal; [stops_after count items 6 |].
  next_call_goal; [stops_after count items 7 |].
  next_call_goal; [stops_after count items 8 |].
  destruct (json_dumps_check properties); cbv beta iota zeta;
    [stops_after count items 8 |].
  next_call_goal; stops_after count items 9.
Qed.

(** The requests behind a dictionary without an error. *)
Lemma success_trace (city state : string) (user_criteria : pydict)
    (selected_websites : list string) (t t' : trace) (d : pydict) :
  let urls := urls_to_search city state selected_websites in
  find_properties_direct city state user_criteria selected_websites t = (inr d, t') ->
  has_key "error" d = false ->
  t' = (t ++ [first_call urls user_criteria])%list
  \/ t' = (t ++ [first_call urls user_criteria; fallback_call urls])%list.
Proof.
  intros urls Hf Hd.
  destruct urls as [|u us] eqn:Eu.
  - rewrite find_properties_no_urls in Hf by exact Eu.
    injection Hf as <- <-. discriminate Hd.
  - rewrite find_properties_cases in Hf by (fold urls; rewrite Eu; discriminate).
    fold urls in Hf. rewrite Eu in Hf.
    pose proof (listings_trace (u :: us) user_criteria t) as Hl.
    destruct (listings _ _ _) as [[e | l] t3]; cbn [snd] in Hl.
    + injection Hf as <- <-. discriminate Hd.
    + assert (t' = t3) as -> by (destruct (build_result _ _ l); now injection Hf).
      exact Hl.
Qed.

(** The calls of a run, complete or not: the first report, the requests
    of the client, then an initial stretch of the calls of steps 2 to 4. *)
Lemma run_calls_shape (city state : string) (user_criteria : pydict)
    (selected_websites : list string) (firecrawl_api_key google_api_key : string)
    (t : trace) :
  let urls := urls_to_search city state selected_websites in
  exists extract_calls count items k,
    ((extract_calls = [] /\ k = 0)
     \/ extract_calls = [first_call urls user_criteria]
     \/ extract_calls = [first_call urls user_criteria; fallback_call urls])
    /\ snd (run_sequential_analysis city state user_criteria selected_websites
              firecrawl_api_key google_api_key t)
       = (t ++ search_report :: extract_calls
            ++ firstn k (analysis_calls count city state
                           (dict_get user_criteria "budget_range" (PStr "Any"))
                           items))%list.
Proof.
  intros urls. unfold run_sequential_analysis.
  rewrite run_with_client_cases. cbv zeta.
  destruct (world t search_report).
  { exists [], 0, [], 0. split; [now left | reflexivity]. }
  destruct (find_properties_trace city state user_criteria selected_websites
              (t ++ [search_report])%list) as [calls [Ht Hcalls]].
  fold urls in Hcalls.
  destruct (find_properties_direct _ _ _ _ _) as [[e | d] t2] eqn:Ef;
    cbn [snd] in Ht.
  { exists calls, 0, [], 0. subst t2. split.
    - destruct Hcalls as [-> | [-> | ->]]; auto.
    - cbn [snd firstn]. now rewrite List.app_nil_r, <- List.app_assoc. }
  destruct (has_key "error" d) eqn:Ed.
  { exists calls, 0, [], 0. subst t2. split.
    - destruct Hcalls as [-> | [-> | ->]]; auto.
    - cbn [snd firstn]. now rewrite List.app_nil_r, <- List.app_assoc. }
  destruct (success_trace _ _ _ _ _ _ _ Ef Ed) as [Ht2 | Ht2]; fold urls in Ht2.
  - destruct (negb _).
    + exists [first_call urls user_criteria], 0, [], 0.
      split; [auto |]. cbn [snd firstn]. rewrite Ht2.
      now rewrite <- List.app_assoc.
    + destruct (analyse_calls city state user_criteria
                  (dict_get d "properties" (PList [])) t2)
        as [count [items [k Hk]]].
      exists [first_call urls user_criteria], count, items, k.
      split; [auto |]. rewrite Hk, Ht2. now rewrite <- !List.app_assoc.
  - destruct (negb _).
    + exists [first_call urls user_criteria; fallback_call urls], 0, [], 0.
      split; [auto |]. cbn [snd firstn]. rewrite Ht2.
      now rewrite <- List.app_assoc.
    + destruct (analyse_calls city state user_criteria
                  (dict_get d "properties" (PList [])) t2)
        as [count [items [k Hk]]].
      exists [first_call urls user_criteria; fallback_call urls], count, items, k.
      split; [auto |]. rewrite Hk, Ht2. now rewrite <- !List.app_assoc.
Qed.

(** X8.  Every run of the orchestrator, whether it completes, returns
    early or raises, makes its external calls in one fixed order: the
    first report, the one or two requests of the extraction client, then
    an initial stretch of reports 0.4 and 0.5, the market run, reports 0.7
    and 0.8, the valuation run and reports 0.9, 0.95 and 1.0.  So a run
    makes at most two extraction requests, at most one market run and one
    valuation run and at most eight reports; the valuation generator is
    run only after the market generator, and a generator only after an
    extraction request. *)
Theorem run_calls_in_fixed_order
    (city state : string) (user_criteria : pydict)
    (selected_websites : list string) (firecrawl_api_key google_api_key : string)
    (t : trace) :
  let urls := urls_to_search city state selected_websites in
  exists calls extract_calls count items k,
    snd (run_sequential_analysis city state user_criteria selected_websites
           firecrawl_api_key google_api_key t) = (t ++ calls)%list
    /\ calls
       = (search_report :: extract_calls
            ++ firstn k (analysis_calls count city state
                           (dict_get user_criteria "budget_range" (PStr "Any"))
                           items))%list
    /\ forallb is_extract extract_calls = true
    /\ Py.count is_extract calls <= 2
    /\ Py.count is_market_run calls <= 1
    /\ Py.count is_valuation_run calls <= 1
    /\ Py.count is_callback calls <= 8
    /\ Py.count is_valuation_run calls <= Py.count is_market_run calls
    /\ Py.count is_market_run calls <= Py.count is_extract calls.
Proof.
  intros urls.
  destruct (run_calls_shape city state user_criteria selected_websites
              firecrawl_api_key google_api_key t)
    as [extract_calls [count [items [k [Hex Ht]]]]].
  fold urls in Hex.
  eexists _, extract_calls, count, items, k.
  split; [exact Ht |]. split; [reflexivity |].
  unfold analysis_calls.
  destruct Hex as [[-> ->] | [-> | ->]].
  - cbn. repeat split; lia.
  - do 10 (destruct k as [|k]; [cbn; repeat split; lia |]).
    cbn. repeat split; lia.
  - do 10 (destruct k as [|k]; [cbn; repeat split; lia |]).
    cbn. repeat split; lia.
Qed.

Ltac report_facts :=
  cbn [app firstn progress_values increasing];
  split;
  [ repeat (apply Forall_cons; [cbn; unfold Qle; cbn; repeat split; lia |]);
    apply Forall_nil
  | cbn; unfold Qlt; cbn; repeat split; lia ].

(** The reports of any run suit the page, and their progress only grows,
    also after the first report of [main]. *)
Lemma run_reports (city state : string) (user_criteria : pydict)
    (selected_websites : list string) (firecrawl_api_key google_api_key : string)
    (t : trace) :
  exists calls,
    snd (run_sequential_analysis city state user_criteria selected_websites
           firecrawl_api_key google_api_key t) = (t ++ calls)%list
    /\ Forall fits_progress_bar calls
    /\ increasing (0.1%Q :: progress_values calls).
Proof.
  destruct (run_calls_shape city state user_criteria selected_websites
              firecrawl_api_key google_api_key t)
    as [extract_calls [count [items [k [Hex Ht]]]]].
  eexists. split; [exact Ht |].
  unfold analysis_calls, search_report, first_call, fallback_call.
  destruct Hex as [[-> ->] | [-> | ->]].
  - report_facts.
  - do 10 (destruct k as [|k]; [report_facts |]). report_facts.
  - do 10 (destruct k as [|k]; [report_facts |]). report_facts.
Qed.

(* ================================================================ *)
(** ** The submission handled by [main] *)
(* ================================================================ *)

(** [submit] case by case. *)
Lemma submit_cases (google_key firecrawl_key city state : string)
    (selected_websites : list string) (min_price max_price : Z)
    (property_type bedrooms bathrooms : string) (min_sqft : Z)
    (special_features : string) (t : trace) :
  let user_criteria :=
    user_criteria_of min_price max_price property_type bedrooms bathrooms
      min_sqft special_features in
  submit google_key firecrawl_key city state selected_websites min_price
    max_price property_type bedrooms bathrooms min_sqft special_features t =
  match missing_items google_key firecrawl_key city selected_websites with
  | (_ :: _) as items => (inr (AsksFor (join_with ", " items)), t)
  | [] =>
      match world t initial_report with
      | inl e => (inr (ErrorBox (str_exn e)), (t ++ [initial_report])%list)
      | inr _ =>
          match run_sequential_analysis city state user_criteria
                  selected_websites firecrawl_key google_key
                  (t ++ [initial_report])%list with
          | (inl e, t') => (inr (ErrorBox (str_exn e)), t')
          | (inr final_result, t') =>
              (match present final_result with
               | inl e => inr (ErrorBox (str_exn e))
               | inr shown => inr shown
               end, t')
          end
      end
  end.
Proof.
  cbv zeta. unfold submit.
  destruct (missing_items _ _ _ _); [| reflexivity].
  unfold try_except, bind, invoke, lift, ret. cbv zeta.
  destruct (world t initial_report); [reflexivity |].
  destruct (run_sequential_analysis _ _ _ _ _ _ _) as [[e | v] t'];
    [reflexivity |].
  destruct (present v); reflexivity.
Qed.

(** X9.  Whatever a submission runs into, every progress report it makes,
    the first one of [main] included, suits the page: its progress lies
    between 0 and 1, so the progress bar accepts it, its activity text is
    not empty, so [update_progress] does move the bar and show the text,
    and the progress shown never goes back. *)
Theorem reports_suit_the_page
    (google_key firecrawl_key city state : string)
    (selected_websites : list string) (min_price max_price : Z)
    (property_type bedrooms bathrooms : string) (min_sqft : Z)
    (special_features : string) (t : trace) :
  exists calls,
    snd (submit google_key firecrawl_key city state selected_websites min_price
           max_price property_type bedrooms bathrooms min_sqft special_features t)
    = (t ++ calls)%list
    /\ Forall fits_progress_bar calls
    /\ increasing (progress_values calls).
Proof.
  rewrite submit_cases. cbv zeta.
  destruct (missing_items _ _ _ _).
  2: { exists []. cbn. rewrite List.app_nil_r. repeat split. constructor. }
  assert (Hfirst : fits_progress_bar initial_report)
    by (cbn; unfold Qle; cbn; repeat split; lia).
  destruct (world t initial_report).
  { exists [initial_report]. cbn [snd]. split; [reflexivity |].
    split; [constructor; [exact Hfirst | constructor] | exact I]. }
  destruct (run_reports city state
              (user_criteria_of min_price max_price property_type bedrooms
                 bathrooms min_sqft special_features)
              selected_websites firecrawl_key google_key
              (t ++ [initial_report])%list) as [calls [Ht [Hfit Hinc]]].
  exists (initial_report :: calls).
  split; [| split; [constructor; assumption | exact Hinc]].
  destruct (run_sequential_analysis _ _ _ _ _ _ _) as [[e | v] t'];
    cbn [snd] in *; subst t'; now rewrite <- List.app_assoc.
Qed.

Lemma missing_items_nil (google_key firecrawl_key city : string)
    (selected_websites : list string) :
  missing_items google_key firecrawl_key city selected_websites = [] <->
  google_key <> "" /\ firecrawl_key <> "" /\ city <> "" /\ selected_websites <> [].
Proof.
  unfold missing_items.
  destruct (String.eqb_spec google_key ""), (String.eqb_spec firecrawl_key ""),
    (String.eqb_spec city ""), selected_websites;
    cbn; split; intros H; try discriminate H;
    try (decompose [and] H; congruence);
    repeat split; congruence.
Qed.

(** X10.  The pipeline starts only when both keys, the city and at least
    one site are given.  When something is missing, the submission asks
    for exactly the missing inputs, each named once and in the order keys,
    city, sites, and makes no call at all; when nothing is missing, it
    begins with the first report.  In no case does an exception leave the
    handler: the submission always ends in a page. *)
Theorem submission_needs_all_inputs
    (google_key firecrawl_key city state : string)
    (selected_websites : list string) (min_price max_price : Z)
    (property_type bedrooms bathrooms : string) (min_sqft : Z)
    (special_features : string) (t : trace) :
  let missing := missing_items google_key firecrawl_key city selected_websites in
  let outcome :=
    submit google_key firecrawl_key city state selected_websites min_price
      max_price property_type bedrooms bathrooms min_sqft special_features t in
  (missing = [] <->
   google_key <> "" /\ firecrawl_key <> "" /\ city <> ""
   /\ selected_websites <> [])
  /\ (In "Google AI API Key" missing <-> google_key = "")
  /\ (In "Firecrawl API Key" missing <-> firecrawl_key = "")
  /\ (In "City" missing <-> city = "")
  /\ (In "At least one website selection" missing <-> selected_websites = [])
  /\ NoDup missing
  /\ (missing <> [] -> outcome = (inr (AsksFor (join_with ", " missing)), t))
  /\ (missing = [] ->
      exists calls, snd outcome = (t ++ initial_report :: calls)%list)
  /\ (exists shown, fst outcome = inr shown).
Proof.
  cbv zeta.
  split; [apply missing_items_nil |].
  assert (Hin : forall item,
             In item (missing_items google_key firecrawl_key city selected_websites)
             <-> (item = "Google AI API Key" /\ google_key = "")
                 \/ (item = "Firecrawl API Key" /\ firecrawl_key = "")
                 \/ (item = "City" /\ city = "")
                 \/ (item = "At least one website selection"
                     /\ selected_websites = [])).
  { intros item. unfold missing_items.
    destruct (String.eqb_spec google_key ""), (String.eqb_spec firecrawl_key ""),
      (String.eqb_spec city ""), selected_websites; cbn;
      intuition (try congruence; try discriminate). }
  split; [rewrite Hin; intuition discriminate |].
  split; [rewrite Hin; intuition discriminate |].
  split; [rewrite Hin; intuition discriminate |].
  split; [rewrite Hin; intuition discriminate |].
  split.
  { unfold missing_items.
    destruct (String.eqb google_key ""), (String.eqb firecrawl_key ""),
      (String.eqb city ""), selected_websites; cbn;
      repeat constructor; cbn; intuition discriminate. }
  rewrite submit_cases. cbv zeta.
  destruct (missing_items _ _ _ _) as [|item items].
  - split; [congruence |]. split.
    + intros _. destruct (world t initial_report).
      * exists []. reflexivity.
      * destruct (run_reports city state
                    (user_criteria_of min_price max_price property_type
                       bedrooms bathrooms min_sqft special_features)
                    selected_websites firecrawl_key google_key
                    (t ++ [initial_report])%list) as [calls [Ht _]].
        exists calls.
        destruct (run_sequential_analysis _ _ _ _ _ _ _) as [[e | v] t'];
          cbn [snd] in *; subst t'; now rewrite <- List.app_assoc.
    + destruct (world t initial_report); [eexists; reflexivity |].
      destruct (run_sequential_analysis _ _ _ _ _ _ _) as [[e | v] t'];
        [eexists; reflexivity |].
      destruct (present v); eexists; reflexivity.
  - split; [reflexivity |]. split; [discriminate |]. eexists; reflexivity.
Qed.

(* ================================================================ *)
(** ** Failures inside a run *)
(* ================================================================ *)

Ltac callback_returns Hcb :=
  match goal with
  | |- context [world ?t (UpdateCallback ?p ?s ?a)] =>
      let v := fresh "v" in
      let Hv := fresh "Hv" in
      destruct (Hcb t (UpdateCallback p s a) eq_refl) as [v Hv];
      rewrite Hv; clear v Hv; cbv beta iota zeta
  end.

(** X11.  When the market generator raises, a submission whose search
    found properties ends in the error box showing the exception's text:
    the run stops right after the market request, so the valuation
    generator is never run and no dashboard is shown. *)
Theorem market_failure_reaches_error_box
    (google_key firecrawl_key city state : string)
    (selected_websites : list string) (min_price max_price : Z)
    (property_type bedrooms bathrooms : string) (min_sqft : Z)
    (special_features : string) (t t2 : trace) (d : pydict) (e : exn) :
  let user_criteria :=
    user_criteria_of min_price max_price property_type bedrooms bathrooms
      min_sqft special_features in
  missing_items google_key firecrawl_key city selected_websites = [] ->
  callback_returns ->
  find_properties_direct city state user_criteria selected_websites
    ((t ++ [initial_report]) ++ [search_report])%list = (inr d, t2) ->
  has_key "error" d = false ->
  (forall t' p, world t' (MarketRun p) = inl e) ->
  exists count,
    py_len (dict_get d "properties" (PList [])) = inr count
    /\ submit google_key firecrawl_key city state selected_websites min_price
         max_price property_type bedrooms bathrooms min_sqft special_features t
       = (inr (ErrorBox (str_exn e)),
          (t2 ++ firstn 3 (analysis_calls count city state
                             (dict_get user_criteria "budget_range" (PStr "Any"))
                             []))%list).
Proof.
  intros user_criteria Hm Hcb Hf Hd Hmr.
  destruct (success_properties _ _ _ _ _ _ _ Hf Hd) as [n [Htruthy [Hlen _]]].
  exists (S n). split; [exact Hlen |].
  rewrite submit_cases. cbv zeta. rewrite Hm.
  unfold initial_report at 1. callback_returns Hcb.
  unfold run_sequential_analysis. rewrite run_with_client_cases. cbv zeta.
  unfold search_report at 1. callback_returns Hcb.
  fold user_criteria. rewrite Hf, Hd, Htruthy. cbn [negb].
  unfold analyse, update_callback, bind, lift, ret, invoke. cbv zeta.
  rewrite Hlen. cbv beta iota zeta.
  callback_returns Hcb. callback_returns Hcb.
  rewrite Hmr. unfold analysis_calls. cbn [firstn].
  now rewrite <- !List.app_assoc.
Qed.

Lemma py_len_error (v : pyval) (e : exn) : py_len v = inl e -> e = TypeError.
Proof. destruct v; cbn; congruence. Qed.

Lemma py_iter_error (v : pyval) (e : exn) : py_iter v = inl e -> e = TypeError.
Proof. destruct v; cbn; congruence. Qed.

Lemma json_dumps_check_error (v : pyval) (e : exn) :
  json_dumps_check v = inl e -> e = TypeError.
Proof. unfold json_dumps_check. destruct (json_serializable v); congruence. Qed.

Ltac raised_after count items k :=
  eexists _, _; split; [reflexivity |]; split;
  [ right; exists count, items, k; split; [lia |];
    unfold analysis_calls; cbn [firstn];
    rewrite <- ?List.app_assoc, ?List.app_nil_r; reflexivity
  | intros Hret;
    first
      [ reflexivity
      | match goal with
        | Ew : world ?t ?c = inl _ |- _ =>
            destruct (Hret t c) as [? Hv]; rewrite Hv in Ew; discriminate Ew
        end
      | eauto using py_len_error, py_iter_error, json_dumps_check_error ] ].

Ltac next_call_or_raise count items k :=
  match goal with
  | |- context [world ?t ?c] =>
      destruct (world t c) eqn:?Ew; cbv beta iota zeta;
      [raised_after count items k |]
  end.

(** X12.  The orchestrator reads records either as mappings or, through
    [getattr], as objects; yet a run whose properties hold anything that
    [json.dumps] refuses never completes.  It raises, at the latest where
    the properties are dumped for the link search, so that the final
    report is never made; when every external call returns, what it
    raises is a [TypeError]. *)
Theorem unserializable_properties_never_complete
    (client : M pydict) (city state : string) (user_criteria : pydict)
    (t t2 : trace) (d : pydict) :
  client (t ++ [search_report])%list = (inr d, t2) ->
  has_key "error" d = false ->
  json_serializable (dict_get d "properties" (PList [])) = false ->
  exists e t',
    run_with_client client city state user_criteria t = (inl e, t')
    /\ (t' = (t ++ [search_report])%list
        \/ exists count items k,
             k <= 8
             /\ t' = (t2 ++ firstn k
                              (analysis_calls count city state
                                 (dict_get user_criteria "budget_range" (PStr "Any"))
                                 items))%list)
    /\ (every_call_returns -> e = TypeError).
Proof.
  intros Hc Hd Hjson.
  assert (Htruthy : py_truthy (dict_get d "properties" (PList [])) = true).
  { destruct (dict_get d "properties" (PList [])) as [| | | |items|entries|];
      try discriminate Hjson; try reflexivity.
    - destruct items; [discriminate Hjson | reflexivity].
    - destruct entries; [discriminate Hjson | reflexivity]. }
  rewrite run_with_client_cases. cbv zeta.
  destruct (world t search_report) eqn:Ew.
  { eexists _, _. split; [reflexivity |]. split; [now left |].
    intros Hret. destruct (Hret t search_report) as [v Hv].
    rewrite Hv in Ew. discriminate Ew. }
  rewrite Hc, Hd, Htruthy. cbn [negb]. clear Ew.
  unfold analyse, update_callback, bind, lift, ret, invoke. cbv zeta.
  destruct (py_len _) as [e | count] eqn:El; cbv beta iota zeta;
    [raised_after 0 (@nil pyval) 0 |].
  next_call_or_raise count (@nil pyval) 1.
  next_call_or_raise count (@nil pyval) 2.
  next_call_or_raise count (@nil pyval) 3.
  next_call_or_raise count (@nil pyval) 4.
  next_call_or_raise count (@nil pyval) 5.
  destruct (py_iter _) as [e | items] eqn:Ei; cbv beta iota zeta;
    [raised_after count (@nil pyval) 5 |].
  destruct (json_dumps_check (PList _)) eqn:Ej; cbv beta iota zeta;
    [raised_after count items 5 |].
  next_call_or_raise count items 6.
  next_call_or_raise count items 7.
  next_call_or_raise count items 8.
  unfold json_dumps_check. rewrite Hjson. cbv beta iota zeta.
  raised_after count items 8.
Qed.

(* ================================================================ *)
(** ** From the form to the first request *)
(* ================================================================ *)

Lemma search_urls_keys (city state : string) :
  exists zillow realtor trulia homes,
    search_urls city state
    = [ ("Zillow", zillow); ("Realtor.com", realtor);
        ("Trulia", trulia); ("Homes.com", homes) ].
Proof. unfold search_urls. cbv zeta. eauto. Qed.

(** X13.  The sites handed over by the form are the ticked ones among the
    four offered, each once and in the order of the boxes; the client
    turns them into one address each, in the same order.  So a form that
    passed validation never runs into the client's error for an empty
    address list. *)
Theorem ticked_sites_get_one_url_each
    (checked : string -> bool) (google_key firecrawl_key city state : string) :
  let selected_websites := selected_websites_of checked in
  let urls := urls_to_search city state selected_websites in
  (forall site,
     In site selected_websites <->
     In site AVAILABLE_WEBSITES /\ checked site = true)
  /\ NoDup selected_websites
  /\ Forall2 (fun site url => site_url city state site = Some url)
       selected_websites urls
  /\ (missing_items google_key firecrawl_key city selected_websites = [] ->
      urls <> []).
Proof.
  cbv zeta. split; [intros site; apply filter_In |].
  split.
  { apply NoDup_filter. unfold AVAILABLE_WEBSITES.
    repeat constructor; cbn; intuition discriminate. }
  assert (Hurls :
            Forall2 (fun site url => site_url city state site = Some url)
              (selected_websites_of checked)
              (urls_to_search city state (selected_websites_of checked))).
  { unfold selected_websites_of, AVAILABLE_WEBSITES, urls_to_search, site_url.
    destruct (search_urls_keys city state)
      as [zillow [realtor [trulia [homes ->]]]].
    cbn [filter].
    destruct (checked "Zillow"), (checked "Realtor.com"), (checked "Trulia"),
      (checked "Homes.com"); vm_compute; repeat constructor. }
  split; [exact Hurls |].
  intros Hm. apply missing_items_nil in Hm. destruct Hm as [_ [_ [_ Hsel]]].
  intros Hnil. rewrite Hnil in Hurls. inversion Hurls as [Hs |]. auto.
Qed.

(* ================================================================ *)
(** ** What a submission puts on the page *)
(* ================================================================ *)

(** X14.  What a submission shows is settled by the outcome of the
    pipeline.  An exception, of the first report or of the run, gives the
    error box with its text.  A failed search (the client's dictionary
    has an error) is not shown in the error box but as the Markdown report
    [Error in property search: <error>], and there is no other Markdown
    report.  A run that returns the final dictionary opens the dashboard
    with the properties, the two analyses and the count of that
    dictionary: reading its four entries never fails, the properties are
    non-empty and serializable, and the count is their length.  In
    particular, when every external call returns, the search succeeds and
    its properties can be dumped, the dashboard is opened with the
    client's properties. *)
Theorem page_of_a_submission
    (google_key firecrawl_key city state : string)
    (selected_websites : list string) (min_price max_price : Z)
    (property_type bedrooms bathrooms : string) (min_sqft : Z)
    (special_features : string) (t : trace) :
  let user_criteria :=
    user_criteria_of min_price max_price property_type bedrooms bathrooms
      min_sqft special_features in
  let shown :=
    submit google_key firecrawl_key city state selected_websites min_price
      max_price property_type bedrooms bathrooms min_sqft special_features t in
  let t1 := (t ++ [initial_report])%list in
  missing_items google_key firecrawl_key city selected_websites = [] ->
  match world t initial_report with
  | inl e => shown = (inr (ErrorBox (str_exn e)), t1)
  | inr _ =>
      match run_sequential_analysis city state user_criteria selected_websites
              firecrawl_key google_key t1 with
      | (inl e, t') => shown = (inr (ErrorBox (str_exn e)), t')
      | (inr final_result, t') =>
          (exists properties market_analysis property_valuations synthesis n,
              final_result
              = PDict [ ("properties", properties);
                        ("market_analysis", market_analysis);
                        ("property_valuations", property_valuations);
                        ("markdown_synthesis", PStr synthesis);
                        ("total_properties", PInt (Z.of_nat (S n))) ]
              /\ py_len properties = inr (S n)
              /\ json_serializable properties = true
              /\ shown
                 = (inr (Dashboard properties market_analysis property_valuations
                           (PInt (Z.of_nat (S n)))), t'))
          \/ (exists d,
                find_properties_direct city state user_criteria selected_websites
                  (t1 ++ [search_report])%list = (inr d, t')
                /\ has_key "error" d = true
                /\ final_result
                   = PStr ("Error in property search: "
                           ++ py_str (dict_get d "error" PNone))
                /\ shown = (inr (MarkdownReport final_result), t'))
      end
      /\ (forall d t2,
            (exists v, world t1 search_report = inr v) ->
            find_properties_direct city state user_criteria selected_websites
              (t1 ++ [search_report])%list = (inr d, t2) ->
            has_key "error" d = true ->
            shown
            = (inr (MarkdownReport
                      (PStr ("Error in property search: "
                             ++ py_str (dict_get d "error" PNone)))), t2))
      /\ (forall properties count t2,
            every_call_returns ->
            find_properties_direct city state user_criteria selected_websites
              (t1 ++ [search_report])%list
            = (inr (success_result properties count selected_websites), t2) ->
            json_serializable properties = true ->
            exists market_analysis property_valuations items,
              py_iter properties = inr items
              /\ shown
                 = (inr (Dashboard properties market_analysis property_valuations
                           (PInt (Z.of_nat count))),
                    (t2 ++ analysis_calls count city state
                             (dict_get user_criteria "budget_range" (PStr "Any"))
                             items)%list))
  end.
Proof.
  intros user_criteria shown t1 Hm. unfold shown.
  rewrite submit_cases. cbv zeta. rewrite Hm. fold user_criteria. fold t1.
  destruct (world t initial_report); [reflexivity |].
  split; [| split].
  - unfold run_sequential_analysis. rewrite run_with_client_cases. cbv zeta.
    destruct (world _ search_report); [reflexivity |].
    destruct (find_properties_direct _ _ _ _ _) as [[e | d] t2] eqn:Ef;
      [reflexivity |].
    destruct (has_key "error" d) eqn:Ed.
    { right. exists d. repeat split. exact Ed. }
    destruct (success_properties _ _ _ _ _ _ _ Ef Ed) as [n [Htruthy [Hlen _]]].
    rewrite Htruthy. cbn [negb].
    destruct (analyse _ _ _ _ _) as [[e | v] t3] eqn:Ea; [reflexivity |].
    pose proof (analyse_serializable _ _ _ _ _ _ _ Ea) as Hjson.
    destruct (analyse_complete _ _ _ _ _ _ _ Ea)
      as [count [its [market [valuations [Hcount [_ [_ ->]]]]]]].
    rewrite Hlen in Hcount. injection Hcount as <-.
    left. eexists _, _, _, _, n. repeat split; [exact Hlen | exact Hjson].
  - intros d t2 [v Hv] Hf Hd.
    unfold run_sequential_analysis. rewrite run_with_client_cases. cbv zeta.
    rewrite Hv, Hf, Hd. reflexivity.
  - intros properties count t2 Hret Hf Hjson.
    destruct (run_total city state user_criteria selected_websites firecrawl_key
                google_key t1 t2 properties count Hret Hf Hjson)
      as [items [m [pv [Hit [_ Hrun]]]]].
    exists m, pv, items. split; [exact Hit |].
    rewrite Hrun. reflexivity.
Qed.

(* ================================================================ *)
(** ** More on the average-price metric *)
(* ================================================================ *)

Lemma collect_price_usable (prices : list Z) (p : pyval) :
  collect_price prices p
  = (prices ++ (if usable_price p then [price_value p] else []))%list.
Proof.
  unfold collect_price, usable_price, price_value. cbv zeta.
  pose proof (try_collect_cases prices (price_of p)) as Ht.
  fold (convertible (py_str (price_of p))).
  destruct (py_truthy (price_of p) && differs_from_sentinel (price_of p));
    cbn [andb]; [| now rewrite List.app_nil_r].
  destruct (try_collect prices (price_of p)) as [e | collected].
  - destruct Ht as [-> ->]. now rewrite List.app_nil_r.
  - destruct Ht as [-> Hc]. destruct (has_digit (py_str (price_of p)));
      cbn [andb]; [now rewrite Hc | reflexivity].
Qed.

Lemma collect_prices_usable (properties : list pyval) :
  collect_prices properties = map price_value (filter usable_price properties).
Proof.
  unfold collect_prices.
  enough (H : forall prices,
             fold_left collect_price properties prices
             = (prices ++ map price_value (filter usable_price properties))%list)
    by apply (H []).
  induction properties as [|p ps IH]; intros prices; cbn [fold_left filter map].
  - now rewrite List.app_nil_r.
  - rewrite IH, collect_price_usable.
    destruct (usable_price p); cbn [map]; now rewrite <- List.app_assoc.
Qed.

Lemma sum_Z_cons (x : Z) (l : list Z) : sum_Z (x :: l) = (x + sum_Z l)%Z.
Proof. unfold sum_Z. cbn [fold_left]. rewrite sum_Z_from. lia. Qed.

Lemma sum_Z_reordered (l l' : list Z) : Permutation l l' -> sum_Z l = sum_Z l'.
Proof.
  induction 1 as [| x l l' _ IH | x y l | l l' l'' _ IH1 _ IH2].
  - reflexivity.
  - rewrite !sum_Z_cons. lia.
  - rewrite !sum_Z_cons. lia.
  - congruence.
Qed.

Lemma usable_reordered (ps ps' : list pyval) :
  Permutation ps ps' ->
  Permutation (filter usable_price ps) (filter usable_price ps').
Proof.
  induction 1 as [| x l l' _ IH | x y l | l l' l'' _ IH1 _ IH2]; cbn [filter].
  - constructor.
  - destruct (usable_price x); [now constructor | exact IH].
  - destruct (usable_price x), (usable_price y);
      try apply Permutation_refl. apply perm_swap.
  - eapply perm_trans; eassumption.
Qed.

Lemma filter_twice {A : Type} (keep : A -> bool) (l : list A) :
  filter keep (filter keep l) = filter keep l.
Proof.
  induction l as [|x l IH]; [reflexivity |]. cbn [filter].
  destruct (keep x) eqn:E; [| exact IH]. cbn [filter]. now rewrite E, IH.
Qed.

(** X15.  For records with ASCII price texts, the average shown does not
    depend on the order of the records, and the records without a usable
    price (no price, a falsy one, the sentinel, a text without digits or
    with more digits than [int] converts, which the [except] skips) could
    as well be left out: they count neither in the sum nor in the number
    divided by. *)
Theorem avg_price_order_and_unpriced (properties reordered : list pyval) :
  ascii_prices properties ->
  Permutation properties reordered ->
  avg_price properties = avg_price reordered
  /\ avg_price (filter usable_price properties) = avg_price properties
  /\ collect_prices properties = map price_value (filter usable_price properties).
Proof.
  intros _ Hperm. unfold avg_price. cbv zeta.
  rewrite !collect_prices_usable, filter_twice.
  split; [| split; reflexivity].
  pose proof (Permutation_map price_value (usable_reordered _ _ Hperm)) as Hp.
  rewrite (sum_Z_reordered _ _ Hp), (Permutation_length Hp).
  destruct (map price_value (filter usable_price properties)) eqn:E1,
    (map price_value (filter usable_price reordered)) eqn:E2;
    try reflexivity.
  - apply Permutation_nil in Hp. discriminate Hp.
  - apply Permutation_sym, Permutation_nil in Hp. discriminate Hp.
Qed.

Lemma digit_value_nonneg (c : ascii) : (0 <= digit_value c)%Z.
Proof. unfold digit_value. lia. Qed.

Lemma digits_value_nonneg (digits : string) (acc : Z) :
  (0 <= acc)%Z -> (0 <= digits_value acc digits)%Z.
Proof.
  revert acc; induction digits as [|c rest IH]; intros acc Hacc;
    cbn [digits_value]; [exact Hacc |].
  apply IH. pose proof (digit_value_nonneg c). lia.
Qed.

Lemma price_value_nonneg (p : pyval) : (0 <= price_value p)%Z.
Proof.
  unfold price_value, entry_value, int_of_digits.
  apply digits_value_nonneg. lia.
Qed.

Lemma sum_Z_bounds (l : list Z) (lo hi : Z) :
  (forall v, In v l -> (lo <= v <= hi)%Z) ->
  (lo * Z.of_nat (List.length l) <= sum_Z l <= hi * Z.of_nat (List.length l))%Z.
Proof.
  induction l as [|x l IH]; intros H.
  - cbn. lia.
  - rewrite sum_Z_cons. cbn [List.length].
    pose proof (H x (or_introl eq_refl)).
    assert (Hl : forall v, In v l -> (lo <= v <= hi)%Z)
      by (intros v Hv; apply H; now right).
    specialize (IH Hl). lia.
Qed.

(** X16.  For records with ASCII price texts of which one at least is
    usable, the average shown is a number between the least and the
    greatest of the usable prices, and never a negative one. *)
Theorem avg_price_between_extremes (properties : list pyval) (lo hi : Z) :
  ascii_prices properties ->
  (exists p, In p properties /\ usable_price p = true) ->
  (forall p, In p properties -> usable_price p = true ->
             (lo <= price_value p <= hi)%Z) ->
  exists mean,
    avg_price properties = "$" ++ format_thousands mean
    /\ (lo <= mean <= hi)%Z /\ (0 <= mean)%Z.
Proof.
  intros _ [p0 [Hin0 Hu0]] Hbounds.
  unfold avg_price. cbv zeta. rewrite collect_prices_usable.
  set (prices := map price_value (filter usable_price properties)).
  assert (Hne : In (price_value p0) prices).
  { apply in_map, filter_In. auto. }
  assert (Hall : forall v, In v prices -> (lo <= v <= hi)%Z).
  { intros v Hv. apply in_map_iff in Hv as [p [<- Hp]].
    apply filter_In in Hp as [Hp Hu]. auto. }
  assert (Hpos : forall v, In v prices -> (0 <= v <= Z.max 0 hi)%Z).
  { intros v Hv. pose proof (Hall v Hv).
    apply in_map_iff in Hv as [p [<- Hp]].
    pose proof (price_value_nonneg p). lia. }
  pose proof (sum_Z_bounds prices lo hi Hall) as Hsum.
  pose proof (sum_Z_bounds prices 0 (Z.max 0 hi) Hpos) as Hsum0.
  destruct prices as [|v rest] eqn:E; [destruct Hne |].
  eexists. split; [reflexivity |].
  assert (Hlen : (0 < Z.of_nat (List.length (v :: rest)))%Z) by (cbn; lia).
  split; [split |].
  - apply Z.div_le_lower_bound; lia.
  - apply Z.div_le_upper_bound; lia.
  - apply Z.div_pos; lia.
Qed.

Lemma filter_chars_app (keep : ascii -> bool) (a b : string) :
  filter_chars keep (a ++ b) = filter_chars keep a ++ filter_chars keep b.
Proof.
  induction a as [|c a IH]; [reflexivity |].
  change (String c a ++ b) with (String c (a ++ b)). cbn [filter_chars].
  destruct (keep c); [cbn [append]; now rewrite IH | exact IH].
Qed.

Lemma digits_value_shift (digits : string) (acc : Z) :
  digits_value acc digits
  = (acc * 10 ^ Z.of_nat (String.length digits) + digits_value 0 digits)%Z.
Proof.
  revert acc; induction digits as [|c rest IH]; intros acc.
  - cbn. lia.
  - cbn [digits_value String.length].
    rewrite (IH (10 * acc + digit_value c)%Z), (IH (10 * 0 + digit_value c)%Z).
    rewrite Nat2Z.inj_succ, Z.pow_succ_r by lia. lia.
Qed.

Lemma digits_value_app (a b : string) (acc : Z) :
  digits_value acc (a ++ b) = digits_value (digits_value acc a) b.
Proof.
  revert acc; induction a as [|c a IH]; intros acc; [reflexivity |].
  change (String c a ++ b) with (String c (a ++ b)). cbn [digits_value].
  apply IH.
Qed.

Lemma filter_chars_nonempty_app (keep : ascii -> bool) (a b : string) :
  filter_chars keep a <> "" -> filter_chars keep (a ++ b) <> "".
Proof.
  rewrite filter_chars_app. destruct (filter_chars keep a); [congruence |].
  discriminate.
Qed.

(** X17.  All the digits of a price text are read as one number: the
    digits after a decimal point, or those of a second figure, are
    appended to the ones before.  For a record whose price is the ASCII
    text [before ++ after], with a digit in [before] and no more digits
    in all than [int] converts, the value shown is the number read from
    [before] shifted by the number of digits of [after], plus the number
    read from [after]. *)
Theorem price_digits_run_together (p : pyval) (before after : string) :
  price_of p = PStr (before ++ after) ->
  readable_price (before ++ after) = true ->
  has_digit before = true ->
  avg_price [p]
  = "$" ++ format_thousands
             (entry_value before * 10 ^ Z.of_nat (digits_in after)
              + entry_value after)%Z.
Proof.
  intros Hp Hr Hdigit.
  assert (Hne : filter_chars is_digit (before ++ after) <> "").
  { apply filter_chars_nonempty_app. unfold has_digit in Hdigit.
    apply negb_true_iff in Hdigit.
    now apply String.eqb_neq in Hdigit. }
  assert (Hk : kept (before ++ after) = true).
  { unfold kept, has_digit.
    destruct (String.eqb_spec (before ++ after) "") as [E |].
    { rewrite E in Hne. now destruct Hne. }
    destruct (String.eqb_spec (before ++ after) "Price not available") as [E |].
    { rewrite E in Hne. now destruct Hne. }
    apply String.eqb_neq in Hne. now rewrite Hne. }
  unfold avg_price, collect_prices. cbv zeta. cbn [fold_left].
  assert (Hc : convertible (before ++ after) = true).
  { unfold readable_price in Hr. now apply andb_true_iff in Hr as [_ Hr]. }
  rewrite (collect_price_kept [] p _ Hp), Hk, Hc. cbn [andb app List.length].
  unfold sum_Z. cbn [fold_left]. rewrite Z.div_1_r.
  unfold entry_value, int_of_digits, digits_in.
  rewrite filter_chars_app, digits_value_app.
  rewrite (digits_value_shift (filter_chars is_digit after)).
  reflexivity.
Qed.

(* ================================================================ *)
(** ** The most common type *)
(* ================================================================ *)

Lemma bump_as_items (t : string) (types : list (string * nat)) :
  bump (PStr t) (as_items types) = as_items (bump_string t types).
Proof.
  induction types as [|[k n] rest IH]; [reflexivity |].
  cbn [as_items map bump bump_string fst snd py_key_eqb].
  destruct (String.eqb k t); [reflexivity |].
  cbn [map fst snd]. f_equal. exact IH.
Qed.

Lemma type_counts_strings (properties : list pyval) (tys : list string) :
  Forall2 (fun p ty => field p "property_type" "Unknown" = PStr ty) properties tys ->
  forall types,
    fold_left count_type properties (inr (as_items types))
    = inr (as_items (tally_from types tys)).
Proof.
  induction 1 as [|p ty ps tys Hp _ IH]; intros types; [reflexivity |].
  cbn [fold_left tally_from]. unfold count_type at 2. cbn [bindE].
  rewrite Hp. cbn [py_hashable]. rewrite bump_as_items. apply IH.
Qed.

Lemma tallied_bump (k t : string) (types : list (string * nat)) :
  tallied k (bump_string t types)
  = tallied k types + (if String.eqb t k then 1 else 0).
Proof.
  induction types as [|[k' n] rest IH]; cbn [bump_string tallied].
  - reflexivity.
  - destruct (String.eqb_spec k' t) as [-> | Hkt]; cbn [tallied].
    + destruct (String.eqb t k); lia.
    + destruct (String.eqb_spec k' k) as [-> | Hkk].
      * destruct (String.eqb_spec t k); [congruence | lia].
      * exact IH.
Qed.

Lemma tallied_tally (k : string) (seen : list string) :
  forall types,
    tallied k (tally_from types seen) = tallied k types + occurrences seen k.
Proof.
  unfold occurrences.
  induction seen as [|t seen IH]; intros types; cbn [tally_from fold_left count_occ].
  - lia.
  - change (fold_left _ seen (bump_string t types))
      with (tally_from (bump_string t types) seen).
    rewrite IH, tallied_bump.
    destruct (String.eqb_spec t k), (string_dec t k); try congruence; lia.
Qed.

Lemma bump_keys (t : string) (types : list (string * nat)) :
  map fst (bump_string t types)
  = if in_dec string_dec t (map fst types) then map fst types
    else (map fst types ++ [t])%list.
Proof.
  induction types as [|[k n] rest IH]; [reflexivity |].
  cbn [bump_string map fst].
  destruct (String.eqb_spec k t) as [-> | Hkt].
  - cbn [map fst]. clear IH.
    destruct (in_dec string_dec t (t :: map fst rest)) as [_ | Hn];
      [reflexivity |].
    exfalso. apply Hn. now left.
  - cbn [map fst]. rewrite IH.
    destruct (in_dec string_dec t (map fst rest)) as [Hin | Hnin],
      (in_dec string_dec t (k :: map fst rest)) as [Hin' | Hnin'];
      try reflexivity.
    + exfalso. apply Hnin'. now right.
    + destruct Hin' as [E | Hin']; [congruence | contradiction].
Qed.

Lemma tally_keys (seen : list string) :
  forall types,
    NoDup (map fst types) ->
    exists later,
      map fst (tally_from types seen) = (map fst types ++ later)%list
      /\ NoDup (map fst (tally_from types seen))
      /\ (forall k, In k later -> In k seen).
Proof.
  induction seen as [|t seen IH]; intros types Hnd; cbn [tally_from fold_left].
  - exists []. rewrite List.app_nil_r. repeat split; [assumption | intros k []].
  - change (fold_left _ seen (bump_string t types))
      with (tally_from (bump_string t types) seen).
    pose proof (bump_keys t types) as Hk.
    destruct (in_dec string_dec t (map fst types)) as [Hin | Hnin].
    + destruct (IH (bump_string t types)) as [later [Hl [Hn Hs]]];
        [now rewrite Hk |].
      exists later. split; [| split].
      * now rewrite Hl, Hk.
      * exact Hn.
      * intros k Hkin. right. auto.
    + destruct (IH (bump_string t types)) as [later [Hl [Hn Hs]]].
      { rewrite Hk. apply NoDup_app; [assumption | repeat constructor; intros [] |].
        intros x Hx [<- | []]. contradiction. }
      exists (t :: later). split; [| split].
      * rewrite Hl, Hk, <- List.app_assoc. reflexivity.
      * exact Hn.
      * intros k [<- | Hkin]; [now left | right; auto].
Qed.

Lemma tallied_entry (k : string) (n : nat) (types : list (string * nat)) :
  NoDup (map fst types) -> In (k, n) types -> tallied k types = n.
Proof.
  induction types as [|[k' n'] rest IH]; intros Hnd Hin; [destruct Hin |].
  cbn [map fst] in Hnd. apply NoDup_cons_iff in Hnd as [Hk' Hnd].
  cbn [tallied]. destruct Hin as [[= -> ->] | Hin].
  - now rewrite String.eqb_refl.
  - destruct (String.eqb_spec k' k) as [-> | _]; [| now apply IH].
    exfalso. apply Hk'. apply in_map_iff. exists (k, n). auto.
Qed.

(** [max] keeps the first of the items with the greatest count. *)
Lemma max_by_count_first (items : list (pyval * nat)) :
  forall best,
    exists before after,
      (best :: items = before ++ max_by_count best items :: after)%list
      /\ (forall x, In x before -> snd x < snd (max_by_count best items))
      /\ (forall x, In x after -> snd x <= snd (max_by_count best items)).
Proof.
  induction items as [|x items IH]; intros best; cbn [max_by_count].
  - exists [], []. repeat split; intros x [].
  - destruct (Nat.ltb_spec (snd best) (snd x)) as [Hlt | Hge].
    + destruct (IH x) as [before [after [Hsplit [Hb Ha]]]].
      exists (best :: before), after. rewrite Hsplit. split; [reflexivity |].
      split; [| exact Ha].
      intros y [<- | Hy]; [| now apply Hb].
      assert (Hx : snd x <= snd (max_by_count x items)).
      { destruct before as [|b before]; injection Hsplit as Hx _.
        - rewrite <- Hx. lia.
        - subst b. specialize (Hb x (or_introl eq_refl)). lia. }
      lia.
    + destruct (IH best) as [before [after [Hsplit [Hb Ha]]]].
      destruct before as [|b before]; injection Hsplit as Hhd Htl.
      * exists [], (x :: after). rewrite <- Hhd.
        split; [cbn [app]; do 2 f_equal; exact Htl |].
        split; [intros y [] |].
        intros y [<- | Hy]; [lia |]. rewrite Hhd. now apply Ha.
      * subst b. exists (best :: x :: before), after.
        split; [cbn [app]; do 2 f_equal; exact Htl |].
        split; [| exact Ha].
        intros y [<- | [<- | Hy]].
        -- apply Hb. now left.
        -- specialize (Hb best (or_introl eq_refl)). lia.
        -- apply Hb. now right.
Qed.

Lemma first_occurrence (x : string) (l : list string) :
  In x l -> exists pre post, l = (pre ++ x :: post)%list /\ ~ In x pre.
Proof.
  induction l as [|y l IH]; intros Hin; [destruct Hin |].
  destruct (string_dec y x) as [-> | Hyx].
  - exists [], l. split; [reflexivity | intros []].
  - destruct Hin as [E | Hin]; [congruence |].
    destruct (IH Hin) as [pre [post [-> Hpre]]].
    exists (y :: pre), post. split; [reflexivity |].
    intros [E | H]; [congruence | contradiction].
Qed.

Lemma same_place (x : string) (a a' b b' : list string) :
  ~ In x a -> ~ In x a' ->
  (a ++ x :: b = a' ++ x :: b')%list -> a = a'.
Proof.
  revert a'; induction a as [|y a IH]; intros [|y' a'] Ha Ha' E;
    cbn [app] in E.
  - reflexivity.
  - injection E as -> _. exfalso. apply Ha'. now left.
  - injection E as -> _. exfalso. apply Ha. now left.
  - injection E as -> E. f_equal. apply IH; [| | exact E].
    + intros H. apply Ha. now right.
    + intros H. apply Ha'. now right.
Qed.

(** X18.  For records whose types are strings, the type shown as the most
    common one is [N/A] when there is no record; otherwise it is a type
    that occurs at least as often as every other, and among several such
    types the one that appears first in the list. *)
Theorem most_common_type_is_first_most_frequent
    (properties : list pyval) (tys : list string) :
  Forall2 (fun p ty => field p "property_type" "Unknown" = PStr ty) properties tys ->
  match tys with
  | [] => most_common_type properties = inr (PStr "N/A")
  | _ =>
      exists winner pre post,
        most_common_type properties = inr (PStr winner)
        /\ tys = (pre ++ winner :: post)%list
        /\ ~ In winner pre
        /\ (forall ty, occurrences tys ty <= occurrences tys winner)
        /\ (forall ty, In ty pre -> occurrences tys ty < occurrences tys winner)
  end.
Proof.
  intros Htys.
  pose proof (type_counts_strings properties tys Htys []) as Hcounts.
  change (fold_left count_type properties (inr (as_items [])))
    with (type_counts properties) in Hcounts.
  destruct tys as [|ty0 tys0] eqn:Etys.
  { unfold most_common_type. rewrite Hcounts. reflexivity. }
  rewrite <- Etys in *. clear Htys.
  set (types := tally_from [] tys) in *.
  destruct (tally_keys tys [] (NoDup_nil _)) as [_ [_ [Hnd _]]].
  fold types in Hnd.
  assert (Hcount : forall k, tallied k types = occurrences tys k).
  { intros k. unfold types. now rewrite tallied_tally. }
  assert (Hkeys : forall k, In k (map fst types) -> In k tys).
  { intros k Hk. destruct (tally_keys tys [] (NoDup_nil _)) as [later [Hl [_ Hs]]].
    fold types in Hl. rewrite Hl in Hk. cbn [map app] in Hk. auto. }
  unfold most_common_type. rewrite Hcounts. cbn [bindE].
  destruct types as [|first rest] eqn:Etypes.
  { exfalso. specialize (Hcount ty0). cbn [tallied] in Hcount.
    rewrite Etys in Hcount. unfold occurrences in Hcount. cbn [count_occ] in Hcount.
    destruct (string_dec ty0 ty0); [discriminate Hcount | congruence]. }
  rewrite <- Etypes in *.
  cbn [as_items map].
  change (map (fun kn : string * nat => (PStr (fst kn), snd kn)) rest)
    with (as_items rest).
  destruct (max_by_count_first (as_items rest) (PStr (fst first), snd first))
    as [before [after [Hsplit [Hb Ha]]]].
  change ((PStr (fst first), snd first) :: as_items rest)
    with (as_items (first :: rest)) in Hsplit.
  rewrite <- Etypes in Hsplit.
  set (best := max_by_count (PStr (fst first), snd first) (as_items rest)) in *.
  unfold as_items in Hsplit.
  apply map_eq_app in Hsplit as [before_s [rest_s [Ets [Ebefore Erest]]]].
  apply map_eq_cons in Erest as [[winner n] [after_s [-> [Ebest Eafter]]]].
  cbn [fst snd] in Ebest.
  exists winner.
  assert (Hwin : In winner tys).
  { apply Hkeys. rewrite Ets, map_app. apply in_or_app. right. now left. }
  destruct (first_occurrence winner tys Hwin) as [pre [post [Hpre Hnpre]]].
  exists pre, post.
  split.
  { rewrite Etypes. cbn [as_items map].
    change (map (fun kn : string * nat => (PStr (fst kn), snd kn)) rest)
      with (as_items rest).
    fold best. now rewrite <- Ebest. }
  split; [exact Hpre |]. split; [exact Hnpre |].
  assert (Hn : occurrences tys winner = n).
  { rewrite <- Hcount. apply tallied_entry; [exact Hnd |].
    rewrite Ets. apply in_or_app. right. now left. }
  assert (Hsnd : snd best = n) by now rewrite <- Ebest.
  assert (Hentry : forall k m, In (k, m) types -> occurrences tys k = m).
  { intros k m Hin. rewrite <- Hcount. now apply tallied_entry. }
  split.
  - intros ty. rewrite Hn.
    destruct (in_dec string_dec ty (map fst types)) as [Hin | Hnin].
    + apply in_map_iff in Hin as [[k m] [Hk Hin]]. cbn [fst] in Hk. subst k.
      rewrite (Hentry ty m Hin). rewrite Ets in Hin.
      apply in_app_or in Hin as [Hin | [Hin | Hin]].
      * assert (Hlt : snd (PStr ty, m) < snd best).
        { apply Hb. rewrite <- Ebefore.
          apply in_map_iff. exists (ty, m). auto. }
        cbn [snd] in Hlt. lia.
      * injection Hin as _ <-. lia.
      * assert (Hle : snd (PStr ty, m) <= snd best).
        { apply Ha. rewrite <- Eafter.
          apply in_map_iff. exists (ty, m). auto. }
        cbn [snd] in Hle. lia.
    + assert (Hz : tallied ty types = 0).
      { clear - Hnin. induction types as [|[k m] l IH]; [reflexivity |].
        cbn [tallied]. destruct (String.eqb_spec k ty) as [-> | _].
        - exfalso. apply Hnin. now left.
        - apply IH. intros H. apply Hnin. now right. }
      rewrite <- Hcount, Hz. lia.
  - intros ty Hty. rewrite Hn.
    (* the keys before the winner are the types seen before it *)
    destruct (tally_keys pre [] (NoDup_nil _)) as [seen_pre [Hsp [Hnd_pre Hin_pre]]].
    cbn [map app] in Hsp.
    assert (Hall_pre : forall k, In k pre -> In k (map fst (tally_from [] pre))).
    { intros k Hk.
      destruct (in_dec string_dec k (map fst (tally_from [] pre))) as [H | H];
        [exact H |].
      assert (Hz : tallied k (tally_from [] pre) = 0).
      { clear - H. induction (tally_from [] pre) as [|[k' m] l IH]; [reflexivity |].
        cbn [tallied]. destruct (String.eqb_spec k' k) as [-> | _].
        - exfalso. apply H. now left.
        - apply IH. intros H'. apply H. now right. }
      rewrite tallied_tally in Hz. cbn [tallied] in Hz.
      unfold occurrences in Hz.
      apply (count_occ_In string_dec) in Hk. lia. }
    assert (Hw_pre : ~ In winner (map fst (tally_from [] pre))).
    { rewrite Hsp. intros H. apply Hnpre. auto. }
    assert (Hsplit_keys :
              exists later,
                map fst types
                = (map fst (tally_from [] pre) ++ winner :: later)%list).
    { unfold types. rewrite Hpre. unfold tally_from at 1.
      rewrite fold_left_app. cbn [fold_left].
      change (fold_left (fun counted t => bump_string t counted) pre [])
        with (tally_from [] pre).
      change (fold_left (fun counted t => bump_string t counted) post ?x)
        with (tally_from x post).
      destruct (tally_keys post (bump_string winner (tally_from [] pre)))
        as [later [Hl _]].
      { rewrite bump_keys.
        destruct (in_dec _ _ _) as [H | _]; [contradiction |].
        apply NoDup_app; [assumption | repeat constructor; intros [] |].
        intros x Hx [<- | []]. contradiction. }
      exists later. rewrite Hl, bump_keys.
      destruct (in_dec _ _ _) as [H | _]; [contradiction |].
      now rewrite <- List.app_assoc. }
    destruct Hsplit_keys as [later Hlater].
    assert (Hbefore_keys : map fst before_s = map fst (tally_from [] pre)).
    { assert (Hk2 : map fst types
                    = (map fst before_s ++ winner :: map fst after_s)%list)
        by (rewrite Ets, map_app; reflexivity).
      apply (same_place winner _ _ (map fst after_s) later).
      - rewrite Hk2 in Hnd. apply NoDup_remove_2 in Hnd.
        intros H. apply Hnd. apply in_or_app. now left.
      - exact Hw_pre.
      - now rewrite <- Hk2, <- Hlater. }
    specialize (Hall_pre ty Hty). rewrite <- Hbefore_keys in Hall_pre.
    apply in_map_iff in Hall_pre as [[k m] [Hk Hin]]. cbn [fst] in Hk. subst k.
    assert (Hin_types : In (ty, m) types).
    { rewrite Ets. apply in_or_app. now left. }
    rewrite (Hentry ty m Hin_types).
    assert (Hlt : snd (PStr ty, m) < snd best).
    { apply Hb. rewrite <- Ebefore. apply in_map_iff. exists (ty, m). auto. }
    cbn [snd] in Hlt. lia.
Qed.

Lemma count_type_raised (properties : list pyval) (e : exn) :
  fold_left count_type properties (inl e) = inl e.
Proof. induction properties as [|p ps IH]; [reflexivity | exact IH]. Qed.

(** X23.  The tally uses the types as dictionary keys, so it raises a
    [TypeError] exactly when some record has a type that cannot be
    hashed (a list, a mapping, a record object), and it raises nothing
    else. *)
Theorem unhashable_type_raises (properties : list pyval) :
  (most_common_type properties = inl TypeError <->
   exists p, In p properties
             /\ py_hashable (field p "property_type" "Unknown") = false)
  /\ (forall e, most_common_type properties = inl e -> e = TypeError).
Proof.
  assert (Hgen : forall types,
            (exists counted,
               fold_left count_type properties (inr types) = inr counted
               /\ forall p, In p properties ->
                            py_hashable (field p "property_type" "Unknown") = true)
            \/ (fold_left count_type properties (inr types) = inl TypeError
                /\ exists p, In p properties
                             /\ py_hashable (field p "property_type" "Unknown")
                                = false)).
  { induction properties as [|p ps IH]; intros types.
    - left. exists types. split; [reflexivity | intros p []].
    - cbn [fold_left].
      assert (Hstep : count_type (inr types) p
                      = if py_hashable (field p "property_type" "Unknown")
                        then inr (bump (field p "property_type" "Unknown") types)
                        else inl TypeError) by reflexivity.
      rewrite Hstep. clear Hstep.
      destruct (py_hashable (field p "property_type" "Unknown")) eqn:Eh.
      + destruct (IH (bump (field p "property_type" "Unknown") types))
          as [[counted [Hc Hall]] | [Hc [q [Hq Hh]]]].
        * left. exists counted. split; [exact Hc |].
          intros q [<- | Hq]; auto.
        * right. split; [exact Hc |]. exists q. split; [now right | exact Hh].
      + right. split; [apply count_type_raised |].
        exists p. split; [now left | exact Eh]. }
  unfold most_common_type, type_counts.
  destruct (Hgen []) as [[counted [Hc Hall]] | [Hc Hex]]; rewrite Hc; cbn [bindE].
  - split.
    + split.
      * destruct counted; discriminate.
      * intros [p [Hp Hh]]. rewrite (Hall p Hp) in Hh. discriminate Hh.
    + intros e H. destruct counted; discriminate H.
  - split; [split; auto |]. intros e [= <-]. reflexivity.
Qed.

(* ================================================================ *)
(** ** The two text tabs *)
(* ================================================================ *)

Lemma split_go_skip (sep : string) (k : nat) :
  forall cur s, split_go sep k cur s = split_go sep 0 cur (drop k s).
Proof.
  induction k as [|k IH]; intros cur s; [reflexivity |].
  destruct s as [|c s]; [reflexivity |]. cbn [split_go drop]. apply IH.
Qed.

Lemma split_go_nonempty (sep : string) (k : nat) (cur s : string) :
  split_go sep k cur s <> [].
Proof.
  revert k cur; induction s as [|c s IH]; intros k cur; cbn [split_go];
    [discriminate |].
  destruct k; [| apply IH].
  destruct (startswith sep (String c s)); [discriminate | apply IH].
Qed.

Lemma join_with_cons (sep x : string) (rest : list string) :
  rest <> [] -> join_with sep (x :: rest) = x ++ sep ++ join_with sep rest.
Proof. destruct rest; [congruence | reflexivity]. Qed.

Lemma drop_length (k : nat) (s : string) :
  String.length (drop k s) <= String.length s.
Proof.
  revert s; induction k as [|k IH]; intros s; [cbn; lia |].
  destruct s as [|c s]; cbn [drop String.length]; [lia |].
  specialize (IH s). lia.
Qed.

(** Joining the pieces of a split with the separator gives the text back. *)
Lemma split_go_join (sep : string) (n : nat) :
  sep <> "" ->
  forall s cur,
    String.length s <= n ->
    join_with sep (split_go sep 0 cur s) = cur ++ s.
Proof.
  intros Hsep. induction n as [|n IH]; intros s cur Hlen.
  - destruct s; [| cbn in Hlen; lia]. cbn. now rewrite append_empty_r.
  - destruct s as [|c s]; [cbn; now rewrite append_empty_r |].
    cbn [split_go].
    destruct (startswith sep (String c s)) eqn:Es.
    + rewrite split_go_skip, join_with_cons by apply split_go_nonempty.
      rewrite IH.
      * apply startswith_drop in Es.
        transitivity (cur ++ sep ++ drop (String.length sep) (String c s));
          [| now rewrite <- Es].
        destruct sep as [|a sep]; [congruence |].
        cbn [String.length drop Nat.sub]. rewrite ?Nat.sub_0_r. reflexivity.
      * pose proof (drop_length (String.length sep - 1) s).
        cbn [String.length] in Hlen. lia.
    + rewrite IH by (cbn [String.length] in Hlen; lia).
      now rewrite append_assoc.
Qed.

Lemma split_join (sep s : string) :
  sep <> "" -> join_with sep (split sep s) = s.
Proof.
  intros Hsep. unfold split.
  now rewrite (split_go_join sep (String.length s) Hsep s "" (le_n _)).
Qed.

Lemma all_chars_snoc (p : ascii -> bool) (s : string) (c : ascii) :
  all_chars p s = true -> p c = true -> all_chars p (s ++ String c "") = true.
Proof.
  intros Hs Hc. rewrite all_chars_app, Hs. cbn [all_chars]. now rewrite Hc.
Qed.

Lemma split_go_all (p : ascii -> bool) (sep : string) (s : string) :
  forall k cur,
    all_chars p cur = true -> all_chars p s = true ->
    Forall (fun piece => all_chars p piece = true) (split_go sep k cur s).
Proof.
  induction s as [|c s IH]; intros k cur Hcur Hs; cbn [split_go].
  - now constructor.
  - cbn [all_chars] in Hs. apply andb_true_iff in Hs as [Hc Hs].
    destruct k; [| now apply IH].
    destruct (startswith sep (String c s)).
    + constructor; [exact Hcur | now apply IH].
    + apply IH; [now apply all_chars_snoc | exact Hs].
Qed.

Lemma strip_blank (s : string) : all_chars is_space s = true -> strip s = "".
Proof.
  unfold strip. intros H.
  assert (Hl : lstrip s = "").
  { induction s as [|c s IH]; [reflexivity |].
    cbn [all_chars] in H. apply andb_true_iff in H as [Hc Hs].
    cbn [lstrip]. rewrite Hc. now apply IH. }
  now rewrite Hl.
Qed.

Lemma lstrip_cases (s : string) :
  (lstrip s = "" /\ all_chars is_space s = true)
  \/ (exists c r, lstrip s = String c r /\ is_space c = false
                  /\ all_chars is_space s = false).
Proof.
  induction s as [|c s IH]; [now left |].
  cbn [lstrip all_chars]. destruct (is_space c) eqn:Ec; cbn [andb].
  - exact IH.
  - right. exists c, s. auto.
Qed.

(** A paragraph is shown when it has a character that is not
    whitespace. *)
Lemma not_blank_has_text (paragraph : string) :
  not_blank paragraph = has_text paragraph.
Proof.
  unfold not_blank, has_text, strip. f_equal.
  destruct (lstrip_cases paragraph) as [[-> ->] | [c [r [-> [Hc ->]]]]];
    [reflexivity |].
  cbn [rstrip]. rewrite Hc. reflexivity.
Qed.

Lemma filter_not_blank (paragraphs : list string) :
  filter not_blank paragraphs = filter has_text paragraphs.
Proof. apply filter_ext. exact not_blank_has_text. Qed.

Lemma ends_with_newline_snoc (s : string) (c : ascii) :
  ends_with_newline (s ++ String c "") = Ascii.eqb c (ascii_of_nat 10).
Proof.
  induction s as [|a s IH]; [reflexivity |].
  change (String a s ++ String c "") with (String a (s ++ String c "")).
  cbn [ends_with_newline]. rewrite IH.
  destruct s; reflexivity.
Qed.

Lemma startswith_nl2 (c : ascii) (s : string) :
  startswith nl2 (String c s)
  = Ascii.eqb c (ascii_of_nat 10) && startswith nl s.
Proof.
  unfold nl2, nl. cbn [append startswith]. rewrite Ascii.eqb_sym.
  destruct s; reflexivity.
Qed.

Lemma startswith_nl (s : string) :
  startswith nl s
  = match s with String c _ => Ascii.eqb c (ascii_of_nat 10) | _ => false end.
Proof.
  unfold nl. destruct s as [|c s]; [reflexivity |]. cbn [startswith].
  now rewrite Ascii.eqb_sym, andb_true_r.
Qed.

(** Appending a character to a text without a blank line makes none,
    unless a newline is put after a newline. *)
Lemma no_blank_line_snoc (cur : string) (c : ascii) :
  contains nl2 cur = false ->
  ends_with_newline cur && Ascii.eqb c (ascii_of_nat 10) = false ->
  contains nl2 (cur ++ String c "") = false.
Proof.
  induction cur as [|a cur IH]; intros Hcur Hend.
  - cbn [append contains]. rewrite startswith_nl2, startswith_nl.
    now rewrite andb_false_r.
  - change (String a cur ++ String c "") with (String a (cur ++ String c "")).
    apply contains_cons in Hcur as [Hs Hcur].
    cbn [contains]. apply orb_false_iff. split.
    + rewrite startswith_nl2 in *. rewrite startswith_nl in *.
      destruct cur as [|b cur].
      * cbn [append]. cbn [ends_with_newline] in Hend. exact Hend.
      * exact Hs.
    + apply IH; [exact Hcur |].
      destruct cur as [|b cur]; [reflexivity | exact Hend].
Qed.

Lemma cut_cons (piece : string) (rest : list string) :
  rest <> [] ->
  contains nl2 (piece ++ nl) = false -> cut_at_blank_lines rest ->
  cut_at_blank_lines (piece :: rest).
Proof. destruct rest; [congruence |]. cbn [cut_at_blank_lines]. auto. Qed.

(** [split] cuts at the blank lines. *)
Lemma split_go_cut (s : string) :
  (forall cur,
      contains nl2 cur = false ->
      ends_with_newline cur && startswith nl s = false ->
      cut_at_blank_lines (split_go nl2 0 cur s))
  /\ cut_at_blank_lines (split_go nl2 1 "" s).
Proof.
  induction s as [|c s [IH0 IH1]].
  - split; [intros cur Hcur _; exact Hcur | reflexivity].
  - split; [| apply IH0; reflexivity].
    intros cur Hcur Hend. cbn [split_go].
    rewrite startswith_nl in Hend.
    destruct (startswith nl2 (String c s)) eqn:Es.
    + rewrite startswith_nl2 in Es. apply andb_true_iff in Es as [Ec _].
      rewrite Ec, andb_true_r in Hend.
      apply cut_cons; [apply split_go_nonempty | | exact IH1].
      apply no_blank_line_snoc; [exact Hcur |].
      now rewrite Hend.
    + apply IH0.
      * apply no_blank_line_snoc; assumption.
      * rewrite ends_with_newline_snoc.
        rewrite startswith_nl2 in Es. exact Es.
Qed.

(** X19.  For a text that holds no whitespace character beyond ASCII, a
    tab shows the text whole but for the blank paragraphs: the text is
    cut at its blank lines, each cut at the first blank line there is, so
    that the paragraphs joined by blank lines are the text, and the
    widgets are the paragraphs that have a character other than
    whitespace, in their order.  The notice appears exactly for a falsy
    value, and a truthy value that is not a string makes the tab raise an
    [AttributeError]. *)
Theorem tab_shows_the_text (title notice text : string) :
  text <> "" ->
  no_wide_space text = true ->
  (exists paragraphs,
      join_with nl2 paragraphs = text
      /\ cut_at_blank_lines paragraphs
      /\ paragraphs = split nl2 text
      /\ analysis_tab title notice (PStr text)
         = inr (Subheader title :: map Markdown (filter has_text paragraphs)))
  /\ (forall analysis,
        py_truthy analysis = false ->
        analysis_tab title notice analysis = inr [Subheader title; Info notice])
  /\ (forall analysis,
        py_truthy analysis = true -> (forall s, analysis <> PStr s) ->
        analysis_tab title notice analysis = inl AttributeError).
Proof.
  intros Hne _. split; [| split].
  - exists (split nl2 text).
    split; [apply split_join; discriminate |].
    split; [apply (proj1 (split_go_cut text)); reflexivity |].
    split; [reflexivity |].
    unfold analysis_tab. cbn [py_truthy].
    apply String.eqb_neq in Hne. rewrite Hne. cbn [negb].
    now rewrite filter_not_blank.
  - intros analysis Hf. unfold analysis_tab. now rewrite Hf.
  - intros analysis Ht Hs. unfold analysis_tab. rewrite Ht.
    destruct analysis; try reflexivity. now destruct (Hs s).
Qed.

(** X20.  A text made of blank characters only is truthy, so the notice
    is not shown, and none of its paragraphs is shown either: the tab is
    left with its heading alone. *)
Theorem blank_text_gives_empty_tab (title notice text : string) :
  text <> "" ->
  all_chars is_space text = true ->
  analysis_tab title notice (PStr text) = inr [Subheader title].
Proof.
  intros Hne Hblank. unfold analysis_tab. cbn [py_truthy].
  apply String.eqb_neq in Hne. rewrite Hne. cbn [negb].
  do 2 f_equal.
  pose proof (split_go_all is_space nl2 text 0 "" eq_refl Hblank) as Hall.
  fold (split nl2 text) in Hall.
  induction Hall as [|piece pieces Hp _ IH]; [reflexivity |].
  cbn [filter]. unfold not_blank at 1. rewrite (strip_blank piece Hp).
  cbn. exact IH.
Qed.

(* ================================================================ *)
(** ** The later tiers of the section extractor *)
(* ================================================================ *)

Lemma startswith_shorter (a b s : string) :
  startswith (a ++ b) s = true -> startswith a s = true.
Proof.
  revert s; induction a as [|c a IH]; intros s H; [reflexivity |].
  change (String c a ++ b) with (String c (a ++ b)) in H.
  cbn [startswith] in *. destruct s as [|d s]; [discriminate H |].
  apply andb_true_iff in H as [Hc H]. rewrite Hc. cbn [andb]. now apply IH.
Qed.

Lemma contains_shorter (a b s : string) :
  contains (a ++ b) s = true -> contains a s = true.
Proof.
  induction s as [|c s IH]; cbn [contains]; intros H;
    apply orb_true_iff in H as [H | H].
  - apply startswith_shorter in H. now rewrite H.
  - discriminate H.
  - apply startswith_shorter in H. now rewrite H.
  - rewrite (IH H). apply orb_true_r.
Qed.

Lemma mentions_prefix (n m : Z) (section : string) :
  startswith (str_of_Z n) (str_of_Z m) = true ->
  Helpers.mentions m section = true -> Helpers.mentions n section = true.
Proof.
  intros Hpre. apply startswith_drop in Hpre.
  unfold Helpers.mentions. rewrite Hpre at 1 2. intros H.
  apply orb_true_iff in H as [H | H]; apply orb_true_iff; [left | right].
  - apply (contains_shorter _ (drop (String.length (str_of_Z n)) (str_of_Z m))).
    now rewrite append_assoc.
  - apply (contains_shorter _ (drop (String.length (str_of_Z n)) (str_of_Z m))).
    now rewrite append_assoc.
Qed.

Lemma find_exists {A : Type} (p : A -> bool) (l : list A) (x : A) :
  In x l -> p x = true -> exists y, find p l = Some y.
Proof.
  induction l as [|z l IH]; intros Hin Hx; [destruct Hin |].
  cbn [find]. destruct (p z) eqn:Ez; [eexists; reflexivity |].
  destruct Hin as [-> | Hin]; [congruence | now apply IH].
Qed.

(** X21.  On a text that holds no whitespace character beyond ASCII:
    the second tier looks for the number as a piece of text, so a
    paragraph about a property whose number merely starts with the digits
    asked for counts as a mention.  When no section is headed by number
    [n] and some paragraph mentions a number [m] whose numeral begins
    with the numeral of [n], the extractor does not give the placeholder
    for [n]: it returns a paragraph of the text, found by the second
    tier. *)
Theorem mention_of_longer_number_matches
    (text address section : string) (n m : Z) :
  text <> "" ->
  no_wide_space text = true ->
  find (Helpers.header_matches n) (split Helpers.marker text) = None ->
  startswith (str_of_Z n) (str_of_Z m) = true ->
  In section (split nl2 text) ->
  Helpers.mentions m section = true ->
  exists found,
    Helpers.extract_property_valuation text n address = Some found
    /\ In found (split nl2 text)
    /\ Helpers.mentions n found = true.
Proof.
  intros Hne _ Hheader Hpre Hin Hm.
  pose proof (mentions_prefix n m section Hpre Hm) as Hn.
  destruct (find_exists (Helpers.mentions n) _ section Hin Hn) as [found Hfound].
  exists found. unfold Helpers.extract_property_valuation.
  apply String.eqb_neq in Hne. rewrite Hne, Hheader, Hfound.
  split; [reflexivity |]. apply find_some in Hfound. exact Hfound.
Qed.

Lemma find_none_all {A : Type} (p : A -> bool) (l : list A) :
  (forall x, In x l -> p x = false) -> find p l = None.
Proof.
  induction l as [|z l IH]; intros H; [reflexivity |].
  cbn [find]. rewrite (H z (or_introl eq_refl)).
  apply IH. intros x Hx. apply H. now right.
Qed.

(** X22.  For an ASCII text and an ASCII address: the last tier only
    uses those of the first three words of the address that are longer
    than two characters.  When each of the first
    three words has at most two characters (a house number, a direction),
    the address cannot match anything: with no header and no mention for
    the number, the extractor gives the placeholder whatever the rest of
    the address and the text are. *)
Theorem short_address_words_never_match
    (text address : string) (n : Z) :
  text <> "" ->
  ascii_text text = true ->
  ascii_text address = true ->
  find (Helpers.header_matches n) (split Helpers.marker text) = None ->
  find (Helpers.mentions n) (split nl2 text) = None ->
  (forall word, In word (firstn 3 (split_ws (lower address))) ->
                String.length word <= 2) ->
  Helpers.extract_property_valuation text n address
  = Some (Helpers.placeholder n).
Proof.
  intros Hne _ _ Hheader Hmention Hshort.
  assert (Hwords : Helpers.address_words address = []).
  { unfold Helpers.address_words.
    induction (firstn 3 (split_ws (lower address))) as [|w ws IH];
      [reflexivity |].
    cbn [filter].
    assert (Hw : String.length w <= 2) by (apply Hshort; now left).
    apply Nat.ltb_ge in Hw. rewrite Hw.
    apply IH. intros word Hword. apply Hshort. now right. }
  unfold Helpers.extract_property_valuation.
  apply String.eqb_neq in Hne. rewrite Hne, Hheader, Hmention.
  rewrite find_none_all; [reflexivity |].
  intros section _. unfold Helpers.address_matches. now rewrite Hwords.
Qed.

End RealEstate.

(* ================================================================== *)
(** ** The progress callback *)
(* ================================================================== *)

Section TwoWorlds.

Variable py_repr : pyval -> string.
Variable str_exn : exn -> string.
Variable find_urls : pyval -> pyval -> pyval -> list string.
Variables w1 w2 : trace -> call -> E pyval.
Hypothesis same : same_but_for_callback_results w1 w2.

Lemma bind_ext {A B : Type} (m1 m2 : M A) (k1 k2 : A -> M B) (t : trace) :
  m1 t = m2 t -> (forall a t', k1 a t' = k2 a t') ->
  bind m1 k1 t = bind m2 k2 t.
Proof.
  intros Hm Hk. unfold bind. rewrite Hm.
  destruct (m2 t) as [[e | a] t']; [reflexivity | apply Hk].
Qed.

Lemma try_except_ext {A : Type} (b1 b2 : M A) (h1 h2 : exn -> M A) (t : trace) :
  b1 t = b2 t -> (forall e t', h1 e t' = h2 e t') ->
  try_except b1 h1 t = try_except b2 h2 t.
Proof.
  intros Hb Hh. unfold try_except. rewrite Hb.
  destruct (b2 t) as [[e | a] t']; [apply Hh | reflexivity].
Qed.

Lemma invoke_same (c : call) (t : trace) :
  is_callback c = false -> invoke w1 c t = invoke w2 c t.
Proof.
  intros Hc. unfold invoke. pose proof (same t c) as H.
  destruct (w1 t c), (w2 t c); try contradiction; [now subst |].
  destruct H as [H | H]; [congruence | now subst].
Qed.

Lemma update_callback_same (progress : Q) (status activity : string) (t : trace) :
  update_callback w1 progress status activity t
  = update_callback w2 progress status activity t.
Proof.
  unfold update_callback, bind, invoke, ret.
  pose proof (same t (UpdateCallback progress status activity)) as H.
  destruct (w1 t _), (w2 t _); try contradiction; [now subst | reflexivity].
Qed.

Ltac same_step :=
  first
    [ reflexivity
    | apply update_callback_same
    | apply invoke_same; reflexivity
    | apply bind_ext; [| intros]
    | apply try_except_ext; [| intros] ].

Lemma find_properties_same (city state : string) (user_criteria : pydict)
    (selected_websites : list string) (t : trace) :
  find_properties_direct py_repr str_exn w1 city state user_criteria
    selected_websites t
  = find_properties_direct py_repr str_exn w2 city state user_criteria
      selected_websites t.
Proof.
  unfold find_properties_direct.
  destruct (urls_to_search city state selected_websites); [reflexivity |].
  unfold extract_and_normalize, listings, retry_without_schema.
  repeat same_step.
  match goal with |- (if ?b then _ else _) _ = _ => destruct b end;
    repeat same_step.
Qed.

Lemma analyse_same (city state : string) (user_criteria : pydict)
    (properties : pyval) (t : trace) :
  analyse py_repr find_urls w1 city state user_criteria properties t
  = analyse py_repr find_urls w2 city state user_criteria properties t.
Proof. unfold analyse. cbv zeta. repeat same_step. Qed.

(** What the callback returns has no part in a run. *)
Lemma run_same (city state : string) (user_criteria : pydict)
    (selected_websites : list string) (firecrawl_api_key google_api_key : string)
    (t : trace) :
  run_sequential_analysis py_repr str_exn find_urls w1 city state user_criteria
    selected_websites firecrawl_api_key google_api_key t
  = run_sequential_analysis py_repr str_exn find_urls w2 city state user_criteria
      selected_websites firecrawl_api_key google_api_key t.
Proof.
  unfold run_sequential_analysis, run_with_client.
  apply bind_ext; [apply update_callback_same | intros _ t1].
  apply bind_ext; [apply find_properties_same | intros d t2].
  destruct (has_key "error" d); [reflexivity |].
  destruct (negb _); [reflexivity | apply analyse_same].
Qed.

End TwoWorlds.

Lemma reported_progress_increasing : increasing reported_progress.
Proof. cbn. unfold Qlt. cbn. repeat split; lia. Qed.

(** C5 (as amended).  A run gets to its end when every external call
    returns, the search succeeds and its properties can be dumped.  On
    every run that returns the final dictionary the orchestrator invokes
    the progress callback, synchronously and in this order, exactly eight
    times: with 0.2 before the search; with 0.4 once properties are
    found; with 0.5 and 0.7 at the start and the end of the market
    analysis; with 0.8 and 0.9 at the start and the end of the valuation;
    with 0.95 and 1.0 at the start and the end of the synthesis.  The
    progress values are fixed and come in strictly increasing order, every
    invocation carries a status string that is not empty, and what the
    callback returns is not consumed: two worlds that differ only in the
    values the callback returns give the same run. *)
Theorem progress_is_reported_eight_times
    (py_repr : pyval -> string) (str_exn : exn -> string)
    (find_urls : pyval -> pyval -> pyval -> list string) :
  (forall world city state user_criteria selected_websites firecrawl_api_key
          google_api_key t t2 properties count,
      every_call_returns world ->
      find_properties_direct py_repr str_exn world city state user_criteria
        selected_websites (t ++ [search_report])%list
      = (inr (success_result properties count selected_websites), t2) ->
      json_serializable properties = true ->
      exists result items,
        run_sequential_analysis py_repr str_exn find_urls world city state
          user_criteria selected_websites firecrawl_api_key google_api_key t
        = (inr (PDict result),
           (t2 ++ analysis_calls count city state
                    (dict_get user_criteria "budget_range" (PStr "Any"))
                    items)%list))
  /\ (forall world city state user_criteria selected_websites firecrawl_api_key
             google_api_key t t' result,
        run_sequential_analysis py_repr str_exn find_urls world city state
          user_criteria selected_websites firecrawl_api_key google_api_key t
        = (inr (PDict result), t') ->
        exists count items extract_calls,
          let calls :=
            (search_report :: extract_calls
               ++ analysis_calls count city state
                    (dict_get user_criteria "budget_range" (PStr "Any")) items)%list in
          t' = (t ++ calls)%list
          /\ forallb is_extract extract_calls = true
          /\ filter is_callback calls = reports count
          /\ map progress_of (filter is_callback calls)
             = map Some reported_progress
          /\ Py.count is_callback calls = 8
          /\ forallb has_status (filter is_callback calls) = true)
  /\ increasing reported_progress
  /\ List.length reported_progress = 8
  /\ (forall w1 w2 city state user_criteria selected_websites firecrawl_api_key
             google_api_key t,
        same_but_for_callback_results w1 w2 ->
        run_sequential_analysis py_repr str_exn find_urls w1 city state
          user_criteria selected_websites firecrawl_api_key google_api_key t
        = run_sequential_analysis py_repr str_exn find_urls w2 city state
            user_criteria selected_websites firecrawl_api_key google_api_key t).
Proof.
  split; [| split; [| split; [exact reported_progress_increasing |
                              split; [reflexivity |]]]].
  - intros world city state user_criteria selected_websites k1 k2 t t2
      properties count Hret Hf Hjson.
    destruct (run_total py_repr str_exn find_urls world city state user_criteria
                selected_websites k1 k2 t t2 properties count Hret Hf Hjson)
      as [items [m [pv [_ [_ Hrun]]]]].
    eexists _, items. exact Hrun.
  - intros world city state user_criteria selected_websites k1 k2 t t' result H.
    apply run_complete in H. cbv zeta in H.
    destruct H as [properties [items [count [m [pv [extract_calls
                    [_ [_ [_ [Hcalls [Ht _]]]]]]]]]]].
    exists count, items, extract_calls. cbv zeta.
    split; [exact Ht |].
    destruct Hcalls as [-> | ->]; repeat split; reflexivity.
  - intros w1 w2 city state user_criteria selected_websites k1 k2 t Hsame.
    now apply run_same.
Qed.

(* ================================================================== *)
(** ** The statements at concrete inputs *)
(* ================================================================== *)

Import Stubs.

(** The service answers, with success and no listing: no address list is
    empty, nothing raises, and the client still returns an error
    dictionary. *)
Lemma find_properties_error_without_exception :
  urls_to_search "Austin" "TX" ["Zillow"]
  = ["https://www.zillow.com/homes/for_sale/austin-TX/"]
  /\ (forall t c, nothing_found t c = inr (response [] 0))
  /\ normalize (response [] 0) = inr (PList [], PInt 0%Z)
  /\ find_properties_direct plain_repr plain_exn nothing_found
       "Austin" "TX" [] ["Zillow"] []
     = (inr (error_result
               (no_properties_message plain_repr (PInt 0%Z) 0 1 ["Zillow"])),
        [first_call ["https://www.zillow.com/homes/for_sale/austin-TX/"] []]).
Proof. repeat split; reflexivity. Qed.



(** A client that fails: the orchestrator returns the error as a string
    and has called nothing but the first progress report. *)
Lemma orchestrator_short_circuits_witness :
  run_with_client plain_repr no_links retry_succeeds failing_client
    "Austin" "TX" [] []
  = (inr (PStr "Error in property search: service unavailable"), [search_report])
  /\ run_with_client plain_repr no_links retry_succeeds empty_client
       "Austin" "TX" [] []
     = (inr (PStr "No properties found matching your criteria."), [search_report]).
Proof.
  destruct (orchestrator_short_circuits plain_repr plain_exn no_links retry_succeeds)
    as [H _].
  split.
  - apply (proj1 (H failing_client "Austin" "TX" [] [] PNone
                    [("error", PStr "service unavailable")] [search_report]
                    eq_refl eq_refl)).
    reflexivity.
  - apply (proj2 (H empty_client "Austin" "TX" [] [] PNone
                    [("success", PBool true); ("properties", PList [])]
                    [search_report] eq_refl eq_refl));
      reflexivity.
Defined.

(** The first header of the text closes with three asterisks: the
    fragment as trimmed keeps them, the extractor returns two. *)
Lemma first_tier_rewrites_triple_asterisks :
  first_tier_as_stated triple_asterisk_valuations 1
  = Some ("**Property 1: 123 Main St***" ++ nl ++ "• Value: Fair")
  /\ Helpers.extract_property_valuation triple_asterisk_valuations 1 "123 Main St"
     = Some ("**Property 1: 123 Main St**" ++ nl ++ "• Value: Fair").
Proof. split; reflexivity. Qed.

Lemma first_tier_witness :
  Helpers.extract_property_valuation sample_valuations 2 "456 Oak Ave"
  = Some ("**Property 2: 456 Oak Ave**" ++ nl ++ "• Value: High").
Proof.
  destruct first_tier_returns_cleaned_fragment as [H _].
  apply (proj2 (H sample_valuations 2%Z "456 Oak Ave"
                  [""; " 1: 123 Main St**" ++ nl ++ "• Value: Fair" ++ nl2]
                  (" 2: 456 Oak Ave**" ++ nl ++ "• Value: High") []
                  eq_refl eq_refl eq_refl eq_refl)).
  reflexivity.
Defined.

(** A run that gets to its end: the callback is invoked eight times,
    not five. *)
Lemma complete_run_makes_eight_reports :
  (exists result,
      fst (run_sequential_analysis plain_repr plain_exn no_links retry_succeeds
             "Austin" "TX" [] ["Zillow"] "fc-key" "g-key" [])
      = inr (PDict result))
  /\ Py.count is_callback
       (snd (run_sequential_analysis plain_repr plain_exn no_links retry_succeeds
               "Austin" "TX" [] ["Zillow"] "fc-key" "g-key" [])) = 8
  /\ progress_values
       (snd (run_sequential_analysis plain_repr plain_exn no_links retry_succeeds
               "Austin" "TX" [] ["Zillow"] "fc-key" "g-key" []))
     = [ 0.2%Q; 0.4%Q; 0.5%Q; 0.7%Q; 0.8%Q; 0.9%Q; 0.95%Q; 1.0%Q ].
Proof. split; [eexists | split]; vm_compute; reflexivity. Qed.

Lemma chatty_callback_same :
  same_but_for_callback_results retry_succeeds retry_succeeds_chatty.
Proof.
  intros t c. destruct c as [urls p [|] | p | p | progress status activity];
    cbn; auto.
Defined.

Lemma retry_succeeds_returns : every_call_returns retry_succeeds.
Proof.
  intros t c. destruct c as [urls p [|] | p | p | progress status activity];
    eexists; reflexivity.
Defined.

(** The run of the world in which the retry yields two listings gets to
    its end, reports eight times, and is the same with a callback that
    returns a number. *)
Lemma progress_witness :
  exists result t' count,
    run_sequential_analysis plain_repr plain_exn no_links retry_succeeds
      "Austin" "TX" [] ["Zillow"] "fc-key" "g-key" []
    = (inr (PDict result), t')
    /\ filter is_callback t' = reports count
    /\ run_sequential_analysis plain_repr plain_exn no_links retry_succeeds
         "Austin" "TX" [] ["Zillow"] "fc-key" "g-key" []
       = run_sequential_analysis plain_repr plain_exn no_links
           retry_succeeds_chatty
           "Austin" "TX" [] ["Zillow"] "fc-key" "g-key" [].
Proof.
  destruct (progress_is_reported_eight_times plain_repr plain_exn no_links)
    as [Htotal [Hreports [_ [_ Hsame]]]].
  destruct (Htotal retry_succeeds "Austin" "TX" [] ["Zillow"] "fc-key" "g-key" []
              [ search_report;
                first_call ["https://www.zillow.com/homes/for_sale/austin-TX/"] [];
                fallback_call ["https://www.zillow.com/homes/for_sale/austin-TX/"] ]
              (PList two_listings) 2
              retry_succeeds_returns eq_refl eq_refl)
    as [result [items Hrun]].
  destruct (Hreports _ _ _ _ _ _ _ _ _ _ Hrun)
    as [count [items' [extract_calls [Ht [_ [Hfilter _]]]]]].
  eexists result, _, count.
  split; [exact Hrun |]. split.
  - rewrite Ht. exact Hfilter.
  - apply Hsame. exact chatty_callback_same.
Defined.

(** Trulia's address keeps the letter case of the city. *)
Lemma trulia_url_keeps_city_case :
  urls_to_search "New York" "ny" ["Trulia"] = ["https://www.trulia.com/NY/New_York/"]
  /\ trulia_city_as_stated "New York" = "new_york"
  /\ contains (trulia_city_as_stated "New York")
       "https://www.trulia.com/NY/New_York/" = false.
Proof. repeat split; reflexivity. Qed.

Lemma zillow_trulia_known : incl ["Zillow"; "Trulia"] known_sites.
Proof.
  intros site [<- | [<- | []]]; cbn; tauto.
Defined.

Lemma one_url_per_selected_site_witness :
  NoDup (urls_to_search "New York" "ny" ["Zillow"; "Trulia"])
  /\ List.length (urls_to_search "New York" "ny" ["Zillow"; "Trulia"]) = 2
  /\ site_url "New York" "ny" "Zillow"
     = Some "https://www.zillow.com/homes/for_sale/new-york-NY/".
Proof.
  destruct (one_url_per_selected_site "New York" "ny" ["Zillow"; "Trulia"])
    as [_ [Hnd [Hlen [_ [_ Htemplates]]]]];
    [discriminate | exact zillow_trulia_known |].
  split; [exact Hnd |]. split; [exact Hlen |].
  exact (proj1 (Htemplates eq_refl eq_refl)).
Defined.

(** The run of the world in which the retry yields two listings returns
    them, and section 2 of a conforming text is found by its header. *)
Lemma property_numbering_witness :
  (exists result t',
      run_sequential_analysis plain_repr plain_exn no_links retry_succeeds
        "Austin" "TX" [] ["Zillow"] "fc-key" "g-key" []
      = (inr (PDict result), t')
      /\ lookup "properties" result = Some (PList two_listings)
      /\ lookup "total_properties" result = Some (PInt 2))
  /\ (exists section,
        Helpers.extract_property_valuation
          (conforming_valuations
             [ ("123 Main St", nl ++ "• Value: Fair" ++ nl2);
               ("456 Oak Ave", nl ++ "• Value: High") ])
          2 "456 Oak Ave" = Some section
        /\ startswith "**Property 2:" section = true).
Proof.
  destruct (property_numbering_is_stable plain_repr plain_exn no_links retry_succeeds)
    as [_ [Htotal [_ H]]].
  split.
  - exact (Htotal "Austin" "TX" [] ["Zillow"] "fc-key" "g-key" []
             [ search_report;
               first_call ["https://www.zillow.com/homes/for_sale/austin-TX/"] [];
               fallback_call ["https://www.zillow.com/homes/for_sale/austin-TX/"] ]
             (PList two_listings) 2
             retry_succeeds_returns eq_refl eq_refl).
  - exact (H [ ("123 Main St", nl ++ "• Value: Fair" ++ nl2);
               ("456 Oak Ave", nl ++ "• Value: High") ]
             1 "456 Oak Ave" (nl ++ "• Value: High") "456 Oak Ave"
             eq_refl eq_refl).
Defined.

(** The empty text is answered with [None]. *)
Lemma extractor_returns_none_on_empty_text :
  Helpers.extract_property_valuation "" 1 "123 Main St" = None.
Proof. reflexivity. Qed.

Lemma avg_price_witness :
  collect_prices plain_repr (map priced sample_prices) = [500000; 750000]%Z
  /\ avg_price plain_repr (map priced sample_prices)
     = "$" ++ format_thousands 625000.
Proof.
  destruct (avg_price_spec plain_repr) as [H _].
  assert (HF : Forall2 (fun p entry => price_of p = PStr entry)
                 (map priced sample_prices) sample_prices)
    by (repeat constructor).
  assert (HA : Forall (fun entry => ascii_text entry = true) sample_prices)
    by (repeat constructor).
  destruct (H (map priced sample_prices) sample_prices HF HA)
    as [Hvalues [_ Havg]].
  split; [exact Hvalues | exact (proj1 Havg)].
Defined.

(** A price with one digit more than [int] converts is skipped, though
    it is not empty, differs from the sentinel and holds a digit. *)
Example overlong_price_is_skipped :
  kept ("$" ++ nines 4301) = true
  /\ convertible ("$" ++ nines 4301) = false
  /\ avg_price plain_repr [priced ("$" ++ nines 4301); priced "$500,000"]
     = "$500,000".
Proof. repeat split; vm_compute; reflexivity. Qed.

Lemma success_dictionary_witness :
  exists n,
    py_truthy (PList two_listings) = true
    /\ py_len (PList two_listings) = inr (S n)
    /\ PInt 2 = PInt (Z.of_nat (S n)).
Proof.
  destruct (success_dictionary_has_properties plain_repr plain_exn no_links
              retry_succeeds) as [H _].
  exact (H "Austin" "TX" [] ["Zillow"] []
           (success_result (PList two_listings) 2 ["Zillow"])
           [first_call ["https://www.zillow.com/homes/for_sale/austin-TX/"] [];
            fallback_call ["https://www.zillow.com/homes/for_sale/austin-TX/"]]
           eq_refl eq_refl).
Defined.

(* ================================================================== *)
(** ** The further properties at concrete inputs *)
(* ================================================================== *)

Import Scenarios.

(** Two selections with the same members, in another order and with a
    repetition. *)
Lemma urls_depend_on_members_only_witness :
  urls_to_search "Austin" "TX" ["Zillow"; "Trulia"]
  = urls_to_search "Austin" "TX" ["Trulia"; "Zillow"; "Zillow"].
Proof.
  apply (urls_depend_on_members_only "Austin" "TX"
           ["Zillow"; "Trulia"] ["Trulia"; "Zillow"; "Zillow"]).
  intros site. simpl. tauto.
Defined.

(** A site the client does not know. *)
Lemma unknown_sites_make_no_call_witness :
  find_properties_direct plain_repr plain_exn nothing_found
    "Austin" "TX" [] ["Redfin"] []
  = (inr (error_result "No websites selected"), []).
Proof.
  apply (unknown_sites_make_no_call plain_repr plain_exn nothing_found
           "Austin" "TX" [] ["Redfin"] []).
  intros site [<- | []] H. simpl in H.
  decompose [or] H; try discriminate; assumption.
Defined.

(** A city of two words. *)
Lemma urls_hold_no_space_witness :
  contains " " "https://www.trulia.com/TX/San_Antonio/" = false.
Proof.
  apply (urls_hold_no_space "San Antonio" "TX" ["Trulia"]
           "https://www.trulia.com/TX/San_Antonio/").
  - reflexivity.
  - vm_compute. left. reflexivity.
Defined.

(** A response with its data, read as an object and as a mapping. *)
Lemma response_shapes_agree_witness :
  normalize (PObj [ ("success", PBool true);
                    ("data", PDict [ ("properties", PList two_listings);
                                     ("total_count", PInt 2) ]) ])
  = normalize (response two_listings 2)
  /\ normalize (response two_listings 2) = inr (PList two_listings, PInt 2).
Proof.
  destruct (response_shapes_agree
              [ ("success", PBool true);
                ("data", PDict [ ("properties", PList two_listings);
                                 ("total_count", PInt 2) ]) ]
              (PList [], PInt 0)
              (or_introl eq_refl)) as [H1 [_ H3]].
  split; [exact H1 |].
  exact (H3 [ ("properties", PList two_listings); ("total_count", PInt 2) ]
            eq_refl eq_refl).
Defined.

(** Success without data, as an object and as a mapping, and success
    with data that are [None]. *)
Lemma missing_data_depends_on_shape_witness :
  find_properties_direct plain_repr plain_exn bare_success_object
    "Austin" "TX" [] ["Zillow"] []
  = (inr (error_result
            (no_properties_message plain_repr (PInt 0%Z) 0 1 ["Zillow"])),
     [first_call ["https://www.zillow.com/homes/for_sale/austin-TX/"] []])
  /\ find_properties_direct plain_repr plain_exn bare_success_mapping
       "Austin" "TX" [] ["Zillow"] []
     = (inr (error_result (extraction_failed_message plain_exn KeyError)),
        [first_call ["https://www.zillow.com/homes/for_sale/austin-TX/"] []])
  /\ find_properties_direct plain_repr plain_exn empty_data_object
       "Austin" "TX" [] ["Zillow"] []
     = (inr (error_result (extraction_failed_message plain_exn AttributeError)),
        [first_call ["https://www.zillow.com/homes/for_sale/austin-TX/"] []]).
Proof.
  split; [| split].
  - apply (proj1 (missing_data_depends_on_shape plain_repr plain_exn
                    bare_success_object "Austin" "TX" [] ["Zillow"] []
                    [ ("success", PBool true) ]
                    ltac:(discriminate) eq_refl));
      reflexivity.
  - apply (proj1 (proj2 (missing_data_depends_on_shape plain_repr plain_exn
                           bare_success_mapping "Austin" "TX" [] ["Zillow"] []
                           [ ("success", PBool true) ]
                           ltac:(discriminate) eq_refl)));
      reflexivity.
  - apply (proj2 (proj2 (missing_data_depends_on_shape plain_repr plain_exn
                           empty_data_object "Austin" "TX" [] ["Zillow"] []
                           [ ("success", PBool true); ("data", PNone) ]
                           ltac:(discriminate) eq_refl)) PNone);
      [reflexivity | discriminate | discriminate | left; reflexivity].
Defined.

(** A refused request. *)
Lemma unsuccessful_response_is_empty_witness :
  find_properties_direct plain_repr plain_exn refused
    "Austin" "TX" [] ["Zillow"] []
  = (inr (error_result
            (no_properties_message plain_repr (PInt 0%Z) 0 1 ["Zillow"])),
     [first_call ["https://www.zillow.com/homes/for_sale/austin-TX/"] []]).
Proof.
  apply (unsuccessful_response_is_empty plain_repr plain_exn refused
           "Austin" "TX" [] ["Zillow"] []
           (PDict [ ("success", PBool false); ("error", PStr "quota") ])).
  - discriminate.
  - reflexivity.
  - reflexivity.
Defined.

(** Five listings detected, none extracted; the retry yields two. *)
Lemma retry_answer_replaces_first_witness :
  find_properties_direct plain_repr plain_exn retry_succeeds
    "Austin" "TX" [] ["Zillow"] []
  = (inr (success_result (PList two_listings) 2 ["Zillow"]),
     [first_call ["https://www.zillow.com/homes/for_sale/austin-TX/"] [];
      fallback_call ["https://www.zillow.com/homes/for_sale/austin-TX/"]]).
Proof.
  apply (retry_answer_replaces_first plain_repr plain_exn retry_succeeds
           "Austin" "TX" [] ["Zillow"] []
           (response [] 5) (response two_listings 2) 5%Z
           [ ("success", PBool true);
             ("data", PDict [ ("properties", PList two_listings);
                              ("total_count", PInt 2) ]) ]
           [ ("properties", PList two_listings); ("total_count", PInt 2) ]
           two_listings).
  - discriminate.
  - reflexivity.
  - reflexivity.
  - reflexivity.
  - reflexivity.
  - left. reflexivity.
  - reflexivity.
  - reflexivity.
  - reflexivity.
Defined.

(** The market generator is out of quota. *)
Lemma market_failure_reaches_error_box_witness :
  fst (submit plain_repr plain_exn no_links market_down
         "google-key" "firecrawl-key" "Austin" "TX" ["Zillow"]
         300000 500000 "Any" "Any" "Any" 1000 "" [])
  = inr (ErrorBox "quota exceeded").
Proof.
  destruct (market_failure_reaches_error_box plain_repr plain_exn no_links
              market_down
              "google-key" "firecrawl-key" "Austin" "TX" ["Zillow"]
              300000 500000 "Any" "Any" "Any" 1000 "" []
              [ initial_report; search_report;
                first_call ["https://www.zillow.com/homes/for_sale/austin-TX/"]
                  (user_criteria_of 300000 500000 "Any" "Any" "Any" 1000 "");
                fallback_call ["https://www.zillow.com/homes/for_sale/austin-TX/"] ]
              (success_result (PList two_listings) 2 ["Zillow"])
              (Raised "ResourceExhausted" "quota exceeded"))
    as [count [_ H]].
  - reflexivity.
  - intros t c Hc. destruct c; try discriminate Hc. eexists. reflexivity.
  - reflexivity.
  - reflexivity.
  - intros t' p. reflexivity.
  - rewrite H. reflexivity.
Defined.

(** A record handed over as an object. *)
Lemma unserializable_properties_never_complete_witness :
  fst (run_with_client plain_repr no_links retry_succeeds object_client
         "Austin" "TX" [] [])
  = inl TypeError.
Proof.
  destruct (unserializable_properties_never_complete plain_repr no_links
              retry_succeeds object_client "Austin" "TX" [] []
              [search_report]
              [ ("success", PBool true);
                ("properties", PList [ PObj [ ("address", PStr "1 Elm St") ] ]) ])
    as [e [t' [H [_ He]]]].
  - reflexivity.
  - reflexivity.
  - reflexivity.
  - rewrite H. simpl. f_equal. apply He.
    intros t c. destruct c as [urls p [] | | |]; eexists; reflexivity.
Defined.

(** Three records, one of them without a price, and the same in reverse. *)
Lemma avg_price_order_and_unpriced_witness :
  avg_price plain_repr (map priced sample_prices)
  = avg_price plain_repr (rev (map priced sample_prices))
  /\ avg_price plain_repr (filter (usable_price plain_repr) (map priced sample_prices))
     = avg_price plain_repr (map priced sample_prices)
  /\ collect_prices plain_repr (map priced sample_prices)
     = map (price_value plain_repr)
         (filter (usable_price plain_repr) (map priced sample_prices)).
Proof.
  apply (avg_price_order_and_unpriced plain_repr (map priced sample_prices)
           (rev (map priced sample_prices))).
  - repeat constructor.
  - apply Permutation_rev.
Defined.

Lemma avg_price_between_extremes_witness :
  exists mean,
    avg_price plain_repr (map priced sample_prices) = "$" ++ format_thousands mean
    /\ (500000 <= mean <= 750000)%Z /\ (0 <= mean)%Z.
Proof.
  apply (avg_price_between_extremes plain_repr (map priced sample_prices)
           500000 750000).
  - repeat constructor.
  - exists (priced "$500,000"). split; [left; reflexivity | reflexivity].
  - intros p Hin Hu. simpl in Hin.
    destruct Hin as [<- | [<- | [<- | []]]].
    + vm_compute. split; discriminate.
    + vm_compute. split; discriminate.
    + vm_compute in Hu. discriminate Hu.
Defined.

(** A price with cents. *)
Lemma price_digits_run_together_witness :
  avg_price plain_repr [priced "$500,000.00"] = "$50,000,000".
Proof.
  exact (price_digits_run_together plain_repr (priced "$500,000.00")
           "$500,000" ".00" eq_refl eq_refl eq_refl).
Defined.

(** Two types with two records each. *)
Lemma most_common_type_is_first_most_frequent_witness :
  exists winner pre post,
    most_common_type [typed "Condo"; typed "House"; typed "House"; typed "Condo"]
    = inr (PStr winner)
    /\ ["Condo"; "House"; "House"; "Condo"] = (pre ++ winner :: post)%list
    /\ ~ In winner pre
    /\ (forall ty, occurrences ["Condo"; "House"; "House"; "Condo"] ty
                   <= occurrences ["Condo"; "House"; "House"; "Condo"] winner)
    /\ (forall ty, In ty pre ->
                   occurrences ["Condo"; "House"; "House"; "Condo"] ty
                   < occurrences ["Condo"; "House"; "House"; "Condo"] winner).
Proof.
  apply (most_common_type_is_first_most_frequent
           [typed "Condo"; typed "House"; typed "House"; typed "Condo"]
           ["Condo"; "House"; "House"; "Condo"]).
  repeat constructor.
Defined.

(** Two paragraphs with a blank one between them. *)
Lemma tab_shows_the_text_witness :
  market_tab (PStr ("Prices rose." ++ nl2 ++ "  " ++ nl2 ++ "Demand is high."))
  = inr [ Subheader "📊 Market Analysis";
          Markdown "Prices rose."; Markdown "Demand is high." ].
Proof.
  destruct (tab_shows_the_text "📊 Market Analysis" "No market analysis available"
              ("Prices rose." ++ nl2 ++ "  " ++ nl2 ++ "Demand is high."))
    as [[paragraphs [_ [_ [-> Htab]]]] _].
  - discriminate.
  - reflexivity.
  - exact Htab.
Defined.

(** A submission whose run gets to its end, and one whose search finds
    nothing. *)
Lemma page_of_a_submission_witness :
  (exists market_analysis property_valuations t',
      submit plain_repr plain_exn no_links retry_succeeds
        "google-key" "firecrawl-key" "Austin" "TX" ["Zillow"]
        300000 500000 "Any" "Any" "Any" 1000 "" []
      = (inr (Dashboard (PList two_listings) market_analysis property_valuations
                (PInt 2)), t'))
  /\ (exists message t',
        submit plain_repr plain_exn no_links nothing_found
          "google-key" "firecrawl-key" "Austin" "TX" ["Zillow"]
          300000 500000 "Any" "Any" "Any" 1000 "" []
        = (inr (MarkdownReport (PStr ("Error in property search: " ++ message))),
           t')).
Proof.
  split.
  - destruct (page_of_a_submission plain_repr plain_exn no_links retry_succeeds
                "google-key" "firecrawl-key" "Austin" "TX" ["Zillow"]
                300000 500000 "Any" "Any" "Any" 1000 "" [] eq_refl)
      as [_ [_ Hdash]].
    destruct (Hdash (PList two_listings) 2
                [ initial_report; search_report;
                  first_call ["https://www.zillow.com/homes/for_sale/austin-TX/"]
                    (user_criteria_of 300000 500000 "Any" "Any" "Any" 1000 "");
                  fallback_call
                    ["https://www.zillow.com/homes/for_sale/austin-TX/"] ]
                retry_succeeds_returns eq_refl eq_refl)
      as [market_analysis [property_valuations [items [_ Hshown]]]].
    eexists market_analysis, property_valuations, _. exact Hshown.
  - destruct (page_of_a_submission plain_repr plain_exn no_links nothing_found
                "google-key" "firecrawl-key" "Austin" "TX" ["Zillow"]
                300000 500000 "Any" "Any" "Any" 1000 "" [] eq_refl)
      as [_ [Hreport _]].
    eexists _, _.
    apply (Hreport
             (error_result
                (no_properties_message plain_repr (PInt 0%Z) 0 1 ["Zillow"]))
             [ initial_report; search_report;
               first_call ["https://www.zillow.com/homes/for_sale/austin-TX/"]
                 (user_criteria_of 300000 500000 "Any" "Any" "Any" 1000 "") ]).
    + eexists. reflexivity.
    + reflexivity.
    + reflexivity.
Defined.

(** A text of three spaces. *)
Lemma blank_text_gives_empty_tab_witness :
  market_tab (PStr "   ") = inr [Subheader "📊 Market Analysis"].
Proof.
  apply (blank_text_gives_empty_tab "📊 Market Analysis"
           "No market analysis available" "   ").
  - discriminate.
  - reflexivity.
Defined.

(** The text only speaks of property 12; property 1 is asked for. *)
Lemma mention_of_longer_number_matches_witness :
  exists found,
    Helpers.extract_property_valuation "Overview: Property 12 is overpriced." 1
      "1 Elm St"
    = Some found
    /\ In found (split nl2 "Overview: Property 12 is overpriced.")
    /\ Helpers.mentions 1 found = true.
Proof.
  apply (mention_of_longer_number_matches
           "Overview: Property 12 is overpriced." "1 Elm St"
           "Overview: Property 12 is overpriced." 1 12).
  - discriminate.
  - reflexivity.
  - reflexivity.
  - reflexivity.
  - vm_compute. left. reflexivity.
  - reflexivity.
Defined.

(** The text speaks of the street, the address begins with three short
    words. *)
Lemma short_address_words_never_match_witness :
  Helpers.extract_property_valuation "Oak Avenue is a quiet street." 1
    "12 NW 5 Oak Avenue"
  = Some (Helpers.placeholder 1).
Proof.
  apply (short_address_words_never_match "Oak Avenue is a quiet street."
           "12 NW 5 Oak Avenue" 1).
  - discriminate.
  - reflexivity.
  - reflexivity.
  - reflexivity.
  - reflexivity.
  - intros word Hin. vm_compute in Hin.
    destruct Hin as [<- | [<- | [<- | []]]]; vm_compute; repeat constructor.
Defined.
